(** * hudu_py: the request/pagination engine of the Hudu API client

    A shallow embedding of [src/hudu_py/API.py]: the [Hudu.do_request]
    engine (GET pagination loop and the write path), the lookup tables
    built by [Hudu.__init__], and the façade methods built on top of them.

    Conventions of the embedding.
    - Decoded JSON (and every Python value the engine handles) is a [json]
      tree; a Python [dict] is an association list in insertion order, so
      that "the first key" of a payload is the head of the list.
    - Python [str] is Rocq's [string]; a character is one code point, below
      256.  JSON numbers are the integers.
    - The network is a deterministic [Transport]: a world that answers each
      request and steps to a new world.  Every effect of a call is recorded
      as a trace of [event]s (HTTP exchanges and sleeps).
    - The GET loop has no bound in the source; the model takes a [fuel]
      counting loop iterations and answers [OutOfFuel] when it is spent. *)

From Stdlib Require Import Ascii.
From stdpp Require Import gmap strings list pretty.

Local Open Scope Z_scope.
#[local] Set Warnings "-register-all".

(** ** Values *)

Inductive json : Type :=
| JNull
| JBool (b : bool)
| JNum (z : Z)
| JStr (s : string)
| JList (l : list json)
| JDict (d : list (string * json)).

(** A Python dict with string keys, in insertion order. *)
Abbreviation pydict := (list (string * json)).

(** [d.get(k)], as an option. *)
Fixpoint dict_get (k : string) (d : pydict) : option json :=
  match d with
  | [] => None
  | (k', v) :: d' => if String.eqb k k' then Some v else dict_get k d'
  end.

(** [d[k] = v]: overwrite in place when the key exists, append otherwise. *)
Fixpoint dict_set (k : string) (v : json) (d : pydict) : pydict :=
  match d with
  | [] => [(k, v)]
  | (k', v') :: d' =>
      if String.eqb k k' then (k', v) :: d' else (k', v') :: dict_set k v d'
  end.

(** [if x is not None: d[k] = x] *)
Definition dict_set_opt (k : string) (v : option json) (d : pydict) : pydict :=
  match v with
  | Some x => dict_set k x d
  | None => d
  end.

(** ** Exceptions and outcomes *)

Inductive exn : Type :=
| ValueError (msg : string)
| TypeError
| IndexError
| KeyError (k : json)
| NameError (name : string)
| JSONDecodeError
| RequestException.

Inductive outcome (A : Type) : Type :=
| Returned (a : A)
| Raised (e : exn)
| OutOfFuel.
Arguments Returned {A} a.
Arguments Raised {A} e.
Arguments OutOfFuel {A}.

Definition outcome_bind {A B} (f : A → outcome B) (o : outcome A) : outcome B :=
  match o with
  | Returned a => f a
  | Raised e => Raised e
  | OutOfFuel => OutOfFuel
  end.

Definition outcome_map {A B} (f : A → B) (o : outcome A) : outcome B :=
  match o with
  | Returned a => Returned (f a)
  | Raised e => Raised e
  | OutOfFuel => OutOfFuel
  end.

#[global] Instance outcome_fmap : FMap outcome := λ A B, outcome_map.
#[global] Instance outcome_ret : MRet outcome := λ A a, Returned a.
#[global] Instance outcome_mbind : MBind outcome := λ A B f o, outcome_bind f o.

(** ** Python primitives used by the engine *)

(** [type(x).__name__] *)
Definition type_name (x : json) : string :=
  match x with
  | JNull => "NoneType"
  | JBool _ => "bool"
  | JNum _ => "int"
  | JStr _ => "str"
  | JList _ => "list"
  | JDict _ => "dict"
  end.

(** [x[k]] for a string [k]: only a dict can be subscripted by a string. *)
Definition subscript (x : json) (k : string) : outcome json :=
  match x with
  | JDict d =>
      match dict_get k d with
      | Some v => Returned v
      | None => Raised (KeyError (JStr k))
      end
  | _ => Raised TypeError
  end.

(** [len(x)] *)
Definition py_len (x : json) : outcome Z :=
  match x with
  | JList l => Returned (Z.of_nat (length l))
  | JStr s => Returned (Z.of_nat (String.length s))
  | JDict d => Returned (Z.of_nat (length d))
  | _ => Raised TypeError
  end.

Fixpoint chars (s : string) : list json :=
  match s with
  | EmptyString => []
  | String c s' => JStr (String c EmptyString) :: chars s'
  end.

(** The items [list.__iadd__] takes from an iterable [x]. *)
Definition py_iter (x : json) : outcome (list json) :=
  match x with
  | JList l => Returned l
  | JStr s => Returned (chars s)
  | JDict d => Returned (JStr <$> d.*1)
  | _ => Raised TypeError
  end.

(** The integer a value stands for in arithmetic and comparisons. *)
Definition py_int (x : json) : outcome Z :=
  match x with
  | JNum z => Returned z
  | JBool b => Returned (if b then 1 else 0)
  | _ => Raised TypeError
  end.

(** [str(x)] for the optional strings that are formatted into messages. *)
Definition str_opt (x : option string) : string :=
  match x with
  | Some s => s
  | None => "None"
  end.

(** ** HTTP *)

Record request : Type := Request {
  rq_method : string;
  rq_uri : string;
  rq_headers : list (string * string);
  rq_params : option pydict;      (* [params=p] of [requests.get] *)
  rq_data : option pydict         (* [data=json.dumps(p)] of put and post *)
}.

(** A [requests.Response].  [reason] is [None] when the object has no such
    attribute, [Some None] when the attribute holds Python's [None];
    [body] is [None] when [response.json()] raises. *)
Record response : Type := Response {
  status_code : Z;
  reason : option (option string);
  body : option json
}.

Inductive event : Type :=
| EvHttp (rq : request) (rs : exn + response)
| EvSleep (millis : Z).

(** The remote side: answers a request (or fails to) and moves on. *)
Class Transport (World : Type) : Type :=
  send : request → World → (exn + response) * World.

(** A scripted server: the answers in the order they will be given; the
    connection fails once the script is exhausted. *)
#[global] Instance script_transport : Transport (list (exn + response)) :=
  λ _ w, match w with
         | [] => (inl RequestException, [])
         | r :: w' => (r, w')
         end.

(** ** The monad of a call: world passing, a trace, and an outcome *)

Definition M (World A : Type) : Type := World → outcome A * list event * World.

Definition M_ret {World A} (a : A) : M World A := λ w, (Returned a, [], w).

Definition M_bind {World A B} (f : A → M World B) (m : M World A) : M World B :=
  λ w, match m w with
       | (Returned a, t, w1) =>
           match f a w1 with
           | (o, t', w2) => (o, t ++ t', w2)
           end
       | (Raised e, t, w1) => (Raised e, t, w1)
       | (OutOfFuel, t, w1) => (OutOfFuel, t, w1)
       end.

#[global] Instance M_mret {World} : MRet (M World) := λ A, M_ret.
#[global] Instance M_mbind {World} : MBind (M World) := λ A B, M_bind.

Definition lift {World A} (o : outcome A) : M World A := λ w, (o, [], w).
Definition raise {World A} (e : exn) : M World A := lift (Raised e).
Definition out_of_fuel {World A} : M World A := lift OutOfFuel.
Definition sleep {World} (millis : Z) : M World () :=
  λ w, (Returned (), [EvSleep millis], w).

(** One call of [requests.get/put/post/delete]. *)
Definition http `{Transport World} (rq : request) : M World response :=
  λ w, match send rq w with
       | (inl e, w1) => (Raised e, [EvHttp rq (inl e)], w1)
       | (inr r, w1) => (Returned r, [EvHttp rq (inr r)], w1)
       end.

(** The observable parts of a finished run. *)
Definition result_of {World A} (r : outcome A * list event * World) : outcome A := r.1.1.
Definition trace_of {World A} (r : outcome A * list event * World) : list event := r.1.2.

Fixpoint exchanges (t : list event) : list (request * (exn + response)) :=
  match t with
  | [] => []
  | EvHttp rq rs :: t' => (rq, rs) :: exchanges t'
  | EvSleep _ :: t' => exchanges t'
  end.

(** A run with the events [t] before it. *)
Definition prepend {World A} (t : list event) (r : outcome A * list event * World)
    : outcome A * list event * World :=
  (r.1.1, t ++ r.1.2, r.2).

(** The number of HTTP round-trips in a trace. *)
Definition round_trips (t : list event) : nat := length (exchanges t).

(** ** The client object *)

(** The keys of a lookup table: what a hashable value of the data model
    hashes to.  Names and ids are keys of the same dict. *)
Inductive pykey : Type :=
| KNone
| KInt (z : Z)
| KStr (s : string).

#[global] Instance pykey_eq_dec : EqDecision pykey.
Proof. solve_decision. Defined.

#[global] Instance pykey_countable : Countable pykey.
Proof.
  refine (inj_countable'
    (λ k, match k with
          | KNone => inl ()
          | KInt z => inr (inl z)
          | KStr s => inr (inr s)
          end)
    (λ x, match x with
          | inl _ => KNone
          | inr (inl z) => KInt z
          | inr (inr s) => KStr s
          end) _).
  by intros [].
Defined.

Abbreviation LookupTable := (gmap pykey json).

(** What [Hudu.__init__] stores once the API key is resolved; the two lookup
    tables are attributes that exist only when they were asked for. *)
Record Hudu : Type := {
  headers : list (string * string);
  domain : option string;
  api_version : string;
  url : string;
  companies : option LookupTable;
  asset_layouts : option LookupTable
}.

(** The assignments of [__init__] between the credential checks and the
    lookup tables. *)
Definition Hudu_configure (api_key : string) (domain : option string)
    (api_version : string) : Hudu :=
  {| headers := [("accept", "application/json");
                 ("Content-Type", "application/json");
                 ("x-api-key", api_key)];
     domain := domain;
     api_version := api_version;
     url := "https://" +:+ str_opt domain +:+ "/api/" +:+ api_version;
     companies := None;
     asset_layouts := None |}.

(** ** The pagination engine: [Hudu.do_request] *)

Definition methods : list string := ["GET"; "POST"; "PUT"; "DELETE"].

(** [sep.join(l)] *)
Fixpoint join (sep : string) (l : list string) : string :=
  match l with
  | [] => ""
  | s :: l' =>
      match l' with
      | [] => s
      | _ :: _ => s +:+ sep +:+ join sep l'
      end
  end.

(** The variables of the GET loop: the parameter dict (which carries
    [page] and [page_size]), the accumulated [result], [response_size]. *)
Record get_state : Type := GetState {
  gs_p : pydict;
  gs_result : list json;
  gs_response_size : Z
}.

(** [response.json()] *)
Definition response_json (response : response) : outcome json :=
  match body response with
  | Some r_json => Returned r_json
  | None => Raised JSONDecodeError
  end.

(** The [match type(r_json).__name__] of the 200 branch: a dict yields the
    value under its first key, a list is passed through. *)
Definition unwrap (r_json : json) : outcome json :=
  match r_json with
  | JDict d =>
      match d.*1 with
      | [] => Raised IndexError
      | key_name :: _ => subscript r_json key_name
      end
  | JList _ => Returned r_json
  | _ => Raised (ValueError ("I'm not set up to handle this type: <class '"
                             +:+ type_name r_json +:+ "'>"))
  end.

(** [response_size] and [result] after the [if type(r_data) is dict]. *)
Definition absorb (result : list json) (r_data : json) : outcome (Z * list json) :=
  match r_data with
  | JDict _ => Returned (1, [r_data])
  | _ =>
      response_size ← py_len r_data;
      items ← py_iter r_data;
      Returned (response_size, result ++ items)
  end.

(** [if response_size == 25: p['page_size'] = 25] *)
Definition adapt (response_size : Z) (p : pydict) : pydict :=
  if response_size =? 25 then dict_set "page_size" (JNum 25) p else p.

(** The whole [case 200] branch, as a step on the loop variables. *)
Definition on_200 (st : get_state) (response : response) : outcome get_state :=
  r_json ← response_json response;
  r_data ← unwrap r_json;
  sr ← absorb (gs_result st) r_data;
  let p := adapt sr.1 (gs_p st) in
  page ← subscript (JDict p) "page";
  n ← py_int page;
  Returned (GetState (dict_set "page" (JNum (n + 1)) p) sr.2 sr.1).

(** The effective size of a page: the [response_size] its 200 branch sets. *)
Definition response_size_of (response : response) : outcome Z :=
  r_json ← response_json response;
  r_data ← unwrap r_json;
  sr ← absorb [] r_data;
  Returned sr.1.

(** Whether a string holds a space. *)
Fixpoint has_space (s : string) : bool :=
  match s with
  | EmptyString => false
  | String c s' => Ascii.eqb c " " || has_space s'
  end.

(** The message of the [case _] branch. *)
Definition err_str (response : response) : string :=
  let err_str := "Error " +:+ pretty (status_code response) in
  match reason response with
  | Some r => err_str +:+ " --- " +:+ str_opt r
  | None => err_str
  end.

Definition get_request (self : Hudu) (URI : string) (p : pydict) : request :=
  Request "GET" URI (headers self) (Some p) None.

(** [p['page_size']], as the loop condition reads it. *)
Definition page_size_of (st : get_state) : outcome Z :=
  subscript (JDict (gs_p st)) "page_size" ≫= py_int.

(** [while response_size >= p['page_size']: ...] *)
Fixpoint get_loop `{Transport World} (fuel : nat) (self : Hudu) (URI : string)
    (st : get_state) : M World (list json) :=
  page_size ← lift (page_size_of st);
  if page_size <=? gs_response_size st then
    match fuel with
    | O => out_of_fuel
    | S fuel' =>
        response ← http (get_request self URI (gs_p st));
        sleep 10;;
        if status_code response =? 200 then
          st' ← lift (on_200 st response);
          get_loop fuel' self URI st'
        else if status_code response =? 429 then
          sleep 30000;;
          get_loop fuel' self URI st
        else raise (ValueError (err_str response))
    end
  else mret (gs_result st).

(** The loop seen from outside: the traces it can leave from given loop
    variables, with the outcome each one ends in.  One rule per path
    through the body of the [while]. *)
Section LoopRuns.
Variable self : Hudu.
Variable URI : string.

Inductive loop_run : get_state → list event → outcome (list json) → Prop :=
| run_exit st page_size :
    page_size_of st = Returned page_size →
    gs_response_size st < page_size →
    loop_run st [] (Returned (gs_result st))
| run_bad_page_size st e :
    page_size_of st = Raised e →
    loop_run st [] (Raised e)
| run_out_of_fuel st page_size :
    page_size_of st = Returned page_size →
    page_size ≤ gs_response_size st →
    loop_run st [] OutOfFuel
| run_no_response st page_size e :
    page_size_of st = Returned page_size →
    page_size ≤ gs_response_size st →
    loop_run st [EvHttp (get_request self URI (gs_p st)) (inl e)] (Raised e)
| run_200 st page_size response st' t o :
    page_size_of st = Returned page_size →
    page_size ≤ gs_response_size st →
    status_code response = 200 →
    on_200 st response = Returned st' →
    loop_run st' t o →
    loop_run st
      (EvHttp (get_request self URI (gs_p st)) (inr response) :: EvSleep 10 :: t) o
| run_200_raise st page_size response e :
    page_size_of st = Returned page_size →
    page_size ≤ gs_response_size st →
    status_code response = 200 →
    on_200 st response = Raised e →
    loop_run st
      [EvHttp (get_request self URI (gs_p st)) (inr response); EvSleep 10] (Raised e)
| run_429 st page_size response t o :
    page_size_of st = Returned page_size →
    page_size ≤ gs_response_size st →
    status_code response = 429 →
    loop_run st t o →
    loop_run st
      (EvHttp (get_request self URI (gs_p st)) (inr response)
         :: EvSleep 10 :: EvSleep 30000 :: t) o
| run_other st page_size response :
    page_size_of st = Returned page_size →
    page_size ≤ gs_response_size st →
    status_code response ≠ 200 →
    status_code response ≠ 429 →
    loop_run st
      [EvHttp (get_request self URI (gs_p st)) (inr response); EvSleep 10]
      (Raised (ValueError (err_str response))).

(** What the engine keeps true of [p]: [page] is an integer and
    [page_size] is the optimistic 1000 or the downgraded 25. *)
Definition paging (st : get_state) : Prop :=
  (∃ page, dict_get "page" (gs_p st) = Some (JNum page)) ∧
  (dict_get "page_size" (gs_p st) = Some (JNum 1000) ∨
   dict_get "page_size" (gs_p st) = Some (JNum 25)).
End LoopRuns.

(** The responses of a trace that carry a page: those with status 200. *)
Definition pages (t : list event) : list response :=
  omap (λ x, match x.2 with
             | inr response =>
                 if status_code response =? 200 then Some response else None
             | inl _ => None
             end) (exchanges t).

(** The loop variables after a sequence of pages. *)
Fixpoint after_pages (st : get_state) (rs : list response) : outcome get_state :=
  match rs with
  | [] => Returned st
  | response :: rs' => st' ← on_200 st response; after_pages st' rs'
  end.

(** [page] and [page_size] as a request carries them. *)
Definition param_of (name : string) (rq : request) : option json :=
  rq_params rq ≫= dict_get name.

(** The loop variables [do_request] enters the GET loop with. *)
Definition get_init (p : pydict) : get_state :=
  GetState (dict_set "page_size" (JNum 1000) (dict_set "page" (JNum 1) p)) [] 1000.

(** What [do_request] returns: decoded JSON (the list of items for a GET),
    or the raw response when a write's answer does not decode. *)
Inductive pyresult : Type :=
| ResJson (j : json)
| ResResponse (r : response).

Definition method_error : exn :=
  ValueError ("Please specify HTTP method: " +:+ join ", " methods).
Definition endpoint_error : exn := ValueError "Please specify endpoint.".

Definition do_request `{Transport World} (fuel : nat) (self : Hudu)
    (method : string) (endpoint : option string) (p : pydict) : M World pyresult :=
  if negb (bool_decide (method ∈ methods)) then raise method_error
  else
    match endpoint with
    | None => raise endpoint_error
    | Some endpoint =>
        let URI := url self +:+ "/" +:+ endpoint in
        if String.eqb method "GET" then
          let p := dict_set "page" (JNum 1) p in
          let p := dict_set "page_size" (JNum 1000) p in
          response_size ← lift (subscript (JDict p) "page_size" ≫= py_int);
          result ← get_loop fuel self URI (GetState p [] response_size);
          mret (ResJson (JList result))
        else
          response ←
            (if String.eqb method "DELETE"
             then http (Request method URI (headers self) None None)
             else http (Request method URI (headers self) None (Some p)));
          match body response with
          | Some result => mret (ResJson result)
          | None => mret (ResResponse response)
          end
    end.

(** ** Lookup tables: the second half of [Hudu.__init__] *)

(** The key a value hashes to; [True] and [1] are the same dict key. *)
Definition hashable (x : json) : outcome pykey :=
  match x with
  | JNull => Returned KNone
  | JBool b => Returned (KInt (if b then 1 else 0))
  | JNum z => Returned (KInt z)
  | JStr s => Returned (KStr s)
  | JList _ | JDict _ => Raised TypeError
  end.

(** [lookup_table[k] = v] *)
Definition table_set (k v : json) (lookup_table : LookupTable) : outcome LookupTable :=
  key ← hashable k;
  Returned (<[key := v]> lookup_table).

(** [lookup_table[k]] *)
Definition table_get (lookup_table : LookupTable) (k : json) : outcome json :=
  key ← hashable k;
  match lookup_table !! key with
  | Some v => Returned v
  | None => Raised (KeyError k)
  end.

(** The body of [for c in temp_raw]; the right-hand side of each
    assignment is evaluated before its subscript. *)
Definition table_add (lookup_table : LookupTable) (c : json) : outcome LookupTable :=
  v ← subscript c "id";
  k ← subscript c "name";
  lookup_table ← table_set k v lookup_table;
  v ← subscript c "name";
  k ← subscript c "id";
  table_set k v lookup_table.

Fixpoint build_table (temp_raw : list json) (lookup_table : LookupTable)
    : outcome LookupTable :=
  match temp_raw with
  | [] => Returned lookup_table
  | c :: rest =>
      lookup_table ← table_add lookup_table c;
      build_table rest lookup_table
  end.

(** An item with a string under [name] and an integer under [id]. *)
Definition entry_of (c : json) : option (string * Z) :=
  match subscript c "name", subscript c "id" with
  | Returned (JStr name), Returned (JNum id) => Some (name, id)
  | _, _ => None
  end.

(** What one such item adds to the table. *)
Definition table_step (lookup_table : LookupTable) (e : string * Z) : LookupTable :=
  <[KInt e.2 := JStr e.1]> (<[KStr e.1 := JNum e.2]> lookup_table).

(** The items a [for] loop draws from what [do_request] returned. *)
Definition iterate (r : pyresult) : outcome (list json) :=
  match r with
  | ResJson j => py_iter j
  | ResResponse _ => Raised TypeError
  end.

(** One round of [for item in \['companies', 'asset_layouts'\]]. *)
Definition fetch_table `{Transport World} (fuel : nat) (self : Hudu) (item : string)
    : M World LookupTable :=
  temp_raw ← do_request fuel self "GET" (Some item) [];
  items ← lift (iterate temp_raw);
  lift (build_table items ∅).

Definition Hudu_lookup_tables `{Transport World} (fuel : nat) (self : Hudu)
    (lookupTables : bool) : M World Hudu :=
  if lookupTables then
    t1 ← fetch_table fuel self "companies";
    t2 ← fetch_table fuel self "asset_layouts";
    mret {| headers := headers self; domain := domain self;
            api_version := api_version self; url := url self;
            companies := Some t1; asset_layouts := Some t2 |}
  else mret self.

(** ** Name resolution inside a method body *)

(** The names bound at module level by the imports and assignments of
    [API.py]. *)
Definition module_globals : list string :=
  ["datetime"; "requests"; "json"; "Enum"; "os"; "time"; "logging";
   "NullHandler"; "HideSensitiveFilter"; "HideSensitiveService";
   "null_handler"; "logger"; "Hudu"].

(** Python's built-in functions and constants (the built-in exception
    classes are left out; none of them is a name the methods below load). *)
Definition builtins : list string :=
  ["abs"; "aiter"; "all"; "anext"; "any"; "ascii"; "bin"; "bool";
   "breakpoint"; "bytearray"; "bytes"; "callable"; "chr"; "classmethod";
   "compile"; "complex"; "delattr"; "dict"; "dir"; "divmod"; "enumerate";
   "eval"; "exec"; "filter"; "float"; "format"; "frozenset"; "getattr";
   "globals"; "hasattr"; "hash"; "help"; "hex"; "id"; "input"; "int";
   "isinstance"; "issubclass"; "iter"; "len"; "list"; "locals"; "map";
   "max"; "memoryview"; "min"; "next"; "object"; "oct"; "open"; "ord";
   "pow"; "print"; "property"; "range"; "repr"; "reversed"; "round"; "set";
   "setattr"; "slice"; "sorted"; "staticmethod"; "str"; "sum"; "super";
   "tuple"; "type"; "vars"; "zip"; "__import__"; "True"; "False"; "None";
   "Ellipsis"; "NotImplemented"; "__debug__"].

Inductive pyobj : Type :=
| ObjJson (j : json)      (* a value of the data model *)
| ObjOther.               (* the client, a module, a class, a function, a handler *)

(** Loading a name: the locals, then the module globals, then builtins. *)
Definition load_name (locals : gmap string pyobj) (name : string) : outcome pyobj :=
  match locals !! name with
  | Some v => Returned v
  | None =>
      if bool_decide (name ∈ module_globals ++ builtins) then Returned ObjOther
      else Raised (NameError name)
  end.

(** The [p] argument of [do_request] when it is given as a loaded name. *)
Definition as_params (x : pyobj) : outcome pydict :=
  match x with
  | ObjJson (JDict d) => Returned d
  | _ => Raised TypeError
  end.

(** ** Custom-field keys *)

(** [str.lower] on one character.  The capitals below 256 are [A] to [Z]
    and U+00C0 to U+00DE, the multiplication sign U+00D7 apart; each has its
    small letter 32 code points up.  No other character changes. *)
Definition lower_char (c : ascii) : ascii :=
  let n := nat_of_ascii c in
  if ((65 <=? n) && (n <=? 90)
      || (192 <=? n) && (n <=? 222) && negb (n =? 215))%nat
  then ascii_of_nat (n + 32) else c.

(** [s.lower()] *)
Fixpoint lower (s : string) : string :=
  match s with
  | EmptyString => EmptyString
  | String c s' => String (lower_char c) (lower s')
  end.

(** [s.replace(old, new)] for one-character [old] and [new]. *)
Fixpoint replace (old new : ascii) (s : string) : string :=
  match s with
  | EmptyString => EmptyString
  | String c s' =>
      String (if Ascii.eqb c old then new else c) (replace old new s')
  end.

(** [key.lower().replace(" ", "_")] *)
Definition new_key (key : string) : string :=
  replace " "%char "_"%char (lower key).

(** The loop over [custom_fields.items()]. *)
Definition parsed_data (custom_fields : pydict) : list json :=
  (λ kv, JDict [(new_key kv.1, kv.2)]) <$> custom_fields.

(** ** The façade *)

Class DateTime (T : Type) : Type := isoformat : T → string.

Definition is_None {A} (x : option A) : bool :=
  match x with
  | None => true
  | Some _ => false
  end.

Section Facade.
Context `{Transport World} `{DateTime T}.
Variable fuel : nat.
Variable self : Hudu.

(** The parameter shaping of [get_activity_logs], up to the call of the
    engine. *)
Definition activity_logs_params (user_id : option Z) (user_email : option string)
    (resource_id : option Z) (resource_type : option string)
    (action_message : option string) (start_date : option T) : pydict :=
  let params := [] in
  let resource_id :=
    if negb (is_None resource_id) && is_None resource_type then None
    else resource_id in
  let resource_type :=
    if negb (is_None resource_type) && is_None resource_id then None
    else resource_type in
  let params := dict_set_opt "user_id" (JNum <$> user_id) params in
  let params := dict_set_opt "user_email" (JStr <$> user_email) params in
  let params := dict_set_opt "resource_id" (JNum <$> resource_id) params in
  let params := dict_set_opt "resource_type" (JStr <$> resource_type) params in
  let params := dict_set_opt "action_message" (JStr <$> action_message) params in
  let params :=
    dict_set_opt "start_date" (JStr <$> (isoformat <$> start_date)) params in
  params.

Definition get_activity_logs (user_id : option Z) (user_email : option string)
    (resource_id : option Z) (resource_type : option string)
    (action_message : option string) (start_date : option T) : M World pyresult :=
  do_request fuel self "GET" (Some "activity_logs")
    (activity_logs_params user_id user_email resource_id resource_type
       action_message start_date).

(** A call that leaves [p] out gets the default [{}] of [do_request].  That
    default is one dict shared by all such calls; a GET sets [page] and
    [page_size] in it before it reads them, so every GET finds in it what it
    would find in a fresh dict, in the same order. *)
Definition get_api_info : M World pyresult :=
  do_request fuel self "GET" (Some "api_info") [].

Definition get_articles (name : option string) (company_id : option Z)
    (draft : option bool) : M World pyresult :=
  let params := [] in
  let params := dict_set_opt "name" (JStr <$> name) params in
  let params := dict_set_opt "company_id" (JNum <$> company_id) params in
  let params := dict_set_opt "draft" (JBool <$> draft) params in
  do_request fuel self "GET" (Some "articles") params.

(** [return self.do_request('GET', f'articles/{id}', params)]: the
    arguments are evaluated left to right before the call. *)
Definition get_article (id : Z) : M World pyresult :=
  let locals : gmap string pyobj :=
  {[ "self" := ObjOther; "id" := ObjJson (JNum id) ]} in
  let endpoint := "articles/" +:+ pretty id in
  params ← lift (load_name locals "params");
  p ← lift (as_params params);
  do_request fuel self "GET" (Some endpoint) p.

Definition get_asset_layouts (name : option string) : M World pyresult :=
  let params := [] in
  let params := dict_set_opt "name" (JStr <$> name) params in
  do_request fuel self "GET" (Some "asset_layouts") params.

Definition get_asset_layout (id : Z) : M World pyresult :=
  let locals : gmap string pyobj :=
  {[ "self" := ObjOther; "id" := ObjJson (JNum id) ]} in
  let endpoint := "asset_layouts/" +:+ pretty id in
  params ← lift (load_name locals "params");
  p ← lift (as_params params);
  do_request fuel self "GET" (Some endpoint) p.

Definition get_asset_passwords (name : option string) (company_id : option Z)
    (slug search : option string) : M World pyresult :=
  let params := [] in
  let params := dict_set_opt "name" (JStr <$> name) params in
  let params := dict_set_opt "company_id" (JNum <$> company_id) params in
  let params := dict_set_opt "slug" (JStr <$> slug) params in
  let params := dict_set_opt "search" (JStr <$> search) params in
  do_request fuel self "GET" (Some "asset_passwords") params.

Definition get_asset_password (id : Z) : M World pyresult :=
  do_request fuel self "GET" (Some ("asset_passwords/" +:+ pretty id)) [].

Definition get_company_assets (company_id : option Z) (archived : option bool)
    : M World pyresult :=
  let params := [] in
  let params := dict_set_opt "company_id" (JNum <$> company_id) params in
  let params := dict_set_opt "archived" (JBool <$> archived) params in
  do_request fuel self "GET"
    (Some ("companies/" +:+ str_opt (pretty <$> company_id) +:+ "/assets")) params.

(** [get_assets]: with a company and no other filter it hands over to
    [get_company_assets], passing [page] and [page_size], two names that are
    bound nowhere (and that [get_company_assets] would not accept). *)
Definition get_assets (company_id id : option Z) (name : option string)
    (primary_serial asset_layout_id : option Z) (archived : option bool)
    : M World pyresult :=
  let params := [] in
  let locals : gmap string pyobj :=
    {[ "self" := ObjOther;
       "company_id" := ObjJson (default JNull (JNum <$> company_id));
       "id" := ObjJson (default JNull (JNum <$> id));
       "name" := ObjJson (default JNull (JStr <$> name));
       "primary_serial" := ObjJson (default JNull (JNum <$> primary_serial));
       "asset_layout_id" := ObjJson (default JNull (JNum <$> asset_layout_id));
       "archived" := ObjJson (default JNull (JBool <$> archived));
       "params" := ObjJson (JDict params) ]} in
  if negb (is_None company_id) && is_None id && is_None name
     && is_None primary_serial && is_None asset_layout_id then
    lift (load_name locals "page");;
    lift (load_name locals "page_size");;
    raise TypeError
  else
    let params := dict_set_opt "company_id" (JNum <$> company_id) params in
    let params := dict_set_opt "id" (JNum <$> id) params in
    let params := dict_set_opt "name" (JStr <$> name) params in
    let params := dict_set_opt "primary_serial" (JNum <$> primary_serial) params in
    let params := dict_set_opt "asset_layout_id" (JNum <$> asset_layout_id) params in
    let params := dict_set_opt "archived" (JBool <$> archived) params in
    do_request fuel self "GET" (Some "assets") params.

(** [x\[0\]] on what [do_request] returned for a GET. *)
Definition first_item (r : pyresult) : outcome json :=
  items ← iterate r;
  match items with
  | a :: _ => Returned a
  | [] => Raised IndexError
  end.

Definition asset_endpoint (company_id id : Z) : string :=
  "companies/" +:+ pretty company_id +:+ "/assets/" +:+ pretty id.

Definition update_asset (id company_id : Z) (asset_layout_id : option Z)
    (name : option string)
    (primary_serial primary_mail primary_model primary_manufacturer : option string)
    (custom_fields : option pydict) : M World pyresult :=
  na ←
    match name, asset_layout_id with
    | Some name, Some asset_layout_id =>
        mret (JStr name, JNum asset_layout_id)
    | _, _ =>
        r ← do_request fuel self "GET" (Some "assets")
              [("id", JNum id); ("company_id", JNum company_id)];
        a ← lift (first_item r);
        name ← lift (subscript a "name");
        asset_layout_id ← lift (subscript a "asset_layout_id");
        mret (name, asset_layout_id)
    end;
  let asset := [] in
  let asset := dict_set "asset_layout_id" na.2 asset in
  let asset := dict_set "name" na.1 asset in
  let asset := dict_set_opt "primary_serial" (JStr <$> primary_serial) asset in
  let asset := dict_set_opt "primary_mail" (JStr <$> primary_mail) asset in
  let asset := dict_set_opt "primary_model" (JStr <$> primary_model) asset in
  let asset :=
    dict_set_opt "primary_manufacturer" (JStr <$> primary_manufacturer) asset in
  let asset :=
    dict_set_opt "custom_fields" (JList <$> (parsed_data <$> custom_fields)) asset in
  let data := [("asset", JDict asset)] in
  do_request fuel self "PUT" (Some (asset_endpoint company_id id)) data.

End Facade.

(** ** Sample data *)

Definition sample_client : Hudu :=
  Hudu_configure "0123456789abcdef" (Some "docs.example.org") "v1".

(** A 200 answer carrying [payload]. *)
Definition ok_response (payload : json) : response :=
  Response 200 (Some (Some "OK")) (Some payload).

(** An answer with no JSON in it. *)
Definition bare_response (code : Z) (phrase : string) : response :=
  Response code (Some (Some phrase)) None.

(** The scripted server that gives these answers, one per request. *)
Definition answers (rs : list response) : list (exn + response) := inr <$> rs.

(** An exchange: a request and the response it got. *)
Definition answered (rq : request) (r : response) : request * (exn + response) :=
  (rq, inr r).

(** The request of page [page] of the companies, as the engine sends it. *)
Definition companies_request (page page_size : Z) : request :=
  get_request sample_client "https://docs.example.org/api/v1/companies"
    [("page", JNum page); ("page_size", JNum page_size)].

(** A date that is held as its ISO 8601 text. *)
#[global] Instance iso_text : DateTime string := λ s, s.

Definition company (name : string) (id : Z) : json :=
  JDict [("id", JNum id); ("name", JStr name)].

(** A page of [n] companies. *)
Definition company_page (n : nat) : json :=
  JList ((λ i : nat, company ("Company " +:+ pretty i) (Z.of_nat i)) <$> seq 1 n).

(** * The rest of the client *)

(** ** The engine, with the caller's dict in view

    [do_request] writes [page] and [page_size] into the dict it is given.
    The caller keeps a reference to that dict, and a call that leaves [p] out
    gets the one default dict of the function, which every such call
    shares.  The two definitions below are the GET loop and [do_request]
    again, returning the dict as the call leaves it beside the result. *)

Fixpoint get_loop_p `{Transport World} (fuel : nat) (self : Hudu) (URI : string)
    (st : get_state) : M World get_state :=
  page_size ← lift (page_size_of st);
  if page_size <=? gs_response_size st then
    match fuel with
    | O => out_of_fuel
    | S fuel' =>
        response ← http (get_request self URI (gs_p st));
        sleep 10;;
        if status_code response =? 200 then
          st' ← lift (on_200 st response);
          get_loop_p fuel' self URI st'
        else if status_code response =? 429 then
          sleep 30000;;
          get_loop_p fuel' self URI st
        else raise (ValueError (err_str response))
    end
  else mret st.

Definition do_request_p `{Transport World} (fuel : nat) (self : Hudu)
    (method : string) (endpoint : option string) (p : pydict)
    : M World (pyresult * pydict) :=
  if negb (bool_decide (method ∈ methods)) then raise method_error
  else
    match endpoint with
    | None => raise endpoint_error
    | Some endpoint =>
        let URI := url self +:+ "/" +:+ endpoint in
        if String.eqb method "GET" then
          let p := dict_set "page" (JNum 1) p in
          let p := dict_set "page_size" (JNum 1000) p in
          response_size ← lift (subscript (JDict p) "page_size" ≫= py_int);
          st ← get_loop_p fuel self URI (GetState p [] response_size);
          mret (ResJson (JList (gs_result st)), gs_p st)
        else
          response ←
            (if String.eqb method "DELETE"
             then http (Request method URI (headers self) None None)
             else http (Request method URI (headers self) None (Some p)));
          match body response with
          | Some result => mret (ResJson result, p)
          | None => mret (ResResponse response, p)
          end
    end.

(** The number of exchanges that were answered with a 200. *)
Fixpoint served (xs : list (request * (exn + response))) : nat :=
  match xs with
  | [] => 0
  | (_, inr response) :: xs' =>
      if status_code response =? 200 then S (served xs') else served xs'
  | (_, inl _) :: xs' => served xs'
  end.

(** A server that gives the same answer to every request. *)
Inductive stubborn : Type := Stubborn (answer : response).

#[global] Instance stubborn_transport : Transport stubborn :=
  λ _ w, match w with Stubborn answer => (inr answer, w) end.

(** ** [do_raw_get] *)

Definition do_raw_get `{Transport World} (self : Hudu) (endpoint : option string)
    (params : pydict) : M World response :=
  let URI := url self +:+ "/" +:+ str_opt endpoint in
  http (Request "GET" URI (headers self) (Some params) None).

(** ** Construction: [Hudu.__init__] *)

(** What the constructor reads from the process: the environment and, when
    the path exists, the text of [/run/secrets/HUDU_API_KEY]. *)
Record os_env : Type := {
  environ : gmap string string;
  secret_file : option string
}.

(** [str.isspace] on one character (code points below 256). *)
Definition is_space (c : ascii) : bool :=
  let n := nat_of_ascii c in
  ((9 <=? n) && (n <=? 13) || (28 <=? n) && (n <=? 32)
   || (n =? 133) || (n =? 160))%nat.

(** [s.lstrip()] *)
Fixpoint lstrip (s : string) : string :=
  match s with
  | EmptyString => EmptyString
  | String c s' => if is_space c then lstrip s' else s
  end.

(** [s.rstrip()] *)
Fixpoint rstrip (s : string) : string :=
  match s with
  | EmptyString => EmptyString
  | String c s' =>
      match rstrip s' with
      | EmptyString => if is_space c then EmptyString else String c EmptyString
      | r => String c r
      end
  end.

(** [s.strip()] *)
Definition strip (s : string) : string := rstrip (lstrip s).

Definition no_api_key : exn :=
  ValueError ("No api_key found. please either specify api_key as a parameter, "
              +:+ "define it as an environment variable or secret called "
              +:+ "'HUDU_API_KEY'").

(** The three steps that look for the key, in order. *)
Definition resolve_api_key (api_key : option string) (env : os_env) : outcome string :=
  let api_key :=
    match api_key with
    | None => environ env !! "HUDU_API_KEY"
    | Some _ => api_key
    end in
  let api_key :=
    match api_key with
    | None => strip <$> secret_file env
    | Some _ => api_key
    end in
  match api_key with
  | None => Raised no_api_key
  | Some api_key => Returned api_key
  end.

(** [domain] and [api_version] follow the same pattern, the version with a
    literal to fall back on. *)
Definition resolve_domain (domain : option string) (env : os_env) : option string :=
  match domain with
  | None => environ env !! "HUDU_DOMAIN"
  | Some _ => domain
  end.

Definition resolve_api_version (api_version : option string) (env : os_env) : string :=
  match api_version with
  | None => default "v1" (environ env !! "HUDU_API_VERSION")
  | Some api_version => api_version
  end.

Definition Hudu_init `{Transport World} (fuel : nat)
    (api_key domain api_version : option string) (lookupTables : bool)
    (env : os_env) : M World Hudu :=
  api_key ← lift (resolve_api_key api_key env);
  let domain := resolve_domain domain env in
  let api_version := resolve_api_version api_version env in
  Hudu_lookup_tables fuel (Hudu_configure api_key domain api_version) lookupTables.

(** ** Asset-layout fields *)

Inductive FieldType : Type :=
| TEXT | RICHTEXT | HEADING | CHECKBOX | WEBSITE | PASSWORD | EMAIL
| NUMBER | DATE | DROPDOWN | EMBED | PHONE | ASSETLINK | ASSETTAG.

(** [field_type.value] *)
Definition FieldType_value (t : FieldType) : string :=
  match t with
  | TEXT => "Text"
  | RICHTEXT => "RichText"
  | HEADING => "Heading"
  | CHECKBOX => "CheckBox"
  | WEBSITE => "Website"
  | PASSWORD => "Password"
  | EMAIL => "Email"
  | NUMBER => "Number"
  | DATE => "Date"
  | DROPDOWN => "Dropdown"
  | EMBED => "Embed"
  | PHONE => "Phone"
  | ASSETLINK => "AssetLink"
  | ASSETTAG => "AssetTag"
  end.

(** An optional value as JSON: [None] is [null]. *)
Definition opt_json {A} (f : A → json) (x : option A) : json :=
  match x with
  | Some a => f a
  | None => JNull
  end.

(** [Field(...).__dict__]: the attributes in the order [__init__] assigns
    them, under the names it assigns them to. *)
Definition Field (label : string) (show_in_list required : bool)
    (field_type : FieldType) (min max : option Z) (hint options : option string)
    (position : option Z) (expiration : bool) (linkable_id : option Z) : pydict :=
  [("label", JStr label);
   ("min", opt_json JNum min);
   ("max", opt_json JNum max);
   ("show_in_list", JBool show_in_list);
   ("required", JBool required);
   ("field_type", JStr (FieldType_value field_type));
   ("hint", opt_json JStr hint);
   ("options", opt_json JStr options);
   ("posistion", opt_json JNum position);
   ("expiration", JBool expiration);
   ("linkable_id", opt_json JNum linkable_id)].

(** ** Attributes of a dict object *)

(** The names [hasattr] finds on a [dict]. *)
Definition dict_attributes : list string :=
  ["clear"; "copy"; "fromkeys"; "get"; "items"; "keys"; "pop"; "popitem";
   "setdefault"; "update"; "values";
   "__class__"; "__class_getitem__"; "__contains__"; "__delattr__";
   "__delitem__"; "__dir__"; "__doc__"; "__eq__"; "__format__"; "__ge__";
   "__getattribute__"; "__getitem__"; "__getstate__"; "__gt__"; "__hash__";
   "__init__"; "__init_subclass__"; "__ior__"; "__iter__"; "__le__";
   "__len__"; "__lt__"; "__ne__"; "__new__"; "__or__"; "__reduce__";
   "__reduce_ex__"; "__repr__"; "__reversed__"; "__ror__"; "__setattr__";
   "__setitem__"; "__sizeof__"; "__str__"; "__subclasshook__"].

(** [hasattr(locals(), arg)]: [locals()] is a dict, whatever it holds. *)
Definition hasattr_locals (arg : string) : bool :=
  bool_decide (arg ∈ dict_attributes).

(** [v == n] for an integer [n]. *)
Definition py_eq_int (v : json) (n : Z) : bool :=
  match v with
  | JNum z => z =? n
  | JBool b => (if b then 1 else 0) =? n
  | _ => false
  end.

(** ** The façade, continued *)

Section Facade2.
Context `{Transport World}.
Variable fuel : nat.
Variable self : Hudu.

(** *** Articles *)

Definition article_body (name content : string) (enable_sharing : option bool)
    (folder_id company_id : option Z) : pydict :=
  let article := [] in
  let article := dict_set "name" (JStr name) article in
  let article := dict_set "content" (JStr content) article in
  let article := dict_set_opt "enable_sharing" (JBool <$> enable_sharing) article in
  let article := dict_set_opt "folder_id" (JNum <$> folder_id) article in
  let article := dict_set_opt "company_id" (JNum <$> company_id) article in
  [("article", JDict article)].

Definition create_article (name content : string) (enable_sharing : option bool)
    (folder_id company_id : option Z) : M World pyresult :=
  do_request fuel self "POST" (Some "articles")
    (article_body name content enable_sharing folder_id company_id).

Definition update_article (id : Z) (name content : string)
    (enable_sharing : option bool) (folder_id company_id : option Z)
    : M World pyresult :=
  do_request fuel self "PUT" (Some ("articles/" +:+ pretty id))
    (article_body name content enable_sharing folder_id company_id).

(** The calls below leave [p] out: they run on the shared default dict,
    [shared], and hand it on as they leave it. *)
Definition remove_article (id : Z) (shared : pydict) : M World (pyresult * pydict) :=
  do_request_p fuel self "DELETE" (Some ("articles/" +:+ pretty id)) shared.

Definition archive_article (id : Z) (shared : pydict) : M World (pyresult * pydict) :=
  do_request_p fuel self "PUT" (Some ("articles/" +:+ pretty id +:+ "/archive")) shared.

Definition unarchive_article (id : Z) (shared : pydict) : M World (pyresult * pydict) :=
  do_request_p fuel self "PUT" (Some ("articles/" +:+ pretty id +:+ "/unarchive")) shared.

(** *** Asset layouts *)

(** [fields] holds, for each field object of the call, its [__dict__]. *)

Definition asset_layout_body (name icon color icon_color : string)
    (fields : list pydict)
    (include_passwords include_photos include_comments include_files : option bool)
    (password_types : option string) : pydict :=
  let asset_layout := [] in
  let asset_layout := dict_set "name" (JStr name) asset_layout in
  let asset_layout := dict_set "icon" (JStr icon) asset_layout in
  let asset_layout := dict_set "color" (JStr color) asset_layout in
  let asset_layout := dict_set "icon_color" (JStr icon_color) asset_layout in
  let asset_layout :=
    dict_set_opt "include_passwords" (JBool <$> include_passwords) asset_layout in
  let asset_layout :=
    dict_set_opt "include_photos" (JBool <$> include_photos) asset_layout in
  let asset_layout :=
    dict_set_opt "include_comments" (JBool <$> include_comments) asset_layout in
  let asset_layout :=
    dict_set_opt "include_files" (JBool <$> include_files) asset_layout in
  let asset_layout :=
    dict_set_opt "password_types" (JStr <$> password_types) asset_layout in
  let asset_layout := dict_set "fields" (JList (JDict <$> fields)) asset_layout in
  [("asset_layout", JDict asset_layout)].

Definition create_asset_layouts (name icon color icon_color : string)
    (fields : list pydict)
    (include_passwords include_photos include_comments include_files : option bool)
    (password_types : option string) : M World pyresult :=
  do_request fuel self "POST" (Some "asset_layouts")
    (asset_layout_body name icon color icon_color fields include_passwords
       include_photos include_comments include_files password_types).

Definition update_asset_layouts (id : Z) (name icon color icon_color : string)
    (fields : list pydict)
    (include_passwords include_photos include_comments include_files : option bool)
    (password_types : option string) : M World pyresult :=
  do_request fuel self "PUT" (Some ("asset_layouts/" +:+ pretty id))
    (asset_layout_body name icon color icon_color fields include_passwords
       include_photos include_comments include_files password_types).

(** *** Asset passwords *)

Definition optional_args : list string :=
  ["description"; "passwordable_type"; "passwordable_id"; "in_portal";
   "otp_secret"; "url"; "password_type"; "password_folder_id"; "slug"].

(** The loop over [optional_args].  What [getattr] would hand over is a
    method of the dict, which [json.dumps] refuses with a [TypeError]
    before anything is sent. *)
Fixpoint add_optional_args (args : list string) (data : pydict) : outcome pydict :=
  match args with
  | [] => Returned data
  | arg :: args' =>
      if hasattr_locals arg then Raised TypeError
      else add_optional_args args' data
  end.

Definition create_asset_password (name username password passwordable_type
    otp_secret url password_type slug : string) (company_id : Z)
    (description : option string) (passwordable_id : Z) (in_portal : bool)
    (password_folder_id : Z) : M World pyresult :=
  let data :=
    [("asset_password",
      JDict [("name", JStr name); ("username", JStr username);
             ("password", JStr password); ("company_id", JNum company_id)])] in
  data ← lift (add_optional_args optional_args data);
  do_request fuel self "POST" (Some "asset_passwords") data.

(** *** Assets *)

(** The loop of [get_company_asset] over the passwords. *)
Fixpoint select_passwords (all_passwords : list json) (id : Z) : outcome (list json) :=
  match all_passwords with
  | [] => Returned []
  | p :: rest =>
      v ← subscript p "passwordable_id";
      passwords ← select_passwords rest id;
      Returned (if py_eq_int v id then p :: passwords else passwords)
  end.

Definition get_company_asset (company_id id : Z) (shared : pydict)
    : M World (pyresult * pydict) :=
  ds ← do_request_p fuel self "GET"
         (Some ("companies/" +:+ pretty company_id +:+ "/assets/" +:+ pretty id))
         shared;
  all_passwords ← do_request fuel self "GET" (Some "asset_passwords")
                    [("company_id", JNum company_id)];
  items ← lift (iterate all_passwords);
  passwords ← lift (select_passwords items id);
  let data := match ds.1 with
              | ResJson j => j
              | ResResponse _ => JNull
              end in
  mret (ResJson (JDict [("data", data); ("passwords", JList passwords)]), ds.2).

Definition create_asset (company_id asset_layout_id : Z) (name : string)
    (primary_serial primary_mail primary_model primary_manufacturer : option string)
    (custom_fields : option pydict) : M World pyresult :=
  let asset := [] in
  let asset := dict_set "asset_layout_id" (JNum asset_layout_id) asset in
  let asset := dict_set "name" (JStr name) asset in
  let asset := dict_set_opt "primary_serial" (JStr <$> primary_serial) asset in
  let asset := dict_set_opt "primary_mail" (JStr <$> primary_mail) asset in
  let asset := dict_set_opt "primary_model" (JStr <$> primary_model) asset in
  let asset :=
    dict_set_opt "primary_manufacturer" (JStr <$> primary_manufacturer) asset in
  let asset := dict_set_opt "custom_fields" (JDict <$> custom_fields) asset in
  do_request fuel self "POST"
    (Some ("companies/" +:+ pretty company_id +:+ "/assets"))
    [("asset", JDict asset)].

Definition remove_asset (id company_id : Z) (shared : pydict)
    : M World (pyresult * pydict) :=
  do_request_p fuel self "DELETE" (Some (asset_endpoint company_id id)) shared.

Definition archive_asset (id company_id : Z) (shared : pydict)
    : M World (pyresult * pydict) :=
  do_request_p fuel self "PUT"
    (Some (asset_endpoint company_id id +:+ "/archive")) shared.

Definition unarchive_assets (id company_id : Z) (shared : pydict)
    : M World (pyresult * pydict) :=
  do_request_p fuel self "PUT"
    (Some (asset_endpoint company_id id +:+ "/unarchive")) shared.

End Facade2.

(** ** Answers that keep the GET loop going *)

(** A refusal, or a page that is full by the engine's reckoning: a bare
    list of exactly 25 items or of at least 1000. *)
Definition stalls (r : response) : Prop :=
  status_code r = 429 ∨
  (status_code r = 200 ∧
   ∃ l, body r = Some (JList l) ∧ (length l = 25 ∨ 1000 ≤ length l)%nat).

(** The request of a write, as [do_request] builds it. *)
Definition write_request (self : Hudu) (method endpoint : string) (p : pydict)
    : request :=
  Request method (url self +:+ "/" +:+ endpoint) (headers self) None
    (if String.eqb method "DELETE" then None else Some p).

(** What a write returns for a response: its JSON when it has some, the
    response itself otherwise. *)
Definition write_result (response : response) : pyresult :=
  match body response with
  | Some result => ResJson result
  | None => ResResponse response
  end.

(** ** Pieces of the façade, named *)

(** The lookup at the head of [update_asset], taken when [name] or
    [asset_layout_id] is left out. *)
Definition asset_lookup `{Transport World} (fuel : nat) (self : Hudu)
    (id company_id : Z) : M World (json * json) :=
  r ← do_request fuel self "GET" (Some "assets")
        [("id", JNum id); ("company_id", JNum company_id)];
  a ← lift (first_item r);
  name ← lift (subscript a "name");
  asset_layout_id ← lift (subscript a "asset_layout_id");
  mret (name, asset_layout_id).

(** [p['passwordable_id'] == id], for an item that has the key. *)
Definition belongs_to (id : Z) (p : json) : bool :=
  match subscript p "passwordable_id" with
  | Returned v => py_eq_int v id
  | _ => false
  end.

(** ** Sample data, continued *)

(** A process that has the key and the domain in its environment. *)
Definition sample_env : os_env :=
  {| environ := <["HUDU_API_KEY" := "0123456789abcdef"]>
                  (<["HUDU_DOMAIN" := "docs.example.org"]> ∅);
     secret_file := None |}.

(** The request of page [page] of the companies called Acme. *)
Definition named_request (page page_size : Z) : request :=
  get_request sample_client "https://docs.example.org/api/v1/companies"
    [("name", JStr "Acme"); ("page", JNum page); ("page_size", JNum page_size)].

(** A password that hangs on the asset [passwordable_id]. *)
Definition password_of (name : string) (passwordable_id : Z) : json :=
  JDict [("name", JStr name); ("passwordable_id", JNum passwordable_id)].

(** The state of a server that answers [r], whatever the request. *)
Definition always (r : response) (w : stubborn) : Prop := w = Stubborn r.

(** A serial-number field, third in its layout. *)
Definition serial_field : pydict :=
  Field "Serial" true false TEXT None None None None (Some 3) false None.

(** * Properties *)

(** ** Dicts *)

Lemma dict_get_set_eq k v d : dict_get k (dict_set k v d) = Some v.
Proof.
  induction d as [|[k' v'] d IH]; simpl.
  - by rewrite String.eqb_refl.
  - destruct (String.eqb k k') eqn:E; simpl; rewrite E; [done | exact IH].
Qed.

Lemma dict_get_set_ne k k' v d :
  k ≠ k' → dict_get k' (dict_set k v d) = dict_get k' d.
Proof.
  intros Hne. induction d as [|[k0 v0] d IH]; simpl.
  - destruct (String.eqb k' k) eqn:E; [|done].
    apply String.eqb_eq in E. congruence.
  - destruct (String.eqb k k0) eqn:E; simpl.
    + apply String.eqb_eq in E. subst k0.
      destruct (String.eqb k' k) eqn:E'; [|done].
      apply String.eqb_eq in E'. congruence.
    + by rewrite IH.
Qed.

(** Writing what is already there changes nothing. *)
Lemma dict_set_same k v d : dict_get k d = Some v → dict_set k v d = d.
Proof.
  induction d as [|[k' v'] d IH]; simpl; [done|].
  destruct (String.eqb k k'); [by intros [= ->] | intros Hd; by rewrite IH].
Qed.

Lemma dict_get_head k v d : dict_get k ((k, v) :: d) = Some v.
Proof. simpl. by rewrite String.eqb_refl. Qed.

(** ** The monad *)

Lemma exchanges_app t1 t2 : exchanges (t1 ++ t2) = exchanges t1 ++ exchanges t2.
Proof.
  induction t1 as [|[rq rs|ms] t1 IH]; simpl; [done | by rewrite IH | done].
Qed.

(** ** The GET loop *)

Section Loop.
Context `{Transport World}.
Variable self : Hudu.
Variable URI : string.

Lemma get_loop_0 st w :
  get_loop 0 self URI st w =
  match page_size_of st with
  | Returned page_size =>
      if page_size <=? gs_response_size st then (OutOfFuel, [], w)
      else (Returned (gs_result st), [], w)
  | Raised e => (Raised e, [], w)
  | OutOfFuel => (OutOfFuel, [], w)
  end.
Proof.
  cbn [get_loop]. unfold mbind, M_mbind, M_bind, lift.
  destruct (page_size_of st) as [ps| |]; [|done..].
  by destruct (ps <=? gs_response_size st).
Qed.

Lemma get_loop_S fuel st w :
  get_loop (S fuel) self URI st w =
  match page_size_of st with
  | Returned page_size =>
      if page_size <=? gs_response_size st then
        let rq := get_request self URI (gs_p st) in
        match send rq w with
        | (inl e, w1) => (Raised e, [EvHttp rq (inl e)], w1)
        | (inr response, w1) =>
            if status_code response =? 200 then
              match on_200 st response with
              | Returned st' =>
                  prepend [EvHttp rq (inr response); EvSleep 10]
                    (get_loop fuel self URI st' w1)
              | Raised e =>
                  (Raised e, [EvHttp rq (inr response); EvSleep 10], w1)
              | OutOfFuel =>
                  (OutOfFuel, [EvHttp rq (inr response); EvSleep 10], w1)
              end
            else if status_code response =? 429 then
              prepend [EvHttp rq (inr response); EvSleep 10; EvSleep 30000]
                (get_loop fuel self URI st w1)
            else (Raised (ValueError (err_str response)),
                  [EvHttp rq (inr response); EvSleep 10], w1)
        end
      else (Returned (gs_result st), [], w)
  | Raised e => (Raised e, [], w)
  | OutOfFuel => (OutOfFuel, [], w)
  end.
Proof.
  cbn [get_loop]. unfold mbind at 1, M_mbind at 1, M_bind at 1, lift at 1.
  destruct (page_size_of st) as [ps| |]; [|done..].
  destruct (ps <=? gs_response_size st); [|done].
  unfold mbind, M_mbind, M_bind, http, sleep, raise, lift, prepend. cbn zeta.
  destruct (send _ w) as [[e|response] w1]; [done|].
  destruct (status_code response =? 200).
  { destruct (on_200 st response) as [st'| |]; [|done..].
    by destruct (get_loop fuel self URI st' w1) as [[o t] w2]. }
  destruct (status_code response =? 429); [|done].
  by destruct (get_loop fuel self URI st w1) as [[o t] w2].
Qed.

Lemma on_200_fuel st response : on_200 st response ≠ OutOfFuel.
Proof.
  unfold on_200, response_json.
  destruct (body response) as [r_json|]; [simpl|done].
  destruct (unwrap r_json) as [r_data| |] eqn:Eu; simpl; [|done|].
  2:{ revert Eu. unfold unwrap, subscript.
      destruct r_json as [| | | | |d]; try done.
      destruct (d.*1); [done|]. by destruct (dict_get _ _). }
  destruct (absorb (gs_result st) r_data) as [sr| |] eqn:Ea; simpl; [|done|].
  2:{ revert Ea. unfold absorb. by destruct r_data. }
  unfold subscript.
  destruct (dict_get "page" _) as [page|]; simpl; [|done].
  by destruct page as [|[]| | | |].
Qed.

Lemma page_size_of_fuel st : page_size_of st ≠ OutOfFuel.
Proof.
  unfold page_size_of, subscript.
  destruct (dict_get _ _) as [[|[]| | | |]|]; done.
Qed.

(** Every run of the loop function is a run of the loop relation. *)
Lemma get_loop_run fuel st w :
  loop_run self URI st (trace_of (get_loop fuel self URI st w))
    (result_of (get_loop fuel self URI st w)).
Proof.
  revert st w. induction fuel as [|fuel IH]; intros st w.
  - rewrite get_loop_0.
    destruct (page_size_of st) as [ps| |] eqn:Eps.
    + destruct (Z.leb_spec ps (gs_response_size st)).
      * eapply run_out_of_fuel; eauto.
      * eapply run_exit; eauto.
    + by apply run_bad_page_size.
    + by apply page_size_of_fuel in Eps.
  - rewrite get_loop_S.
    destruct (page_size_of st) as [ps| |] eqn:Eps.
    + destruct (Z.leb_spec ps (gs_response_size st)).
      2:{ eapply run_exit; eauto. }
      cbn zeta.
      destruct (send _ w) as [[e|response] w1].
      { eapply run_no_response; eauto. }
      destruct (Z.eqb_spec (status_code response) 200) as [E200|N200].
      { destruct (on_200 st response) as [st'| |] eqn:E2.
        - eapply run_200; eauto.
        - eapply run_200_raise; eauto.
        - by apply on_200_fuel in E2. }
      destruct (Z.eqb_spec (status_code response) 429) as [E429|N429].
      { eapply run_429; eauto. }
      eapply run_other; eauto.
    + by apply run_bad_page_size.
    + by apply page_size_of_fuel in Eps.
Qed.
End Loop.

(** ** Runs of the loop *)

(** Two readings of [page_size] in the same state agree. *)
Ltac same_page_size :=
  repeat match goal with
         | H1 : page_size_of ?s = _, H2 : page_size_of ?s = _ |- _ =>
             rewrite H1 in H2; simplify_eq
         end.

Section Runs.
Variable self : Hudu.
Variable URI : string.

Lemma paging_page_size st :
  paging st → ∃ page_size, page_size_of st = Returned page_size ∧ 1 < page_size.
Proof.
  intros [_ [E|E]]; unfold page_size_of, subscript; rewrite E;
    eexists; (split; [reflexivity|lia]).
Qed.

(** The steps of a page that went through. *)
Lemma on_200_inv st response st' :
  on_200 st response = Returned st' →
  ∃ r_json r_data sr page n,
    body response = Some r_json ∧
    unwrap r_json = Returned r_data ∧
    absorb (gs_result st) r_data = Returned sr ∧
    dict_get "page" (adapt sr.1 (gs_p st)) = Some page ∧
    py_int page = Returned n ∧
    st' = GetState (dict_set "page" (JNum (n + 1)) (adapt sr.1 (gs_p st)))
            sr.2 sr.1.
Proof.
  unfold on_200, response_json. intros E.
  destruct (body response) as [r_json|]; [|done].
  cbn [mbind outcome_mbind outcome_bind] in E.
  destruct (unwrap r_json) as [r_data| |] eqn:Hu; [|done..].
  cbn [mbind outcome_mbind outcome_bind] in E.
  destruct (absorb (gs_result st) r_data) as [sr| |] eqn:Ha; [|done..].
  cbn [mbind outcome_mbind outcome_bind] in E.
  unfold subscript in E.
  destruct (dict_get "page" _) as [page|] eqn:Hpage; [|done].
  cbn [mbind outcome_mbind outcome_bind] in E.
  destruct (py_int page) as [n| |] eqn:Hn; [|done..].
  cbn [mbind outcome_mbind outcome_bind] in E.
  injection E as <-. by exists r_json, r_data, sr, page, n.
Qed.

(** What a page does to [page_size]: only the downgrade to 25 touches it. *)
Lemma on_200_page_size st response st' :
  on_200 st response = Returned st' →
  dict_get "page_size" (gs_p st') =
    if gs_response_size st' =? 25 then Some (JNum 25)
    else dict_get "page_size" (gs_p st).
Proof.
  intros (r_json & r_data & sr & page & n & _ & _ & _ & _ & _ & ->)%on_200_inv.
  cbn [gs_p gs_response_size].
  rewrite dict_get_set_ne by done. unfold adapt.
  destruct (sr.1 =? 25); [by rewrite dict_get_set_eq | done].
Qed.

Lemma on_200_paging st response st' :
  paging st → on_200 st response = Returned st' → paging st'.
Proof.
  intros [[page Hpage] Hps] E. split.
  - apply on_200_inv in E
      as (r_json & r_data & sr & pg & n & _ & _ & _ & _ & _ & ->).
    cbn [gs_p]. rewrite dict_get_set_eq. eauto.
  - rewrite (on_200_page_size _ _ _ E).
    destruct (gs_response_size st' =? 25); [by right | done].
Qed.

(** A mapping under the first key is taken as the whole result. *)
Lemma on_200_single st response key inner rest :
  paging st →
  body response = Some (JDict ((key, JDict inner) :: rest)) →
  ∃ st', on_200 st response = Returned st' ∧
         gs_result st' = [JDict inner] ∧ gs_response_size st' = 1.
Proof.
  intros [[page Hpage] _] Hbody.
  unfold on_200, response_json. rewrite Hbody.
  cbn [mbind outcome_mbind outcome_bind unwrap fmap list_fmap fst subscript].
  rewrite dict_get_head.
  cbn [mbind outcome_mbind outcome_bind absorb fst snd Z.eqb Pos.eqb adapt].
  rewrite Hpage. cbn [mbind outcome_mbind outcome_bind py_int]. eauto.
Qed.

(** A bare list is appended to the result. *)
Lemma on_200_list st response l :
  paging st →
  body response = Some (JList l) →
  ∃ st', on_200 st response = Returned st' ∧
         gs_result st' = gs_result st ++ l ∧
         gs_response_size st' = Z.of_nat (length l).
Proof.
  intros [[page Hpage] _] Hbody.
  unfold on_200, response_json. rewrite Hbody.
  cbn [mbind outcome_mbind outcome_bind unwrap absorb py_len py_iter fst snd
       subscript]. unfold adapt.
  destruct (Z.of_nat (length l) =? 25).
  - rewrite dict_get_set_ne by done. rewrite Hpage.
    cbn [mbind outcome_mbind outcome_bind py_int]. eauto.
  - rewrite Hpage. cbn [mbind outcome_mbind outcome_bind py_int]. eauto.
Qed.

(** Below the threshold the loop is over: nothing is sent any more. *)
Lemma loop_run_exit st t o page_size :
  page_size_of st = Returned page_size →
  gs_response_size st < page_size →
  loop_run self URI st t o →
  t = [] ∧ o = Returned (gs_result st).
Proof.
  intros Eps Hlt Hrun.
  inversion Hrun; subst; try done; same_page_size; lia.
Qed.

(** At or above the threshold the loop goes on: a run that stops without
    an exchange has been cut short. *)
Lemma loop_run_continue st t o page_size :
  page_size_of st = Returned page_size →
  page_size ≤ gs_response_size st →
  loop_run self URI st t o →
  exchanges t = [] →
  o = OutOfFuel.
Proof.
  intros Eps Hle Hrun Hex.
  inversion Hrun; subst; try done; same_page_size; lia.
Qed.

Lemma loop_run_first st t o rq rs xs :
  loop_run self URI st t o →
  exchanges t = (rq, rs) :: xs →
  rq = get_request self URI (gs_p st).
Proof. intros Hrun Hex. inversion Hrun; subst; simpl in Hex; congruence. Qed.

(** Every request of the loop is a GET to the same URI. *)
Lemma loop_run_requests st t o :
  loop_run self URI st t o →
  Forall (λ x, rq_method x.1 = "GET" ∧ rq_uri x.1 = URI) (exchanges t).
Proof.
  induction 1; simpl; repeat constructor; done.
Qed.


(** A single object ends the run with the one-element result. *)
Lemma loop_run_single st t o rq response key inner rest :
  paging st →
  loop_run self URI st t o →
  (rq, inr response) ∈ exchanges t →
  status_code response = 200 →
  body response = Some (JDict ((key, JDict inner) :: rest)) →
  o = Returned [JDict inner] ∧
  last (exchanges t) = Some (rq, inr response).
Proof.
  intros Hpg Hrun Hin E200 Hbody.
  induction Hrun
    as [st ps Eps Hlt | st e Eps | st ps Eps Hle | st ps e Eps Hle
       | st ps resp st' t o Eps Hle E2 Hon Hrun IH
       | st ps resp e Eps Hle E2 Hon
       | st ps resp t o Eps Hle E4 Hrun IH
       | st ps resp Eps Hle N2 N4];
    simpl in Hin.
  - by apply elem_of_nil in Hin.
  - by apply elem_of_nil in Hin.
  - by apply elem_of_nil in Hin.
  - by apply list_elem_of_singleton in Hin.
  - assert (Hpg' : paging st') by by eapply on_200_paging.
    apply elem_of_cons in Hin as [[= -> ->]|Hin].
    + destruct (on_200_single st resp key inner rest Hpg Hbody)
        as (st1 & E1 & Hres & Hsize).
      rewrite Hon in E1. injection E1 as <-.
      destruct (paging_page_size _ Hpg') as (ps' & Eps' & Hps').
      destruct (loop_run_exit st' t o ps' Eps' ltac:(lia) Hrun) as [-> ->].
      by rewrite Hres.
    + destruct (IH Hpg' Hin) as [-> Hlast]. split; [done|].
      simpl. by rewrite last_cons, Hlast.
  - apply list_elem_of_singleton in Hin as [= -> ->].
    destruct (on_200_single st resp key inner rest Hpg Hbody)
      as (st1 & E1 & _). congruence.
  - apply elem_of_cons in Hin as [[= -> ->]|Hin]; [lia|].
    destruct (IH Hpg Hin) as [-> Hlast]. split; [done|].
    simpl. by rewrite last_cons, Hlast.
  - by apply list_elem_of_singleton in Hin as [= -> ->].
Qed.

(** The request that follows a 429 is the request that was refused. *)
Lemma loop_run_retry st t o pre rq response rq' rs' post :
  loop_run self URI st t o →
  exchanges t = pre ++ (rq, inr response) :: (rq', rs') :: post →
  status_code response = 429 →
  rq' = rq.
Proof.
  intros Hrun. revert pre.
  induction Hrun
    as [st ps Eps Hlt | st e Eps | st ps Eps Hle | st ps e Eps Hle
       | st ps resp st' t o Eps Hle E2 Hon Hrun IH
       | st ps resp e Eps Hle E2 Hon
       | st ps resp t o Eps Hle E4 Hrun IH
       | st ps resp Eps Hle N2 N4];
    intros pre Hex E429; simpl in Hex.
  - by destruct pre.
  - by destruct pre.
  - by destruct pre.
  - by destruct pre as [|? [|]].
  - destruct pre as [|x pre]; simpl in Hex.
    + injection Hex as ? ? Hex; subst. lia.
    + injection Hex as ? Hex; subst. eauto.
  - by destruct pre as [|? [|]].
  - destruct pre as [|x pre]; simpl in Hex.
    + injection Hex as ? ? Hex; subst.
      by eapply loop_run_first.
    + injection Hex as ? Hex; subst. eauto.
  - by destruct pre as [|? [|]].
Qed.

(** A run never ends on a 429 of its own accord. *)
Lemma loop_run_429_last st t o rq response :
  loop_run self URI st t o →
  last (exchanges t) = Some (rq, inr response) →
  status_code response = 429 →
  o = OutOfFuel.
Proof.
  intros Hrun.
  induction Hrun
    as [st ps Eps Hlt | st e Eps | st ps Eps Hle | st ps e Eps Hle
       | st ps resp st' t o Eps Hle E2 Hon Hrun IH
       | st ps resp e Eps Hle E2 Hon
       | st ps resp t o Eps Hle E4 Hrun IH
       | st ps resp Eps Hle N2 N4];
    simpl; intros Hlast E429; try done.
  - rewrite last_cons in Hlast.
    destruct (last (exchanges t)) as [x|] eqn:El; [by apply IH|].
    injection Hlast as ? ?; subst. lia.
  - injection Hlast as ? ?; subst. lia.
  - rewrite last_cons in Hlast.
    destruct (last (exchanges t)) as [x|] eqn:El; [by apply IH|].
    apply last_None in El. by eapply loop_run_continue.
  - by injection Hlast as ? ?; subst.
Qed.

(** The result is what the pages of the run leave behind: a 429 exchange
    contributes nothing to it and each page is taken in once. *)
Lemma loop_run_pages st t o result :
  loop_run self URI st t o →
  o = Returned result →
  ∃ st', after_pages st (pages t) = Returned st' ∧ gs_result st' = result.
Proof.
  intros Hrun.
  induction Hrun
    as [st ps Eps Hlt | st e Eps | st ps Eps Hle | st ps e Eps Hle
       | st ps resp st' t o Eps Hle E2 Hon Hrun IH
       | st ps resp e Eps Hle E2 Hon
       | st ps resp t o Eps Hle E4 Hrun IH
       | st ps resp Eps Hle N2 N4];
    intros Ho; try done.
  - injection Ho as <-. by exists st.
  - destruct (IH Ho) as (st1 & E1 & Hres). exists st1. split; [|done].
    unfold pages in *. simpl. rewrite (proj2 (Z.eqb_eq _ _) E2). simpl.
    by rewrite Hon.
  - destruct (IH Ho) as (st1 & E1 & Hres). exists st1. split; [|done].
    assert (N2 : status_code resp ≠ 200) by lia.
    unfold pages in *. simpl.
    by rewrite (proj2 (Z.eqb_neq _ _) N2).
Qed.

(** Once [page_size] is 25 every request carries 25. *)
Lemma loop_run_page_size_25 st t o :
  dict_get "page_size" (gs_p st) = Some (JNum 25) →
  loop_run self URI st t o →
  Forall (λ x, param_of "page_size" x.1 = Some (JNum 25)) (exchanges t).
Proof.
  intros H25 Hrun.
  induction Hrun
    as [st ps Eps Hlt | st e Eps | st ps Eps Hle | st ps e Eps Hle
       | st ps resp st' t o Eps Hle E2 Hon Hrun IH
       | st ps resp e Eps Hle E2 Hon
       | st ps resp t o Eps Hle E4 Hrun IH
       | st ps resp Eps Hle N2 N4];
    simpl; repeat constructor; try done.
  - apply IH. rewrite (on_200_page_size _ _ _ Hon), H25.
    by destruct (_ =? _).
  - by apply IH.
Qed.

Lemma absorb_size result result' r_data sr :
  absorb result r_data = Returned sr →
  ∃ sr', absorb result' r_data = Returned sr' ∧ sr'.1 = sr.1.
Proof.
  unfold absorb. destruct r_data; try done; intros [= <-]; eauto.
Qed.

Lemma on_200_response_size st response st' :
  on_200 st response = Returned st' →
  response_size_of response = Returned (gs_response_size st').
Proof.
  intros (r_json & r_data & sr & page & n & Hb & Hu & Ha & _ & _ & ->)%on_200_inv.
  unfold response_size_of, response_json. rewrite Hb.
  cbn [mbind outcome_mbind outcome_bind]. rewrite Hu.
  cbn [mbind outcome_mbind outcome_bind].
  destruct (absorb_size _ [] _ _ Ha) as (sr' & -> & Hsz).
  cbn [mbind outcome_mbind outcome_bind gs_response_size]. by rewrite Hsz.
Qed.

(** A page that has a size is taken in, whatever has been accumulated. *)
Lemma on_200_total st response n :
  paging st →
  response_size_of response = Returned n →
  ∃ st', on_200 st response = Returned st'.
Proof.
  intros [[page Hpage] _]. unfold response_size_of, on_200.
  destruct (response_json response) as [r_json| |]; [|done..].
  cbn [mbind outcome_mbind outcome_bind].
  destruct (unwrap r_json) as [r_data| |]; [|done..].
  cbn [mbind outcome_mbind outcome_bind].
  destruct (absorb [] r_data) as [sr0| |] eqn:Ha; [|done..].
  destruct (absorb_size _ (gs_result st) _ _ Ha) as (sr & -> & _).
  cbn [mbind outcome_mbind outcome_bind]. intros _.
  unfold subscript, adapt.
  destruct (sr.1 =? 25).
  - rewrite dict_get_set_ne by done. rewrite Hpage.
    cbn [mbind outcome_mbind outcome_bind py_int]. eauto.
  - rewrite Hpage. cbn [mbind outcome_mbind outcome_bind py_int]. eauto.
Qed.

(** The adaptive downgrade.  While the first page is being fetched (the
    refused attempts [pre] and the attempt that succeeds) the requests
    carry the [page_size] of the state; if that page has effective size
    25, every later request carries 25, and there is a later request
    unless the run has been cut short. *)
Lemma loop_run_downgrade st t o pre rq response rest page_size :
  paging st →
  dict_get "page_size" (gs_p st) = Some page_size →
  loop_run self URI st t o →
  exchanges t = pre ++ (rq, inr response) :: rest →
  Forall (λ x, ∃ r, x.2 = inr r ∧ status_code r = 429) pre →
  status_code response = 200 →
  response_size_of response = Returned 25 →
  Forall (λ x, param_of "page_size" x.1 = Some page_size)
    (pre ++ [(rq, inr response)]) ∧
  Forall (λ x, param_of "page_size" x.1 = Some (JNum 25)) rest ∧
  (rest = [] → o = OutOfFuel).
Proof.
  intros Hpg Hps Hrun. revert pre.
  induction Hrun
    as [st ps Eps Hlt | st e Eps | st ps Eps Hle | st ps e Eps Hle
       | st ps resp st' t o Eps Hle E2 Hon Hrun IH
       | st ps resp e Eps Hle E2 Hon
       | st ps resp t o Eps Hle E4 Hrun IH
       | st ps resp Eps Hle N2 N4];
    intros pre Hex Hpre E200 Hsize; simpl in Hex.
  - by destruct pre.
  - by destruct pre.
  - by destruct pre.
  - by destruct pre as [|? [|]].
  - destruct pre as [|x pre]; simpl in Hex.
    + injection Hex as ? ? Hex; subst.
      rewrite (on_200_response_size _ _ _ Hon) in Hsize.
      injection Hsize as Hsize.
      assert (H25 : dict_get "page_size" (gs_p st') = Some (JNum 25)).
      { by rewrite (on_200_page_size _ _ _ Hon), Hsize. }
      split_and!.
      * by repeat constructor.
      * by eapply loop_run_page_size_25.
      * intros Hnil. eapply (loop_run_continue st' t o 25); eauto; [|lia].
        unfold page_size_of, subscript. by rewrite H25.
    + injection Hex as ? Hex; subst.
      apply Forall_cons in Hpre as [(r & [= <-] & Hr) _]. lia.
  - destruct pre as [|x [|]]; try done. simpl in Hex.
    injection Hex as ? ?; subst.
    destruct (on_200_total st _ 25 Hpg Hsize) as [st1 E1]. congruence.
  - destruct pre as [|x pre]; simpl in Hex.
    + injection Hex as ? ? Hex; subst. lia.
    + injection Hex as ? Hex; subst.
      apply Forall_cons in Hpre as [_ Hpre].
      destruct (IH Hpg Hps pre Hex Hpre E200 Hsize) as (H1 & H2 & H3).
      split_and!; [|done..]. simpl. by constructor.
  - destruct pre as [|x [|]]; try done. simpl in Hex.
    by injection Hex as ? ?; subst.
Qed.

Lemma on_200_list_result st response st' l :
  on_200 st response = Returned st' →
  body response = Some (JList l) →
  gs_result st' = gs_result st ++ l.
Proof.
  intros (r_json & r_data & sr & page & n & Hb & Hu & Ha & _ & _ & ->)%on_200_inv
    Hbody.
  rewrite Hbody in Hb. injection Hb as <-.
  simpl in Hu. injection Hu as <-.
  simpl in Ha. by injection Ha as <-.
Qed.

(** Pages that are bare lists are concatenated. *)
Lemma after_pages_lists st rs ls st' :
  Forall2 (λ r l, body r = Some (JList l)) rs ls →
  after_pages st rs = Returned st' →
  gs_result st' = gs_result st ++ concat ls.
Proof.
  intros Hall. revert st.
  induction Hall as [|r l rs ls Hbody Hall IH]; intros st; simpl.
  - intros [= <-]. by rewrite app_nil_r.
  - destruct (on_200 st r) as [st1| |] eqn:Hon; [|done..].
    cbn [mbind outcome_mbind outcome_bind]. intros Hrest.
    rewrite (IH _ Hrest), (on_200_list_result _ _ _ _ Hon Hbody).
    by rewrite app_assoc.
Qed.

(** A short first page.  While [page_size] is 1000, a bare list of fewer
    than 1000 items, and not of 25, is the last page: once it has been
    received (after whatever attempts were refused) nothing more is sent
    and the list joins the result. *)
Lemma loop_run_short_list st t o pre rq response l rest :
  paging st →
  dict_get "page_size" (gs_p st) = Some (JNum 1000) →
  loop_run self URI st t o →
  exchanges t = pre ++ (rq, inr response) :: rest →
  Forall (λ x, ∃ r, x.2 = inr r ∧ status_code r = 429) pre →
  status_code response = 200 →
  body response = Some (JList l) →
  (length l < 1000)%nat →
  length l ≠ 25%nat →
  rest = [] ∧ o = Returned (gs_result st ++ l).
Proof.
  intros Hpg Hps Hrun. revert pre.
  induction Hrun
    as [st ps Eps Hlt | st e Eps | st ps Eps Hle | st ps e Eps Hle
       | st ps resp st' t o Eps Hle E2 Hon Hrun IH
       | st ps resp e Eps Hle E2 Hon
       | st ps resp t o Eps Hle E4 Hrun IH
       | st ps resp Eps Hle N2 N4];
    intros pre Hex Hpre E200 Hbody Hlen H25; simpl in Hex.
  - by destruct pre.
  - by destruct pre.
  - by destruct pre.
  - by destruct pre as [|? [|]].
  - destruct pre as [|x pre]; simpl in Hex.
    + injection Hex as ? ? Hex; subst.
      destruct (on_200_list st _ l Hpg Hbody) as (st1 & Hon1 & Hres & Hsize).
      rewrite Hon in Hon1. injection Hon1 as <-.
      assert (Eps' : page_size_of st' = Returned 1000).
      { unfold page_size_of, subscript.
        rewrite (on_200_page_size _ _ _ Hon), Hsize.
        rewrite (proj2 (Z.eqb_neq _ _)) by lia. by rewrite Hps. }
      destruct (loop_run_exit st' t o 1000 Eps' ltac:(lia) Hrun) as [-> ->].
      by rewrite Hres.
    + injection Hex as ? Hex; subst.
      apply Forall_cons in Hpre as [(r & [= <-] & Hr) _]. lia.
  - destruct pre as [|x [|]]; try done. simpl in Hex.
    injection Hex as ? ?; subst.
    destruct (on_200_list st _ l Hpg Hbody) as (st1 & Hon1 & _). congruence.
  - destruct pre as [|x pre]; simpl in Hex.
    + injection Hex as ? ? Hex; subst. lia.
    + injection Hex as ? Hex; subst.
      apply Forall_cons in Hpre as [_ Hpre]. by eapply IH.
  - destruct pre as [|x [|]]; try done. simpl in Hex.
    by injection Hex as ? ?; subst.
Qed.

Lemma pages_status t response : response ∈ pages t → status_code response = 200.
Proof.
  unfold pages. intros ([rq [e|r]] & _ & Hr)%list_elem_of_omap; [done|].
  simpl in Hr. destruct (Z.eqb_spec (status_code r) 200); by simplify_eq.
Qed.
End Runs.

(** ** The error message keeps the status code *)









(** ** The engine *)

Section Engine.
Context `{Transport World}.

Lemma get_init_paging p : paging (get_init p).
Proof.
  split; simpl.
  - exists 1. rewrite dict_get_set_ne by done. apply dict_get_set_eq.
  - left. apply dict_get_set_eq.
Qed.

(** A GET is the loop, entered with [page = 1] and [page_size = 1000]. *)
Lemma do_request_get fuel self endpoint p (w : World) :
  do_request fuel self "GET" (Some endpoint) p w =
  ((λ result, ResJson (JList result)) <$>
     result_of (get_loop fuel self (url self +:+ "/" +:+ endpoint) (get_init p) w),
   trace_of (get_loop fuel self (url self +:+ "/" +:+ endpoint) (get_init p) w),
   (get_loop fuel self (url self +:+ "/" +:+ endpoint) (get_init p) w).2).
Proof.
  unfold do_request.
  rewrite bool_decide_eq_true_2 by (unfold methods; set_solver).
  cbn [negb String.eqb Ascii.eqb Bool.eqb].
  unfold mbind at 1, M_mbind at 1, M_bind at 1, lift at 1.
  unfold subscript. rewrite dict_get_set_eq.
  cbn [mbind outcome_mbind outcome_bind py_int].
  unfold mbind, M_mbind, M_bind, mret, M_mret, M_ret, result_of, trace_of.
  fold (get_init p).
  destruct (get_loop _ _ _ _ w) as [[[result|e|] t] w1];
    cbn [fst snd]; by rewrite ?app_nil_r.
Qed.

Lemma do_request_get_trace fuel self endpoint p (w : World) :
  trace_of (do_request fuel self "GET" (Some endpoint) p w) =
  trace_of (get_loop fuel self (url self +:+ "/" +:+ endpoint) (get_init p) w).
Proof. by rewrite do_request_get. Qed.

Lemma do_request_get_result fuel self endpoint p (w : World) :
  result_of (do_request fuel self "GET" (Some endpoint) p w) =
  (λ result, ResJson (JList result)) <$>
    result_of (get_loop fuel self (url self +:+ "/" +:+ endpoint) (get_init p) w).
Proof. by rewrite do_request_get. Qed.

(** A run that is cut short has spent one unit of fuel per round-trip. *)
Lemma get_loop_out_of_fuel fuel self URI st (w : World) :
  result_of (get_loop fuel self URI st w) = OutOfFuel →
  round_trips (trace_of (get_loop fuel self URI st w)) = fuel.
Proof.
  revert st w. induction fuel as [|fuel IH]; intros st w.
  - rewrite get_loop_0.
    destruct (page_size_of st) as [ps| |]; [|done..].
    by destruct (ps <=? gs_response_size st).
  - rewrite get_loop_S.
    destruct (page_size_of st) as [ps| |] eqn:Eps; [|done|].
    2:{ by apply page_size_of_fuel in Eps. }
    destruct (ps <=? gs_response_size st); [|done].
    cbn zeta.
    destruct (send _ w) as [[e|response] w1]; [done|].
    destruct (status_code response =? 200).
    { destruct (on_200 st response) as [st'| |] eqn:E2.
      - intros Ho. unfold round_trips, trace_of, prepend. simpl.
        f_equal. by apply IH.
      - done.
      - by apply on_200_fuel in E2. }
    destruct (status_code response =? 429); [|done].
    intros Ho. unfold round_trips, trace_of, prepend. simpl.
    f_equal. by apply IH.
Qed.

End Engine.

(** ** The pagination engine: claims *)

Section EngineClaims.
Context `{Transport World}.

(** C1 (as amended).  Take the first 200 answer of a GET call, the
    answers before it being refusals (429).  When its body is a bare list
    shorter than the requested page size of 1000 and not of length 25,
    no request follows it and the call returns that list: the call has
    made one round-trip on top of the refused attempts, hence exactly one
    when the 200 is its first answer. *)
Theorem short_list_one_round_trip fuel self endpoint p (w : World)
    pre rq response l rest :
  exchanges (trace_of (do_request fuel self "GET" (Some endpoint) p w))
    = pre ++ (rq, inr response) :: rest →
  Forall (λ x, ∃ r, x.2 = inr r ∧ status_code r = 429) pre →
  status_code response = 200 →
  body response = Some (JList l) →
  (length l < 1000)%nat →
  length l ≠ 25%nat →
  rest = [] ∧
  round_trips (trace_of (do_request fuel self "GET" (Some endpoint) p w))
    = S (length pre) ∧
  result_of (do_request fuel self "GET" (Some endpoint) p w)
    = Returned (ResJson (JList l)).
Proof.
  rewrite do_request_get_trace, do_request_get_result.
  intros Hex Hpre E200 Hbody Hlen H25.
  destruct (loop_run_short_list _ _ _ _ _ pre rq response l rest
              (get_init_paging p) (dict_get_set_eq _ _ _)
              (get_loop_run _ _ fuel _ w) Hex Hpre E200 Hbody Hlen H25)
    as [-> Ho].
  split_and!; [done| |by rewrite Ho].
  unfold round_trips. rewrite Hex, length_app. simpl. lia.
Qed.

(** C2.  The first page is the first 200 answer of the call, after any
    number of refused (429) attempts.  When its effective size is 25, the
    requests up to and including the one it answers carry
    [page_size = 1000], every request after it carries [page_size = 25],
    and there is such a request as soon as the fuel allows one more
    round-trip: [page_size] changes exactly once, from 1000 to 25.  Later
    pages of 25 items run the same assignment on a dict that already holds
    25, which leaves the dict as it is. *)
Theorem downgrade_to_25 fuel self endpoint p (w : World) pre rq response rest :
  exchanges (trace_of (do_request fuel self "GET" (Some endpoint) p w))
    = pre ++ (rq, inr response) :: rest →
  Forall (λ x, ∃ r, x.2 = inr r ∧ status_code r = 429) pre →
  status_code response = 200 →
  response_size_of response = Returned 25 →
  Forall (λ x, param_of "page_size" x.1 = Some (JNum 1000))
    (pre ++ [(rq, inr response)]) ∧
  Forall (λ x, param_of "page_size" x.1 = Some (JNum 25)) rest ∧
  ((length pre + 1 < fuel)%nat → rest ≠ []) ∧
  (∀ p', dict_get "page_size" p' = Some (JNum 25) → adapt 25 p' = p').
Proof.
  rewrite do_request_get_trace. intros Hex Hpre E200 Hsize.
  pose proof (get_loop_run self (url self +:+ "/" +:+ endpoint) fuel
                (get_init p) w) as Hrun.
  destruct (loop_run_downgrade _ _ _ _ _ pre rq response rest (JNum 1000)
              (get_init_paging p) (dict_get_set_eq _ _ _) Hrun Hex Hpre E200 Hsize)
    as (H1000 & H25 & Hlast).
  split_and!; [done..| |].
  - intros Hfuel ->. specialize (Hlast eq_refl).
    apply get_loop_out_of_fuel in Hlast.
    unfold round_trips in Hlast. rewrite Hex, length_app in Hlast.
    simpl in Hlast. lia.
  - intros p' Hp'. unfold adapt. simpl. by apply dict_set_same.
Qed.

(** C3.  A 200 answer whose body is a mapping with a mapping under its
    first key ends the call: the result is the one-element list holding
    that inner mapping, and the exchange is the last of the call. *)
Theorem single_object_ends_call fuel self endpoint p (w : World)
    rq response key inner others :
  (rq, inr response)
    ∈ exchanges (trace_of (do_request fuel self "GET" (Some endpoint) p w)) →
  status_code response = 200 →
  body response = Some (JDict ((key, JDict inner) :: others)) →
  result_of (do_request fuel self "GET" (Some endpoint) p w)
    = Returned (ResJson (JList [JDict inner])) ∧
  last (exchanges (trace_of (do_request fuel self "GET" (Some endpoint) p w)))
    = Some (rq, inr response).
Proof.
  rewrite do_request_get_trace, do_request_get_result.
  intros Hin E200 Hbody.
  destruct (loop_run_single _ _ _ _ _ rq response key inner others
              (get_init_paging p) (get_loop_run _ _ fuel _ w) Hin E200 Hbody)
    as [-> Hlast].
  done.
Qed.

(** C4.  A 429 answer to a request has the engine send the very same
    request again (same page, same page_size, same everything): the next
    request, if the trace has one, is that request, and it has one as
    soon as the fuel allows one more round-trip.  The call neither
    returns nor raises on a 429.  The refused answer is not a page, and
    the result is what the pages (the 200 answers) of the call leave
    behind, each taken in once; when they are bare lists, it is their
    concatenation. *)
Theorem retry_after_429 fuel self endpoint p (w : World) i rq response :
  exchanges (trace_of (do_request fuel self "GET" (Some endpoint) p w)) !! i
    = Some (rq, inr response) →
  status_code response = 429 →
  (∀ x, exchanges (trace_of (do_request fuel self "GET" (Some endpoint) p w))
          !! S i = Some x → x.1 = rq) ∧
  ((S i < fuel)%nat →
   is_Some (exchanges (trace_of (do_request fuel self "GET" (Some endpoint) p w))
              !! S i)) ∧
  (exchanges (trace_of (do_request fuel self "GET" (Some endpoint) p w)) !! S i
     = None →
   result_of (do_request fuel self "GET" (Some endpoint) p w) = OutOfFuel) ∧
  (response
     ∉ pages (trace_of (do_request fuel self "GET" (Some endpoint) p w))) ∧
  (∀ result,
     result_of (do_request fuel self "GET" (Some endpoint) p w)
       = Returned (ResJson (JList result)) →
     (∃ st', after_pages (get_init p)
               (pages (trace_of (do_request fuel self "GET" (Some endpoint) p w)))
               = Returned st' ∧ gs_result st' = result) ∧
     (∀ ls, Forall2 (λ r l, body r = Some (JList l))
              (pages (trace_of (do_request fuel self "GET" (Some endpoint) p w)))
              ls →
            result = concat ls)).
Proof.
  rewrite do_request_get_trace, do_request_get_result.
  pose proof (get_loop_run self (url self +:+ "/" +:+ endpoint) fuel
                (get_init p) w) as Hrun.
  pose proof (get_loop_out_of_fuel fuel self (url self +:+ "/" +:+ endpoint)
                (get_init p) w) as Hfuel.
  revert Hrun Hfuel.
  generalize (trace_of (get_loop fuel self (url self +:+ "/" +:+ endpoint)
                          (get_init p) w)).
  generalize (result_of (get_loop fuel self (url self +:+ "/" +:+ endpoint)
                           (get_init p) w)).
  intros o t Hrun Hfuel Hi E429.
  assert (Hend : exchanges t !! S i = None → o = OutOfFuel).
  { intros Hnone. eapply loop_run_429_last; [done| |done].
    rewrite <- (take_drop_middle _ _ _ Hi).
    rewrite (drop_ge _ (S i)) by by apply lookup_ge_None.
    apply last_snoc. }
  split_and!.
  - intros [rq' rs'] Hnext. simpl.
    eapply (loop_run_retry _ _ _ _ _ (take i (exchanges t))); [done| |done].
    rewrite <- (take_drop_middle _ _ _ Hi) at 1.
    by rewrite (drop_S _ _ _ Hnext).
  - intros Hlt. destruct (exchanges t !! S i) as [x|] eqn:Hnext; [by eexists|].
    specialize (Hfuel (Hend eq_refl)). unfold round_trips in Hfuel.
    apply lookup_ge_None in Hnext. lia.
  - intros Hnone. by rewrite (Hend Hnone).
  - intros Hin%pages_status. lia.
  - intros result Ho.
    destruct o as [res| |]; try done. injection Ho as ->.
    destruct (loop_run_pages _ _ _ _ _ result Hrun eq_refl) as (st' & Hst & Hres).
    split; [by exists st'|].
    intros ls Hls. by rewrite <- Hres, (after_pages_lists _ _ _ _ Hls Hst).
Qed.


(** C6.  With a verb outside GET, POST, PUT, DELETE, or with no endpoint,
    the call raises at once: the trace is empty and the world is the one
    the call started in. *)
Theorem invalid_argument_raises fuel self method endpoint p (w : World) :
  method ∉ methods ∨ endpoint = None →
  do_request fuel self method endpoint p w =
    (Raised (if bool_decide (method ∈ methods) then endpoint_error
             else method_error), [], w).
Proof.
  unfold do_request. intros [Hm| ->].
  - by rewrite bool_decide_eq_false_2.
  - by destruct (bool_decide (method ∈ methods)).
Qed.
End EngineClaims.

(** ** Lookup tables *)

Lemma table_add_entry lookup_table c e :
  entry_of c = Some e →
  table_add lookup_table c = Returned (table_step lookup_table e).
Proof.
  unfold entry_of, table_add. destruct e as [name id].
  destruct (subscript c "name") as [[]| |]; try done.
  destruct (subscript c "id") as [[]| |]; try done.
  by intros [= -> ->].
Qed.

Lemma build_table_entries temp_raw entries lookup_table :
  Forall2 (λ c e, entry_of c = Some e) temp_raw entries →
  build_table temp_raw lookup_table = Returned (foldl table_step lookup_table entries).
Proof.
  intros Hall. revert lookup_table.
  induction Hall as [|c e cs es Hc Hall IH]; intros lookup_table; simpl; [done|].
  rewrite (table_add_entry _ _ _ Hc). apply IH.
Qed.

(** The last writer wins, so a pair is read back in both directions when
    no other entry shares just its name or just its id. *)
Lemma table_lookup_entries entries (lookup_table : LookupTable) name id :
  (name, id) ∈ entries →
  (∀ e, e ∈ entries → e.1 = name ↔ e.2 = id) →
  foldl table_step lookup_table entries !! KStr name = Some (JNum id) ∧
  foldl table_step lookup_table entries !! KInt id = Some (JStr name).
Proof.
  induction entries as [|[name' id'] entries IH] using rev_ind; intros Hin Hcons.
  { by apply elem_of_nil in Hin. }
  rewrite foldl_app. simpl. unfold table_step at 1 3. simpl.
  assert (Hlast : name' = name ↔ id' = id).
  { apply (Hcons (name', id')), elem_of_app. right. by apply list_elem_of_singleton. }
  assert (Hrest : name' ≠ name → (name, id) ∈ entries).
  { intros Hne. apply elem_of_app in Hin as [Hin|Hin]; [done|].
    apply list_elem_of_singleton in Hin. congruence. }
  assert (Hcons' : ∀ e, e ∈ entries → e.1 = name ↔ e.2 = id).
  { intros e He. apply Hcons, elem_of_app. by left. }
  destruct (decide (name' = name)) as [->|Hne].
  - assert (id' = id) as -> by tauto.
    rewrite lookup_insert_ne by done.
    by rewrite !lookup_insert_eq.
  - assert (id' ≠ id) by tauto.
    rewrite !lookup_insert_ne by congruence.
    by apply IH; auto.
Qed.

(** ** The façade *)

Lemma dict_get_set_opt_ne k k' v d :
  k ≠ k' → dict_get k' (dict_set_opt k v d) = dict_get k' d.
Proof. intros Hne. destruct v; [by apply dict_get_set_ne | done]. Qed.

Lemma bind_trace {World A B} (m : M World A) (f : A → M World B) w :
  trace_of ((m ≫= f) w) =
  trace_of (m w) ++
  match result_of (m w) with
  | Returned a => trace_of (f a (m w).2)
  | _ => []
  end.
Proof.
  unfold mbind, M_mbind, M_bind, trace_of, result_of.
  destruct (m w) as [[[a|e|] t] w1]; simpl; rewrite ?app_nil_r; [|done..].
  by destruct (f a w1) as [[o t'] w2].
Qed.

Lemma exchanges_bind {World A B} (m : M World A) (f : A → M World B) w :
  exchanges (trace_of ((m ≫= f) w)) =
  exchanges (trace_of (m w)) ++
  match result_of (m w) with
  | Returned a => exchanges (trace_of (f a (m w).2))
  | _ => []
  end.
Proof.
  rewrite bind_trace, exchanges_app. by destruct (result_of (m w)).
Qed.

Lemma bind_result {World A B} (m : M World A) (f : A → M World B) w :
  result_of ((m ≫= f) w) =
  match result_of (m w) with
  | Returned a => result_of (f a (m w).2)
  | Raised e => Raised e
  | OutOfFuel => OutOfFuel
  end.
Proof.
  unfold mbind, M_mbind, M_bind, trace_of, result_of.
  destruct (m w) as [[[a|e|] t] w1]; simpl; [|done..].
  by destruct (f a w1) as [[o t'] w2].
Qed.

Lemma load_params id :
  load_name {[ "self" := ObjOther; "id" := ObjJson (JNum id) ]} "params"
  = Raised (NameError "params").
Proof.
  unfold load_name.
  rewrite lookup_insert_ne by done. rewrite lookup_singleton_ne by done.
  assert (E : bool_decide ("params" ∈ module_globals ++ builtins) = false)
    by (by vm_compute).
  by rewrite E.
Qed.

Section FacadeClaims.
Context `{Transport World} `{DateTime T}.

(** All the requests of a GET call are GET requests. *)
Lemma do_request_get_requests fuel self endpoint p (w : World) :
  Forall (λ x, rq_method x.1 = "GET")
    (exchanges (trace_of (do_request fuel self "GET" (Some endpoint) p w))).
Proof.
  rewrite do_request_get_trace.
  eapply Forall_impl; [eapply loop_run_requests, get_loop_run|].
  by intros x [? _].
Qed.

(** A PUT is one request, with [p] as its body. *)
Lemma do_request_put fuel self endpoint p (w : World) :
  ∃ rs, exchanges (trace_of (do_request fuel self "PUT" (Some endpoint) p w)) =
        [(Request "PUT" (url self +:+ "/" +:+ endpoint) (headers self) None (Some p),
          rs)].
Proof.
  unfold do_request.
  rewrite bool_decide_eq_true_2 by (unfold methods; set_solver).
  cbn [negb String.eqb Ascii.eqb Bool.eqb].
  rewrite bind_trace. unfold http, trace_of, result_of.
  destruct (send _ w) as [[e|response] w1]; simpl; [by eexists|].
  destruct (body response); by eexists.
Qed.

(** The sibling of [get_article]: with no stray argument the GET goes out,
    to the path templated with the id. *)
Lemma get_asset_password_request fuel self id (w : World) :
  get_asset_password fuel self id w =
  do_request fuel self "GET" (Some ("asset_passwords/" +:+ pretty id)) [] w.
Proof. reflexivity. Qed.

(** With [name] and [asset_layout_id] given, [update_asset] is its PUT. *)
Lemma update_asset_direct fuel self id company_id asset_layout_id name
    primary_serial primary_mail primary_model primary_manufacturer
    custom_fields (w : World) :
  ∃ rq rs,
    exchanges (trace_of
      (update_asset fuel self id company_id (Some asset_layout_id) (Some name)
         primary_serial primary_mail primary_model primary_manufacturer
         custom_fields w)) = [(rq, rs)] ∧
    rq_method rq = "PUT" ∧
    rq_uri rq = url self +:+ "/" +:+ asset_endpoint company_id id.
Proof.
  unfold update_asset. rewrite exchanges_bind.
  cbn [mret M_mret M_ret trace_of result_of fst snd exchanges app].
  match goal with
  | |- context [do_request _ _ _ (Some ?e) ?p ?w1] =>
      destruct (do_request_put fuel self e p w1) as [rs Hex]
  end.
  rewrite Hex. by eexists _, _.
Qed.

(** [get_assets] with a company and nothing else stops on the unbound
    [page]. *)
Lemma get_assets_unbound_page fuel self company_id archived (w : World) :
  get_assets fuel self (Some company_id) None None None None archived w =
  (Raised (NameError "page"), [], w).
Proof.
  unfold get_assets. cbn [is_None negb andb].
  assert (E : ∀ locals : gmap string pyobj,
            locals !! "page" = None →
            load_name locals "page" = Raised (NameError "page")).
  { intros locals Hl. unfold load_name. rewrite Hl.
    assert (E : bool_decide ("page" ∈ module_globals ++ builtins) = false)
      by (by vm_compute).
    by rewrite E. }
  rewrite E; [done|].
  by rewrite !lookup_insert_ne, lookup_singleton_ne.
Qed.

(** C8.  [get_article] and [get_asset_layout] pass a name, [params], that
    is bound nowhere: evaluating the arguments of the call raises
    [NameError], so the engine is never entered and nothing is sent. *)
Theorem get_article_unbound_params fuel self id (w : World) :
  get_article fuel self id w = (Raised (NameError "params"), [], w) ∧
  get_asset_layout fuel self id w = (Raised (NameError "params"), [], w).
Proof.
  unfold get_article, get_asset_layout. by rewrite load_params.
Qed.

(** The code point of a character after [str.lower]. *)
Lemma lower_char_code (c : ascii) :
  nat_of_ascii (lower_char c) =
  (if (65 <=? nat_of_ascii c) && (nat_of_ascii c <=? 90)
      || (192 <=? nat_of_ascii c) && (nat_of_ascii c <=? 222)
         && negb (nat_of_ascii c =? 215)
   then nat_of_ascii c + 32 else nat_of_ascii c)%nat.
Proof.
  unfold lower_char.
  destruct ((65 <=? nat_of_ascii c) && (nat_of_ascii c <=? 90)
            || (192 <=? nat_of_ascii c) && (nat_of_ascii c <=? 222)
               && negb (nat_of_ascii c =? 215))%nat eqn:Hup; [|done].
  apply nat_ascii_embedding.
  apply orb_true_iff in Hup as [Hup|Hup].
  - apply andb_true_iff in Hup as [_ Hup]. apply Nat.leb_le in Hup. lia.
  - apply andb_true_iff in Hup as [Hup _].
    apply andb_true_iff in Hup as [_ Hup]. apply Nat.leb_le in Hup. lia.
Qed.

(** A character is the space when its code point is 32. *)
Lemma space_code (c : ascii) : Ascii.eqb c " " = true ↔ nat_of_ascii c = 32%nat.
Proof.
  rewrite Ascii.eqb_eq. split; [by intros ->|].
  intros Hc. rewrite <- (ascii_nat_embedding c), Hc. reflexivity.
Qed.

(** One character of a key, normalised. *)
Lemma new_key_char (c : ascii) :
  (nat_of_ascii c = 32 →
   nat_of_ascii (if Ascii.eqb (lower_char c) " " then "_"%char else lower_char c)
     = 95)%nat ∧
  (65 ≤ nat_of_ascii c ≤ 90 ∨ 192 ≤ nat_of_ascii c ≤ 214
   ∨ 216 ≤ nat_of_ascii c ≤ 222 →
   nat_of_ascii (if Ascii.eqb (lower_char c) " " then "_"%char else lower_char c)
     = nat_of_ascii c + 32)%nat ∧
  (nat_of_ascii c ≠ 32 →
   ¬ (65 ≤ nat_of_ascii c ≤ 90 ∨ 192 ≤ nat_of_ascii c ≤ 214
      ∨ 216 ≤ nat_of_ascii c ≤ 222) →
   (if Ascii.eqb (lower_char c) " " then "_"%char else lower_char c) = c)%nat.
Proof.
  pose proof (lower_char_code c) as Hcode.
  destruct ((65 <=? nat_of_ascii c) && (nat_of_ascii c <=? 90)
            || (192 <=? nat_of_ascii c) && (nat_of_ascii c <=? 222)
               && negb (nat_of_ascii c =? 215))%nat eqn:Hup.
  - assert (Hcap : (65 ≤ nat_of_ascii c ≤ 90 ∨ 192 ≤ nat_of_ascii c ≤ 214
                    ∨ 216 ≤ nat_of_ascii c ≤ 222)%nat).
    { apply orb_true_iff in Hup as [Hup|Hup].
      - apply andb_true_iff in Hup as [H1 H2].
        apply Nat.leb_le in H1, H2. lia.
      - apply andb_true_iff in Hup as [Hup H3].
        apply andb_true_iff in Hup as [H1 H2].
        apply Nat.leb_le in H1, H2. apply negb_true_iff, Nat.eqb_neq in H3. lia. }
    destruct (Ascii.eqb (lower_char c) " ") eqn:Heq.
    { apply space_code in Heq. lia. }
    split_and!; [lia|done|]. intros _ Hno. by destruct Hno.
  - assert (Hlow : lower_char c = c).
    { apply (f_equal ascii_of_nat) in Hcode.
      by rewrite !ascii_nat_embedding in Hcode. }
    assert (Hcap : ¬ (65 ≤ nat_of_ascii c ≤ 90 ∨ 192 ≤ nat_of_ascii c ≤ 214
                      ∨ 216 ≤ nat_of_ascii c ≤ 222)%nat).
    { intros Hcap. apply orb_false_iff in Hup as [H1 H2].
      apply andb_false_iff in H1, H2.
      rewrite andb_false_iff, negb_false_iff, !Nat.leb_gt, Nat.eqb_eq in H2.
      rewrite !Nat.leb_gt in H1. lia. }
    rewrite Hlow in *.
    destruct (Ascii.eqb c " ") eqn:Heq.
    + apply space_code in Heq. split_and!; [done|done|]. intros Hne _. by destruct Hne.
    + split_and!; [|done|done].
      intros H32. apply space_code in H32. congruence.
Qed.

(** C9.  Whenever [update_asset] is given custom fields, the body of its
    PUT request carries them, in order, one single-key object per field,
    each key lower-cased with its spaces turned into underscores.  The key
    that goes out has the length of the caller's and is, character by
    character: an underscore (code point 95) where the caller's has a
    space (32); the small letter, 32 code points up, where it has a
    capital ([A] to [Z], U+00C0 to U+00DE but the multiplication sign
    U+00D7); the same character anywhere else.  No space is left in a
    transmitted key, and ["Serial Number"] goes out as ["serial_number"]. *)
Theorem custom_field_keys_normalized fuel self id company_id asset_layout_id name
    primary_serial primary_mail primary_model primary_manufacturer
    custom_fields (w : World) rq rs :
  (rq, rs) ∈ exchanges (trace_of
    (update_asset fuel self id company_id asset_layout_id name primary_serial
       primary_mail primary_model primary_manufacturer (Some custom_fields) w)) →
  rq_method rq = "PUT" →
  (∃ asset,
     rq_data rq = Some [("asset", JDict asset)] ∧
     dict_get "custom_fields" asset =
       Some (JList ((λ kv, JDict [(new_key kv.1, kv.2)]) <$> custom_fields))) ∧
  (∀ key, String.length (new_key key) = String.length key) ∧
  (∀ key i c, String.get i key = Some c →
     ∃ c', String.get i (new_key key) = Some c' ∧
       (nat_of_ascii c = 32 → nat_of_ascii c' = 95)%nat ∧
       (65 ≤ nat_of_ascii c ≤ 90 ∨ 192 ≤ nat_of_ascii c ≤ 214
        ∨ 216 ≤ nat_of_ascii c ≤ 222 →
        nat_of_ascii c' = nat_of_ascii c + 32)%nat ∧
       (nat_of_ascii c ≠ 32 →
        ¬ (65 ≤ nat_of_ascii c ≤ 90 ∨ 192 ≤ nat_of_ascii c ≤ 214
           ∨ 216 ≤ nat_of_ascii c ≤ 222) →
        c' = c)%nat) ∧
  (∀ key, has_space (new_key key) = false) ∧
  new_key "Serial Number" = "serial_number".
Proof.
  intros Hin Hput. split_and!; [|..|done].
  2:{ intros key. unfold new_key. induction key as [|c key IH]; [done|].
      simpl. by rewrite IH. }
  2:{ intros key. unfold new_key. induction key as [|c key IH]; intros i c0 Hget.
      { by destruct i. }
      destruct i as [|i]; simpl in Hget |- *.
      - injection Hget as ->. eexists. split; [reflexivity|].
        rewrite Ascii.eqb_sym. apply new_key_char.
      - by apply IH. }
  2:{ intros key. unfold new_key. induction (lower key) as [|c s IH]; [done|].
      simpl. rewrite IH, orb_false_r.
      by destruct (Ascii.eqb_spec c " ") as [->|]; [|apply Ascii.eqb_neq]. }
  unfold update_asset in Hin. rewrite exchanges_bind in Hin.
  apply elem_of_app in Hin as [Hin|Hin].
  - exfalso.
    assert (Hget : ∀ x,
      x ∈ exchanges (trace_of
        ((r ← do_request fuel self "GET" (Some "assets")
                [("id", JNum id); ("company_id", JNum company_id)];
          a ← lift (first_item r);
          name ← lift (subscript a "name");
          asset_layout_id ← lift (subscript a "asset_layout_id");
          mret (name, asset_layout_id)) w)) →
      rq_method x.1 = "GET").
    { intros x Hx. rewrite exchanges_bind in Hx.
      apply elem_of_app in Hx as [Hx|Hx].
      - pose proof (do_request_get_requests fuel self "assets"
                      [("id", JNum id); ("company_id", JNum company_id)] w) as Hall.
        rewrite Forall_forall in Hall. by apply Hall.
      - destruct (result_of _) as [r| |]; [|by apply elem_of_nil in Hx..].
        rewrite exchanges_bind in Hx. unfold lift at 1 in Hx. simpl in Hx.
        destruct (first_item r) as [a| |]; [|by apply elem_of_nil in Hx..].
        simpl in Hx.
        rewrite exchanges_bind in Hx. unfold lift at 1 in Hx. simpl in Hx.
        destruct (subscript a "name") as [nm| |]; [|by apply elem_of_nil in Hx..].
        simpl in Hx.
        rewrite exchanges_bind in Hx. unfold lift at 1 in Hx. simpl in Hx.
        destruct (subscript a "asset_layout_id") as [al| |];
          by apply elem_of_nil in Hx. }
    destruct name as [nm|], asset_layout_id as [al|];
      try (specialize (Hget _ Hin); simpl in Hget; congruence).
    by apply elem_of_nil in Hin.
  - destruct (result_of _) as [na| |]; [|by apply elem_of_nil in Hin..].
    match type of Hin with
    | _ ∈ exchanges (trace_of (do_request _ _ _ (Some ?e) ?p ?w1)) =>
        destruct (do_request_put fuel self e p w1) as [rs' Hex]
    end.
    rewrite Hex in Hin. apply list_elem_of_singleton in Hin as [= -> ->].
    eexists. split; [reflexivity|].
    apply dict_get_set_eq.
Qed.

(** C10.  When exactly one of [resource_id] and [resource_type] is given,
    [get_activity_logs] raises nothing of its own: the half that was
    given is dropped, the parameters handed to the engine hold neither
    key, and the call is the call made with neither. *)
Theorem mismatched_resource_filter_dropped fuel self user_id user_email
    resource_id resource_type action_message (start_date : option T) (w : World) :
  is_None resource_id ≠ is_None resource_type →
  dict_get "resource_id"
    (activity_logs_params user_id user_email resource_id resource_type
       action_message start_date) = None ∧
  dict_get "resource_type"
    (activity_logs_params user_id user_email resource_id resource_type
       action_message start_date) = None ∧
  get_activity_logs fuel self user_id user_email resource_id resource_type
    action_message start_date w =
  do_request fuel self "GET" (Some "activity_logs")
    (activity_logs_params user_id user_email None None action_message start_date) w.
Proof.
  intros Hone. unfold get_activity_logs.
  assert (Hsame :
    activity_logs_params user_id user_email resource_id resource_type
      action_message start_date =
    activity_logs_params user_id user_email None None action_message start_date).
  { by destruct resource_id, resource_type. }
  rewrite Hsame. split_and!; [| |done].
  - unfold activity_logs_params. simpl.
    by rewrite !dict_get_set_opt_ne.
  - unfold activity_logs_params. simpl.
    by rewrite !dict_get_set_opt_ne.
Qed.
End FacadeClaims.

(** ** Lookup tables: claims *)

Section TableClaims.
Context `{Transport World}.

(** C7 (as amended).  Let the GET for a resource kind return a collection
    whose items carry a string under [name] and an integer under [id],
    and in which two items have the same name exactly when they have the
    same id.  The table built from it at construction reads every item
    back in both directions, names and ids being keys of the one
    mapping: [table[name] = id] and [table[id] = name], hence
    [table[table[id]] = id] and [table[table[name]] = name]. *)
Theorem lookup_table_round_trip fuel self item (w : World) temp_raw entries :
  result_of (do_request fuel self "GET" (Some item) [] w)
    = Returned (ResJson (JList temp_raw)) →
  Forall2 (λ c e, entry_of c = Some e) temp_raw entries →
  (∀ e1 e2, e1 ∈ entries → e2 ∈ entries → e1.1 = e2.1 ↔ e1.2 = e2.2) →
  ∃ table,
    result_of (fetch_table fuel self item w) = Returned table ∧
    build_table temp_raw ∅ = Returned table ∧
    ∀ name id, (name, id) ∈ entries →
      table_get table (JStr name) = Returned (JNum id) ∧
      table_get table (JNum id) = Returned (JStr name) ∧
      table_get table (JNum id) ≫= table_get table = Returned (JNum id) ∧
      table_get table (JStr name) ≫= table_get table = Returned (JStr name).
Proof.
  intros Hget Hall Hcons.
  pose proof (build_table_entries _ _ ∅ Hall) as Hbuild.
  eexists. split_and!; [|exact Hbuild|].
  - unfold fetch_table. rewrite bind_result, Hget.
    rewrite bind_result. unfold lift, result_of. simpl. exact Hbuild.
  - intros name id Hin.
    destruct (table_lookup_entries entries ∅ name id Hin) as [Hname Hid].
    { intros e He. apply (Hcons e (name, id) He Hin). }
    unfold table_get. simpl. rewrite Hname, Hid. simpl. by rewrite Hname, Hid.
Qed.

(** The tables a client is given at construction are the two fetched tables;
    without the flag the client is left as it is and nothing is sent. *)
Lemma Hudu_lookup_tables_built fuel self (w : World) self' :
  result_of (Hudu_lookup_tables fuel self true w) = Returned self' →
  ∃ t1 t2,
    result_of (fetch_table fuel self "companies" w) = Returned t1 ∧
    result_of (fetch_table fuel self "asset_layouts"
                 (fetch_table fuel self "companies" w).2) = Returned t2 ∧
    companies self' = Some t1 ∧ asset_layouts self' = Some t2.
Proof.
  unfold Hudu_lookup_tables. rewrite bind_result.
  destruct (result_of (fetch_table fuel self "companies" w)) as [t1| |];
    [|done..].
  rewrite bind_result.
  destruct (result_of (fetch_table fuel self "asset_layouts" _)) as [t2| |];
    [|done..].
  intros [= <-]. by exists t1, t2.
Qed.

Lemma Hudu_lookup_tables_off fuel self (w : World) :
  Hudu_lookup_tables fuel self false w = (Returned self, [], w).
Proof. reflexivity. Qed.
End TableClaims.

(** ** The claims on sample calls *)

(** A string under the first key is taken for a sequence: its length is the
    response size and its characters join the result. *)
Example wrapped_string_spelled_out :
  result_of (do_request 5 sample_client "GET" (Some "api_info") []
    (answers [ok_response (JDict [("version", JStr "2.1")])])) =
  Returned (ResJson (JList [JStr "2"; JStr "."; JStr "1"])).
Proof. by vm_compute. Qed.

(** A number under the first key has no length. *)
Example wrapped_number_raises :
  result_of (do_request 5 sample_client "GET" (Some "api_info") []
    (answers [ok_response (JDict [("count", JNum 3)])])) = Raised TypeError.
Proof. by vm_compute. Qed.

(** An endpoint capped at 25 items a page: 1000 is asked for once, 25 from
    then on, and the pages are concatenated. *)
Example capped_endpoint :
  (exchanges (trace_of (do_request 5 sample_client "GET" (Some "companies") []
     (answers [ok_response (company_page 25); ok_response (company_page 25);
               ok_response (company_page 4)])))).*1 =
  [companies_request 1 1000; companies_request 2 25; companies_request 3 25] ∧
  outcome_map (λ r, match r with
                    | ResJson (JList l) => length l
                    | _ => 0%nat
                    end)
    (result_of (do_request 5 sample_client "GET" (Some "companies") []
       (answers [ok_response (company_page 25); ok_response (company_page 25);
                 ok_response (company_page 4)]))) = Returned 54%nat.
Proof. by vm_compute. Qed.

(** A sustained 429 keeps the engine asking for page 1 until the fuel is
    spent. *)
Example sustained_429 :
  do_request 3 sample_client "GET" (Some "companies") []
    (answers (replicate 4 (bare_response 429 "Too Many Requests"))) =
  (OutOfFuel,
   concat (replicate 3
     [EvHttp (companies_request 1 1000) (inr (bare_response 429 "Too Many Requests"));
      EvSleep 10; EvSleep 30000]),
   answers [bare_response 429 "Too Many Requests"]).
Proof. by vm_compute. Qed.

(** A write whose answer is not JSON returns the response itself. *)
Example write_without_json :
  result_of (do_request 5 sample_client "DELETE" (Some "articles/3") []
    (answers [bare_response 204 "No Content"])) =
  Returned (ResResponse (bare_response 204 "No Content")).
Proof. by vm_compute. Qed.

(** Without a name, [update_asset] first looks the asset up. *)
Example update_asset_looks_up :
  rq_method <$>
    (exchanges (trace_of (update_asset 5 sample_client 12 4 (Some 3) None
       None None None None None
       (answers [ok_response (JList [JDict [("name", JStr "Laptop");
                                            ("asset_layout_id", JNum 8)]]);
                 bare_response 200 "OK"])))).*1 = ["GET"; "PUT"].
Proof. by vm_compute. Qed.

(** An accented capital is lowered with the rest: the key [É]mile Zola
    (U+00C9 first) goes out with [é] (U+00E9) first; the multiplication
    sign (U+00D7), which sits among the capitals, stays. *)
Example accented_key_lowered :
  new_key (String "201" "mile Zola") = String "233" "mile_zola" ∧
  new_key (String "215" " 2") = String "215" "_2".
Proof. by vm_compute. Qed.

(** C1 as it was stated fails on a first page of exactly 25 items: the list
    is shorter than the 1000 asked for, and the engine goes on to ask for
    page 2. *)
Lemma short_list_of_25_two_round_trips :
  status_code (ok_response (company_page 25)) = 200 ∧
  body (ok_response (company_page 25)) = Some (company_page 25) ∧
  py_len (company_page 25) = Returned 25 ∧
  exchanges (trace_of (do_request 5 sample_client "GET" (Some "companies") []
    (answers [ok_response (company_page 25); ok_response (JList [])]))) =
  [answered (companies_request 1 1000) (ok_response (company_page 25));
   answered (companies_request 2 25) (ok_response (JList []))] ∧
  round_trips (trace_of (do_request 5 sample_client "GET" (Some "companies") []
    (answers [ok_response (company_page 25); ok_response (JList [])]))) = 2%nat.
Proof. by vm_compute. Qed.

(** One page of two companies: one round-trip, and the page is the result. *)
Lemma short_list_one_round_trip_witness :
  ([] : list (request * (exn + response))) = [] ∧
  round_trips (trace_of (do_request 5 sample_client "GET" (Some "companies") []
    (answers [ok_response (company_page 2)]))) = 1%nat ∧
  result_of (do_request 5 sample_client "GET" (Some "companies") []
    (answers [ok_response (company_page 2)])) =
  Returned (ResJson (company_page 2)).
Proof.
  apply (short_list_one_round_trip 5 sample_client "companies" []
           (answers [ok_response (company_page 2)])
           [] (companies_request 1 1000) (ok_response (company_page 2)) _ []).
  - vm_compute. reflexivity.
  - constructor.
  - reflexivity.
  - reflexivity.
  - simpl. lia.
  - simpl. lia.
Defined.

(** A refusal, a first page of 25, a last page of 3. *)
Lemma downgrade_to_25_witness :
  Forall (λ x, param_of "page_size" x.1 = Some (JNum 1000))
    ([answered (companies_request 1 1000) (bare_response 429 "Too Many Requests")]
     ++ [answered (companies_request 1 1000) (ok_response (company_page 25))]) ∧
  Forall (λ x, param_of "page_size" x.1 = Some (JNum 25))
    [answered (companies_request 2 25) (ok_response (company_page 3))] ∧
  ((length [answered (companies_request 1 1000)
              (bare_response 429 "Too Many Requests")] + 1 < 5)%nat →
   [answered (companies_request 2 25) (ok_response (company_page 3))] ≠ []) ∧
  (∀ p', dict_get "page_size" p' = Some (JNum 25) → adapt 25 p' = p').
Proof.
  apply (downgrade_to_25 5 sample_client "companies" []
           (answers [bare_response 429 "Too Many Requests";
                     ok_response (company_page 25);
                     ok_response (company_page 3)])).
  - vm_compute. reflexivity.
  - repeat constructor. eexists. split; reflexivity.
  - reflexivity.
  - vm_compute. reflexivity.
Defined.

(** A single company, wrapped under its resource name. *)
Lemma single_object_ends_call_witness :
  result_of (do_request 5 sample_client "GET" (Some "companies/7") []
    (answers [ok_response (JDict [("company", company "Acme" 7)])])) =
  Returned (ResJson (JList [company "Acme" 7])) ∧
  last (exchanges (trace_of (do_request 5 sample_client "GET" (Some "companies/7") []
    (answers [ok_response (JDict [("company", company "Acme" 7)])])))) =
  Some (answered
          (get_request sample_client "https://docs.example.org/api/v1/companies/7"
             [("page", JNum 1); ("page_size", JNum 1000)])
          (ok_response (JDict [("company", company "Acme" 7)]))).
Proof.
  apply (single_object_ends_call 5 sample_client "companies/7" []
           (answers [ok_response (JDict [("company", company "Acme" 7)])])
           _ _ "company" [("id", JNum 7); ("name", JStr "Acme")] []).
  - vm_compute. constructor.
  - reflexivity.
  - reflexivity.
Defined.

(** Page 1 refused once, then served. *)
Lemma retry_after_429_witness :
  (∀ x, exchanges (trace_of (do_request 5 sample_client "GET" (Some "companies") []
      (answers [bare_response 429 "Too Many Requests";
                ok_response (company_page 2)]))) !! 1%nat = Some x →
        x.1 = companies_request 1 1000) ∧
  ((1 < 5)%nat →
   is_Some (exchanges (trace_of (do_request 5 sample_client "GET" (Some "companies") []
      (answers [bare_response 429 "Too Many Requests";
                ok_response (company_page 2)]))) !! 1%nat)) ∧
  (exchanges (trace_of (do_request 5 sample_client "GET" (Some "companies") []
      (answers [bare_response 429 "Too Many Requests";
                ok_response (company_page 2)]))) !! 1%nat = None →
   result_of (do_request 5 sample_client "GET" (Some "companies") []
      (answers [bare_response 429 "Too Many Requests";
                ok_response (company_page 2)])) = OutOfFuel) ∧
  (bare_response 429 "Too Many Requests"
     ∉ pages (trace_of (do_request 5 sample_client "GET" (Some "companies") []
         (answers [bare_response 429 "Too Many Requests";
                   ok_response (company_page 2)])))) ∧
  (∀ result,
     result_of (do_request 5 sample_client "GET" (Some "companies") []
       (answers [bare_response 429 "Too Many Requests";
                 ok_response (company_page 2)])) = Returned (ResJson (JList result)) →
     (∃ st', after_pages (get_init [])
               (pages (trace_of (do_request 5 sample_client "GET" (Some "companies") []
                  (answers [bare_response 429 "Too Many Requests";
                            ok_response (company_page 2)]))))
               = Returned st' ∧ gs_result st' = result) ∧
     (∀ ls, Forall2 (λ r l, body r = Some (JList l))
              (pages (trace_of (do_request 5 sample_client "GET" (Some "companies") []
                 (answers [bare_response 429 "Too Many Requests";
                           ok_response (company_page 2)]))))
              ls →
            result = concat ls)).
Proof.
  apply (retry_after_429 5 sample_client "companies" []
           (answers [bare_response 429 "Too Many Requests";
                     ok_response (company_page 2)]) 0).
  - vm_compute. reflexivity.
  - reflexivity.
Defined.


(** PATCH is not a verb of the engine. *)
Lemma invalid_argument_raises_witness :
  do_request 5 sample_client "PATCH" (Some "companies") []
    (answers [ok_response (JList [])]) =
  (Raised (ValueError "Please specify HTTP method: GET, POST, PUT, DELETE"), [],
   answers [ok_response (JList [])]).
Proof.
  apply (invalid_argument_raises 5 sample_client "PATCH" (Some "companies") []
           (answers [ok_response (JList [])])).
  left. apply (proj1 (bool_decide_eq_false _)). vm_compute. reflexivity.
Defined.

(** C7 as it was stated fails when two companies share a name: the later
    one takes the name, and the id of the earlier one is not read back. *)
Lemma lookup_table_shared_name :
  entry_of (company "Acme" 1) = Some ("Acme", 1) ∧
  entry_of (company "Acme" 2) = Some ("Acme", 2) ∧
  (result_of (fetch_table 5 sample_client "companies"
                (answers [ok_response (JList [company "Acme" 1; company "Acme" 2])]))
     ≫= λ table, table_get table (JNum 1) ≫= table_get table)
  = Returned (JNum 2).
Proof. by vm_compute. Qed.

(** The table of the single company Acme, id 1. *)
Lemma lookup_table_round_trip_witness :
  ∃ table,
    result_of (fetch_table 5 sample_client "companies"
                 (answers [ok_response (JList [company "Acme" 1])]))
      = Returned table ∧
    build_table [company "Acme" 1] ∅ = Returned table ∧
    ∀ name id, (name, id) ∈ [("Acme", 1)] →
      table_get table (JStr name) = Returned (JNum id) ∧
      table_get table (JNum id) = Returned (JStr name) ∧
      table_get table (JNum id) ≫= table_get table = Returned (JNum id) ∧
      table_get table (JStr name) ≫= table_get table = Returned (JStr name).
Proof.
  apply (lookup_table_round_trip 5 sample_client "companies"
           (answers [ok_response (JList [company "Acme" 1])])
           [company "Acme" 1] [("Acme", 1)]).
  - vm_compute. reflexivity.
  - repeat constructor.
  - intros e1 e2 ->%list_elem_of_singleton ->%list_elem_of_singleton. done.
Defined.

(** An update that sets the custom field [Serial Number]. *)
Lemma custom_field_keys_normalized_witness :
  (∃ asset,
     Some [("asset",
            JDict [("asset_layout_id", JNum 3); ("name", JStr "Laptop");
                   ("custom_fields",
                    JList [JDict [("serial_number", JStr "X1")]])])]
       = Some [("asset", JDict asset)] ∧
     dict_get "custom_fields" asset =
       Some (JList ((λ kv, JDict [(new_key kv.1, kv.2)]) <$>
                      [("Serial Number", JStr "X1")]))) ∧
  (∀ key, String.length (new_key key) = String.length key) ∧
  (∀ key i c, String.get i key = Some c →
     ∃ c', String.get i (new_key key) = Some c' ∧
       (nat_of_ascii c = 32 → nat_of_ascii c' = 95)%nat ∧
       (65 ≤ nat_of_ascii c ≤ 90 ∨ 192 ≤ nat_of_ascii c ≤ 214
        ∨ 216 ≤ nat_of_ascii c ≤ 222 →
        nat_of_ascii c' = nat_of_ascii c + 32)%nat ∧
       (nat_of_ascii c ≠ 32 →
        ¬ (65 ≤ nat_of_ascii c ≤ 90 ∨ 192 ≤ nat_of_ascii c ≤ 214
           ∨ 216 ≤ nat_of_ascii c ≤ 222) →
        c' = c)%nat) ∧
  (∀ key, has_space (new_key key) = false) ∧
  new_key "Serial Number" = "serial_number".
Proof.
  apply (custom_field_keys_normalized 5 sample_client 12 4 (Some 3) (Some "Laptop")
           None None None None [("Serial Number", JStr "X1")]
           (answers [bare_response 200 "OK"])
           (Request "PUT" "https://docs.example.org/api/v1/companies/4/assets/12"
              (headers sample_client) None
              (Some [("asset",
                      JDict [("asset_layout_id", JNum 3); ("name", JStr "Laptop");
                             ("custom_fields",
                              JList [JDict [("serial_number", JStr "X1")]])])]))
           (inr (bare_response 200 "OK"))).
  - vm_compute. constructor.
  - reflexivity.
Defined.

(** A resource id given without a resource type. *)
Lemma mismatched_resource_filter_dropped_witness :
  dict_get "resource_id"
    (activity_logs_params (Some 9) None (Some 5) None None (Some "2024-05-01T00:00:00"))
    = None ∧
  dict_get "resource_type"
    (activity_logs_params (Some 9) None (Some 5) None None (Some "2024-05-01T00:00:00"))
    = None ∧
  get_activity_logs 5 sample_client (Some 9) None (Some 5) None None
    (Some "2024-05-01T00:00:00") (answers [ok_response (JList [])]) =
  do_request 5 sample_client "GET" (Some "activity_logs")
    (activity_logs_params (Some 9) None None None None (Some "2024-05-01T00:00:00"))
    (answers [ok_response (JList [])]).
Proof.
  apply (mismatched_resource_filter_dropped 5 sample_client (Some 9) None (Some 5)
           None None (Some "2024-05-01T00:00:00") (answers [ok_response (JList [])])).
  simpl. discriminate.
Defined.

(** * Further properties of the engine *)

Section MoreRuns.
Variable self : Hudu.
Variable URI : string.

(** A page leaves every key but [page] and [page_size] alone, and moves
    [page] on by one. *)
Lemma on_200_other_keys st response st' k :
  on_200 st response = Returned st' →
  k ≠ "page" → k ≠ "page_size" →
  dict_get k (gs_p st') = dict_get k (gs_p st).
Proof.
  intros (r_json & r_data & sr & page & n & _ & _ & _ & _ & _ & ->)%on_200_inv
    Hpage Hsize.
  cbn [gs_p]. rewrite dict_get_set_ne by done. unfold adapt.
  destruct (sr.1 =? 25); [by rewrite dict_get_set_ne | done].
Qed.

Lemma on_200_next_page st response st' n :
  on_200 st response = Returned st' →
  dict_get "page" (gs_p st) = Some (JNum n) →
  dict_get "page" (gs_p st') = Some (JNum (n + 1)).
Proof.
  intros (r_json & r_data & sr & page & m & _ & _ & _ & Hp & Hm & ->)%on_200_inv
    Hpage.
  cbn [gs_p]. rewrite dict_get_set_eq.
  assert (dict_get "page" (adapt sr.1 (gs_p st)) = dict_get "page" (gs_p st)) as E.
  { unfold adapt. destruct (sr.1 =? 25); [by rewrite dict_get_set_ne | done]. }
  rewrite E, Hpage in Hp. injection Hp as <-. simpl in Hm. by injection Hm as <-.
Qed.

(** The shape of the requests of a run. *)
Lemma loop_run_shape st t o p0 :
  paging st →
  (∀ k, k ≠ "page" → k ≠ "page_size" → dict_get k (gs_p st) = dict_get k p0) →
  loop_run self URI st t o →
  Forall (λ x, rq_method x.1 = "GET" ∧ rq_uri x.1 = URI ∧
               rq_headers x.1 = headers self ∧ rq_data x.1 = None ∧
               (∀ k, k ≠ "page" → k ≠ "page_size" →
                     param_of k x.1 = dict_get k p0) ∧
               (param_of "page_size" x.1 = Some (JNum 1000) ∨
                param_of "page_size" x.1 = Some (JNum 25)))
    (exchanges t).
Proof.
  intros Hpg Hkeys Hrun.
  assert (Hhere : ∀ st rs, paging st →
            (∀ k, k ≠ "page" → k ≠ "page_size" →
                  dict_get k (gs_p st) = dict_get k p0) →
            (λ x : request * (exn + response),
               rq_method x.1 = "GET" ∧ rq_uri x.1 = URI ∧
               rq_headers x.1 = headers self ∧ rq_data x.1 = None ∧
               (∀ k, k ≠ "page" → k ≠ "page_size" →
                     param_of k x.1 = dict_get k p0) ∧
               (param_of "page_size" x.1 = Some (JNum 1000) ∨
                param_of "page_size" x.1 = Some (JNum 25)))
              (get_request self URI (gs_p st), rs)).
  { intros st0 rs [_ Hps] Hk. by split_and!. }
  induction Hrun
    as [st ps Eps Hlt | st e Eps | st ps Eps Hle | st ps e Eps Hle
       | st ps resp st' t o Eps Hle E2 Hon Hrun IH
       | st ps resp e Eps Hle E2 Hon
       | st ps resp t o Eps Hle E4 Hrun IH
       | st ps resp Eps Hle N2 N4];
    simpl.
  - constructor.
  - constructor.
  - constructor.
  - constructor; [by apply Hhere | constructor].
  - constructor; [by apply Hhere|].
    apply IH; [by eapply on_200_paging|].
    intros k H1 H2. rewrite <- (Hkeys k H1 H2). by eapply on_200_other_keys.
  - constructor; [by apply Hhere | constructor].
  - constructor; [by apply Hhere | by apply IH].
  - constructor; [by apply Hhere | constructor].
Qed.

(** Page numbering: the request at position [i] asks for the starting page
    plus the number of pages served before it. *)
Lemma loop_run_page_number st t o n i rq rs :
  dict_get "page" (gs_p st) = Some (JNum n) →
  loop_run self URI st t o →
  exchanges t !! i = Some (rq, rs) →
  param_of "page" rq = Some (JNum (n + Z.of_nat (served (take i (exchanges t))))).
Proof.
  intros Hpage Hrun. revert n i Hpage.
  induction Hrun
    as [st ps Eps Hlt | st e Eps | st ps Eps Hle | st ps e Eps Hle
       | st ps resp st' t o Eps Hle E2 Hon Hrun IH
       | st ps resp e Eps Hle E2 Hon
       | st ps resp t o Eps Hle E4 Hrun IH
       | st ps resp Eps Hle N2 N4];
    intros n i Hpage Hi; simpl in Hi; try done.
  - destruct i as [|[|]]; [|done..]. injection Hi as <- <-.
    simpl. rewrite Z.add_0_r. exact Hpage.
  - destruct i as [|i]; simpl in *.
    + injection Hi as <- <-. rewrite Z.add_0_r. exact Hpage.
    + rewrite (proj2 (Z.eqb_eq _ _) E2).
      rewrite (IH (n + 1) i (on_200_next_page _ _ _ _ Hon Hpage) Hi).
      do 2 f_equal. lia.
  - destruct i as [|[|]]; [|done..]. injection Hi as <- <-.
    simpl. rewrite Z.add_0_r. exact Hpage.
  - destruct i as [|i]; simpl in *.
    + injection Hi as <- <-. rewrite Z.add_0_r. exact Hpage.
    + assert (N2 : status_code resp ≠ 200) by lia.
      rewrite (proj2 (Z.eqb_neq _ _) N2). by apply IH.
  - destruct i as [|[|]]; [|done..]. injection Hi as <- <-.
    simpl. rewrite Z.add_0_r. exact Hpage.
Qed.

(** What makes a page unreadable does not depend on what has been
    accumulated. *)
Lemma on_200_unreadable st response e :
  paging st →
  response_size_of response = Raised e →
  on_200 st response = Raised e.
Proof.
  intros [[page Hpage] _]. unfold response_size_of, on_200.
  destruct (response_json response) as [r_json| |];
    cbn [mbind outcome_mbind outcome_bind]; [|by intros [= ->]|done].
  destruct (unwrap r_json) as [r_data| |];
    cbn [mbind outcome_mbind outcome_bind]; [|by intros [= ->]|done].
  unfold absorb.
  destruct r_data;
    cbn [py_len py_iter mbind outcome_mbind outcome_bind fst];
    by intros [= ->].
Qed.

(** A 200 answer that cannot be read ends the run with the error of the
    reading. *)
Lemma loop_run_unreadable st t o rq response e :
  paging st →
  loop_run self URI st t o →
  (rq, inr response) ∈ exchanges t →
  status_code response = 200 →
  response_size_of response = Raised e →
  o = Raised e ∧ last (exchanges t) = Some (rq, inr response).
Proof.
  intros Hpg Hrun Hin E200 Hbad.
  induction Hrun
    as [st ps Eps Hlt | st e' Eps | st ps Eps Hle | st ps e' Eps Hle
       | st ps resp st' t o Eps Hle E2 Hon Hrun IH
       | st ps resp e' Eps Hle E2 Hon
       | st ps resp t o Eps Hle E4 Hrun IH
       | st ps resp Eps Hle N2 N4];
    simpl in Hin.
  - by apply elem_of_nil in Hin.
  - by apply elem_of_nil in Hin.
  - by apply elem_of_nil in Hin.
  - by apply list_elem_of_singleton in Hin.
  - apply elem_of_cons in Hin as [[= -> ->]|Hin].
    + rewrite (on_200_unreadable _ _ _ Hpg Hbad) in Hon. done.
    + destruct (IH (on_200_paging _ _ _ Hpg Hon) Hin) as [-> Hlast].
      split; [done|]. simpl. by rewrite last_cons, Hlast.
  - apply list_elem_of_singleton in Hin as [= -> ->].
    rewrite (on_200_unreadable _ _ _ Hpg Hbad) in Hon. by injection Hon as <-.
  - apply elem_of_cons in Hin as [[= -> ->]|Hin]; [lia|].
    destruct (IH Hpg Hin) as [-> Hlast].
    split; [done|]. simpl. by rewrite last_cons, Hlast.
  - by apply list_elem_of_singleton in Hin as [= -> ->].
Qed.

(** A request that gets no response ends the run with the exception of the
    transport. *)
Lemma loop_run_no_response st t o rq e :
  loop_run self URI st t o →
  (rq, inl e) ∈ exchanges t →
  o = Raised e ∧ last (exchanges t) = Some (rq, inl e).
Proof.
  intros Hrun Hin.
  induction Hrun
    as [st ps Eps Hlt | st e' Eps | st ps Eps Hle | st ps e' Eps Hle
       | st ps resp st' t o Eps Hle E2 Hon Hrun IH
       | st ps resp e' Eps Hle E2 Hon
       | st ps resp t o Eps Hle E4 Hrun IH
       | st ps resp Eps Hle N2 N4];
    simpl in Hin.
  - by apply elem_of_nil in Hin.
  - by apply elem_of_nil in Hin.
  - by apply elem_of_nil in Hin.
  - by apply list_elem_of_singleton in Hin as [= -> ->].
  - apply elem_of_cons in Hin as [[=]|Hin].
    destruct (IH Hin) as [-> Hlast].
    split; [done|]. simpl. by rewrite last_cons, Hlast.
  - by apply list_elem_of_singleton in Hin.
  - apply elem_of_cons in Hin as [[=]|Hin].
    destruct (IH Hin) as [-> Hlast].
    split; [done|]. simpl. by rewrite last_cons, Hlast.
  - by apply list_elem_of_singleton in Hin.
Qed.
End MoreRuns.

Section MoreEngine.
Context `{Transport World}.

Lemma get_loop_p_0 self URI st (w : World) :
  get_loop_p 0 self URI st w =
  match page_size_of st with
  | Returned page_size =>
      if page_size <=? gs_response_size st then (OutOfFuel, [], w)
      else (Returned st, [], w)
  | Raised e => (Raised e, [], w)
  | OutOfFuel => (OutOfFuel, [], w)
  end.
Proof.
  cbn [get_loop_p]. unfold mbind, M_mbind, M_bind, lift.
  destruct (page_size_of st) as [ps| |]; [|done..].
  by destruct (ps <=? gs_response_size st).
Qed.

Lemma get_loop_p_S fuel self URI st (w : World) :
  get_loop_p (S fuel) self URI st w =
  match page_size_of st with
  | Returned page_size =>
      if page_size <=? gs_response_size st then
        let rq := get_request self URI (gs_p st) in
        match send rq w with
        | (inl e, w1) => (Raised e, [EvHttp rq (inl e)], w1)
        | (inr response, w1) =>
            if status_code response =? 200 then
              match on_200 st response with
              | Returned st' =>
                  prepend [EvHttp rq (inr response); EvSleep 10]
                    (get_loop_p fuel self URI st' w1)
              | Raised e =>
                  (Raised e, [EvHttp rq (inr response); EvSleep 10], w1)
              | OutOfFuel =>
                  (OutOfFuel, [EvHttp rq (inr response); EvSleep 10], w1)
              end
            else if status_code response =? 429 then
              prepend [EvHttp rq (inr response); EvSleep 10; EvSleep 30000]
                (get_loop_p fuel self URI st w1)
            else (Raised (ValueError (err_str response)),
                  [EvHttp rq (inr response); EvSleep 10], w1)
        end
      else (Returned st, [], w)
  | Raised e => (Raised e, [], w)
  | OutOfFuel => (OutOfFuel, [], w)
  end.
Proof.
  cbn [get_loop_p]. unfold mbind at 1, M_mbind at 1, M_bind at 1, lift at 1.
  destruct (page_size_of st) as [ps| |]; [|done..].
  destruct (ps <=? gs_response_size st); [|done].
  unfold mbind, M_mbind, M_bind, http, sleep, raise, lift, prepend. cbn zeta.
  destruct (send _ w) as [[e|response] w1]; [done|].
  destruct (status_code response =? 200).
  { destruct (on_200 st response) as [st'| |]; [|done..].
    by destruct (get_loop_p fuel self URI st' w1) as [[o t] w2]. }
  destruct (status_code response =? 429); [|done].
  by destruct (get_loop_p fuel self URI st w1) as [[o t] w2].
Qed.

(** The loop that hands back the dict is the loop. *)
Lemma get_loop_p_result fuel self URI st (w : World) :
  get_loop fuel self URI st w =
  (gs_result <$> result_of (get_loop_p fuel self URI st w),
   trace_of (get_loop_p fuel self URI st w),
   (get_loop_p fuel self URI st w).2).
Proof.
  revert st w. induction fuel as [|fuel IH]; intros st w.
  - rewrite get_loop_0, get_loop_p_0.
    destruct (page_size_of st) as [ps| |]; [|done..].
    by destruct (ps <=? gs_response_size st).
  - rewrite get_loop_S, get_loop_p_S.
    destruct (page_size_of st) as [ps| |]; [|done..].
    destruct (ps <=? gs_response_size st); [|done].
    cbn zeta. destruct (send _ w) as [[e|response] w1]; [done|].
    destruct (status_code response =? 200).
    { destruct (on_200 st response) as [st'| |]; [|done..].
      rewrite IH. by destruct (get_loop_p fuel self URI st' w1) as [[o t] w2]. }
    destruct (status_code response =? 429); [|done].
    rewrite IH. by destruct (get_loop_p fuel self URI st w1) as [[o t] w2].
Qed.

(** The loop variables a run ends with are those its pages leave. *)
Lemma get_loop_p_final fuel self URI st (w : World) st' :
  result_of (get_loop_p fuel self URI st w) = Returned st' →
  after_pages st (pages (trace_of (get_loop_p fuel self URI st w))) = Returned st'.
Proof.
  revert st w. induction fuel as [|fuel IH]; intros st w.
  - rewrite get_loop_p_0.
    destruct (page_size_of st) as [ps| |]; [|done..].
    by destruct (ps <=? gs_response_size st).
  - rewrite get_loop_p_S.
    destruct (page_size_of st) as [ps| |]; [|done..].
    destruct (ps <=? gs_response_size st); [|done].
    cbn zeta. destruct (send _ w) as [[e|response] w1]; [done|].
    destruct (Z.eqb_spec (status_code response) 200) as [E2|N2].
    { destruct (on_200 st response) as [st1| |] eqn:Hon; [|done..].
      intros Hres. unfold pages, trace_of, prepend. simpl.
      rewrite (proj2 (Z.eqb_eq _ _) E2). simpl. rewrite Hon.
      by apply IH. }
    destruct (status_code response =? 429); [|done].
    intros Hres. unfold pages, trace_of, prepend. simpl.
    rewrite (proj2 (Z.eqb_neq _ _) N2). by apply IH.
Qed.

(** More fuel changes nothing for a run that was not cut short. *)
Lemma get_loop_more_fuel fuel self URI st (w : World) :
  result_of (get_loop fuel self URI st w) ≠ OutOfFuel →
  get_loop (S fuel) self URI st w = get_loop fuel self URI st w.
Proof.
  revert st w. induction fuel as [|fuel IH]; intros st w.
  - rewrite get_loop_S, get_loop_0.
    destruct (page_size_of st) as [ps| |]; [|done..].
    by destruct (ps <=? gs_response_size st).
  - rewrite (get_loop_S _ _ (S fuel)), (get_loop_S _ _ fuel).
    destruct (page_size_of st) as [ps| |]; [|done..].
    destruct (ps <=? gs_response_size st); [|done].
    cbn zeta. destruct (send _ w) as [[e|response] w1]; [done|].
    destruct (status_code response =? 200).
    { destruct (on_200 st response) as [st'| |]; [|done..].
      intros Hres. by rewrite IH. }
    destruct (status_code response =? 429); [|done].
    intros Hres. by rewrite IH.
Qed.

(** Against a server whose answers all stall, the loop is still running
    whenever it is cut. *)
Lemma get_loop_stalls (stuck : World → Prop) fuel self URI st (w : World) page_size :
  (∀ rq w, stuck w → ∃ r w', send rq w = (inr r, w') ∧ stalls r ∧ stuck w') →
  stuck w →
  paging st →
  page_size_of st = Returned page_size →
  page_size ≤ gs_response_size st →
  result_of (get_loop fuel self URI st w) = OutOfFuel.
Proof.
  intros Hsend. revert st w page_size.
  induction fuel as [|fuel IH]; intros st w ps Hw Hpg Eps Hle.
  - rewrite get_loop_0, Eps. by rewrite (proj2 (Z.leb_le _ _) Hle).
  - rewrite get_loop_S, Eps, (proj2 (Z.leb_le _ _) Hle). cbn zeta.
    destruct (Hsend (get_request self URI (gs_p st)) w Hw)
      as (r & w1 & -> & [E429|(E200 & l & Hbody & Hlen)] & Hw1).
    + assert (N2 : status_code r ≠ 200) by lia.
      rewrite (proj2 (Z.eqb_neq _ _) N2), (proj2 (Z.eqb_eq _ _) E429).
      unfold result_of, prepend. simpl. by eapply IH.
    + rewrite (proj2 (Z.eqb_eq _ _) E200).
      destruct (on_200_list st r l Hpg Hbody) as (st' & Hon & _ & Hsize).
      rewrite Hon. unfold result_of, prepend. simpl.
      assert (Hpg' : paging st') by by eapply on_200_paging.
      pose proof (on_200_page_size _ _ _ Hon) as Hps'.
      destruct Hpg as [_ Hps].
      destruct (Z.eqb_spec (gs_response_size st') 25) as [E25|N25].
      * eapply (IH st' w1 25); [done..| |lia].
        unfold page_size_of, subscript. by rewrite Hps'.
      * assert (1000 ≤ gs_response_size st') by lia.
        destruct Hps as [Hps|Hps]; rewrite Hps in Hps'.
        -- eapply (IH st' w1 1000); [done..| |lia].
           unfold page_size_of, subscript. by rewrite Hps'.
        -- eapply (IH st' w1 25); [done..| |lia].
           unfold page_size_of, subscript. by rewrite Hps'.
Qed.
End MoreEngine.

(** ** Pages and the dict *)

Lemma after_pages_page st rs st' n :
  after_pages st rs = Returned st' →
  dict_get "page" (gs_p st) = Some (JNum n) →
  dict_get "page" (gs_p st') = Some (JNum (n + Z.of_nat (length rs))).
Proof.
  revert st n. induction rs as [|r rs IH]; intros st n; simpl.
  - intros [= <-] Hn. by rewrite Z.add_0_r.
  - destruct (on_200 st r) as [st1| |] eqn:Hon; [|done..].
    cbn [mbind outcome_mbind outcome_bind]. intros Hrest Hn.
    rewrite (IH st1 (n + 1) Hrest (on_200_next_page _ _ _ _ Hon Hn)).
    do 2 f_equal. lia.
Qed.

Lemma after_pages_paging st rs st' :
  after_pages st rs = Returned st' → paging st → paging st'.
Proof.
  revert st. induction rs as [|r rs IH]; intros st; simpl.
  - by intros [= <-].
  - destruct (on_200 st r) as [st1| |] eqn:Hon; [|done..].
    cbn [mbind outcome_mbind outcome_bind]. intros Hrest Hpg.
    eapply IH; [done|]. by eapply on_200_paging.
Qed.

Lemma after_pages_other_keys st rs st' k :
  after_pages st rs = Returned st' →
  k ≠ "page" → k ≠ "page_size" →
  dict_get k (gs_p st') = dict_get k (gs_p st).
Proof.
  revert st. induction rs as [|r rs IH]; intros st; simpl.
  - by intros [= <-].
  - destruct (on_200 st r) as [st1| |] eqn:Hon; [|done..].
    cbn [mbind outcome_mbind outcome_bind]. intros Hrest H1 H2.
    rewrite (IH st1 Hrest H1 H2). by eapply on_200_other_keys.
Qed.

(** A run that returns from a state at or above the threshold has taken in
    a page. *)
Lemma loop_run_returned_pages self URI st t result page_size :
  loop_run self URI st t (Returned result) →
  page_size_of st = Returned page_size →
  page_size ≤ gs_response_size st →
  pages t ≠ [].
Proof.
  intros Hrun. remember (Returned result) as o eqn:Ho. revert Ho.
  induction Hrun
    as [st ps Eps Hlt | st e Eps | st ps Eps Hle | st ps e Eps Hle
       | st ps resp st' t o Eps Hle E2 Hon Hrun IH
       | st ps resp e Eps Hle E2 Hon
       | st ps resp t o Eps Hle E4 Hrun IH
       | st ps resp Eps Hle N2 N4];
    intros Ho Eps' Hle'; try done.
  - rewrite Eps in Eps'. injection Eps' as <-. lia.
  - unfold pages. simpl. by rewrite (proj2 (Z.eqb_eq _ _) E2).
  - assert (N2 : status_code resp ≠ 200) by lia.
    unfold pages in *. simpl. rewrite (proj2 (Z.eqb_neq _ _) N2).
    by eapply IH.
Qed.

Section EngineExtras.
Context `{Transport World}.

(** [do_request] with the dict in view is [do_request]. *)
Lemma do_request_p_spec fuel self method endpoint p (w : World) :
  do_request fuel self method endpoint p w =
  (fst <$> result_of (do_request_p fuel self method endpoint p w),
   trace_of (do_request_p fuel self method endpoint p w),
   (do_request_p fuel self method endpoint p w).2).
Proof.
  unfold do_request, do_request_p.
  destruct (negb (bool_decide (method ∈ methods))); [done|].
  destruct endpoint as [endpoint|]; [|done].
  destruct (String.eqb method "GET").
  - unfold subscript. rewrite dict_get_set_eq.
    cbn [mbind outcome_mbind outcome_bind py_int].
    unfold mbind, M_mbind, M_bind, mret, M_mret, M_ret, lift.
    rewrite get_loop_p_result. unfold result_of, trace_of.
    by destruct (get_loop_p _ _ _ _ w) as [[[st'|e|] t] w1].
  - unfold mbind, M_mbind, M_bind, mret, M_mret, M_ret, result_of, trace_of.
    destruct (if String.eqb method "DELETE" then _ else _) as [[[r|e|] t] w1];
      [|done..].
    by destruct (body r).
Qed.

(** The write path, spelled out. *)
Lemma do_request_write fuel self method endpoint p (w : World) :
  method ∈ ["POST"; "PUT"; "DELETE"] →
  do_request fuel self method (Some endpoint) p w =
  match send (write_request self method endpoint p) w with
  | (inl e, w1) =>
      (Raised e, [EvHttp (write_request self method endpoint p) (inl e)], w1)
  | (inr response, w1) =>
      (Returned (write_result response),
       [EvHttp (write_request self method endpoint p) (inr response)], w1)
  end.
Proof.
  intros Hm. unfold do_request, write_request, write_result.
  assert (Hcases : method = "POST" ∨ method = "PUT" ∨ method = "DELETE").
  { repeat (apply elem_of_cons in Hm as [->|Hm]; [by eauto|]).
    by apply elem_of_nil in Hm. }
  destruct Hcases as [->|[->| ->]];
    match goal with
    | |- context [bool_decide (?m ∈ methods)] =>
        replace (bool_decide (m ∈ methods)) with true by (by vm_compute)
    end;
    cbn [negb String.eqb Ascii.eqb Bool.eqb];
    unfold mbind, M_mbind, M_bind, http, mret, M_mret, M_ret;
    destruct (send _ w) as [[e|response] w1]; try done;
    by destruct (body response).
Qed.

(** X1.  A POST, PUT or DELETE is one exchange and nothing else: no sleep,
    no retry, no look at the status.  Whatever the response (a 429 and a
    500 included) it is handed back, as its JSON when it has some and as
    the response itself otherwise; only a failure of the transport raises.
    PUT and POST carry [p] as their body, DELETE carries none. *)
Theorem write_is_one_exchange fuel self method endpoint p (w : World) :
  method ∈ ["POST"; "PUT"; "DELETE"] →
  do_request fuel self method (Some endpoint) p w =
  match send (write_request self method endpoint p) w with
  | (inl e, w1) =>
      (Raised e, [EvHttp (write_request self method endpoint p) (inl e)], w1)
  | (inr response, w1) =>
      (Returned (write_result response),
       [EvHttp (write_request self method endpoint p) (inr response)], w1)
  end.
Proof. apply do_request_write. Qed.

(** The requests of a GET call. *)
Lemma do_request_get_shape fuel self endpoint p (w : World) rq rs :
  (rq, rs) ∈ exchanges (trace_of (do_request fuel self "GET" (Some endpoint) p w)) →
  rq_method rq = "GET" ∧
  rq_uri rq = url self +:+ "/" +:+ endpoint ∧
  rq_headers rq = headers self ∧
  rq_data rq = None ∧
  (∀ k, k ≠ "page" → k ≠ "page_size" → param_of k rq = dict_get k p) ∧
  (param_of "page_size" rq = Some (JNum 1000) ∨
   param_of "page_size" rq = Some (JNum 25)).
Proof.
  rewrite do_request_get_trace. intros Hin.
  assert (Hkeys : ∀ k, k ≠ "page" → k ≠ "page_size" →
            dict_get k (gs_p (get_init p)) = dict_get k p).
  { intros k H1 H2. simpl. by rewrite !dict_get_set_ne. }
  pose proof (loop_run_shape self (url self +:+ "/" +:+ endpoint)
                (get_init p) _ _ p (get_init_paging p) Hkeys
                (get_loop_run _ _ fuel _ w)) as Hshape.
  rewrite Forall_forall in Hshape. apply (Hshape (rq, rs) Hin).
Qed.

(** X2.  Every request of a GET call is a GET to [url/endpoint] with the
    client's headers and no body; it carries each of the caller's
    parameters other than [page] and [page_size] exactly as given, and its
    [page_size] is 1000 or 25, whatever the caller put under those two
    keys. *)
Theorem get_requests_carry_filters fuel self endpoint p (w : World) rq rs :
  (rq, rs) ∈ exchanges (trace_of (do_request fuel self "GET" (Some endpoint) p w)) →
  rq_method rq = "GET" ∧
  rq_uri rq = url self +:+ "/" +:+ endpoint ∧
  rq_headers rq = headers self ∧
  rq_data rq = None ∧
  (∀ k, k ≠ "page" → k ≠ "page_size" → param_of k rq = dict_get k p) ∧
  (param_of "page_size" rq = Some (JNum 1000) ∨
   param_of "page_size" rq = Some (JNum 25)).
Proof. apply do_request_get_shape. Qed.

(** X3.  Pages are asked for in sequence from 1: each request asks for
    page 1 plus the number of 200 answers received before it.  No page is
    skipped, and a page is asked for again only after a refusal. *)
Theorem get_pages_in_sequence fuel self endpoint p (w : World) i rq rs :
  exchanges (trace_of (do_request fuel self "GET" (Some endpoint) p w)) !! i
    = Some (rq, rs) →
  param_of "page" rq =
  Some (JNum (1 + Z.of_nat (served (take i
    (exchanges (trace_of (do_request fuel self "GET" (Some endpoint) p w))))))).
Proof.
  rewrite do_request_get_trace. intros Hi.
  eapply loop_run_page_number; [|apply get_loop_run|exact Hi].
  simpl. rewrite dict_get_set_ne by done. apply dict_get_set_eq.
Qed.

(** X4.  A 200 answer the engine cannot read aborts the call with the error
    of the reading, whatever had been accumulated: no further request is
    made and nothing is returned. *)
Theorem unreadable_page_aborts fuel self endpoint p (w : World) rq response e :
  (rq, inr response)
    ∈ exchanges (trace_of (do_request fuel self "GET" (Some endpoint) p w)) →
  status_code response = 200 →
  response_size_of response = Raised e →
  result_of (do_request fuel self "GET" (Some endpoint) p w) = Raised e ∧
  last (exchanges (trace_of (do_request fuel self "GET" (Some endpoint) p w)))
    = Some (rq, inr response).
Proof.
  rewrite do_request_get_trace, do_request_get_result.
  intros Hin E200 Hbad.
  destruct (loop_run_unreadable _ _ _ _ _ rq response e (get_init_paging p)
              (get_loop_run _ _ fuel _ w) Hin E200 Hbad) as [-> Hlast].
  done.
Qed.

(** X6.  When the transport fails on a request the call raises that failure
    at once: it is not caught, the request is not repeated, and what had
    been accumulated is lost. *)
Theorem transport_failure_aborts fuel self endpoint p (w : World) rq e :
  (rq, inl e) ∈ exchanges (trace_of (do_request fuel self "GET" (Some endpoint) p w)) →
  result_of (do_request fuel self "GET" (Some endpoint) p w) = Raised e ∧
  last (exchanges (trace_of (do_request fuel self "GET" (Some endpoint) p w)))
    = Some (rq, inl e).
Proof.
  rewrite do_request_get_trace, do_request_get_result. intros Hin.
  destruct (loop_run_no_response _ _ _ _ _ rq e (get_loop_run _ _ fuel _ w) Hin)
    as [-> Hlast].
  done.
Qed.

(** X7.  Against a server whose every answer is a refusal (429) or a bare
    list of exactly 25 or of at least 1000 items, a GET call never returns
    and never raises: however many iterations it is allowed, it has used
    them all on round-trips and is still asking. *)
Theorem stalling_server_never_returns (stuck : World → Prop) fuel self endpoint p
    (w : World) :
  (∀ rq w, stuck w → ∃ r w', send rq w = (inr r, w') ∧ stalls r ∧ stuck w') →
  stuck w →
  result_of (do_request fuel self "GET" (Some endpoint) p w) = OutOfFuel ∧
  round_trips (trace_of (do_request fuel self "GET" (Some endpoint) p w)) = fuel.
Proof.
  intros Hsend Hw.
  rewrite do_request_get_trace, do_request_get_result.
  assert (Hout : result_of (get_loop fuel self (url self +:+ "/" +:+ endpoint)
                              (get_init p) w) = OutOfFuel).
  { eapply (get_loop_stalls stuck _ _ _ _ _ 1000); eauto using get_init_paging.
    - unfold page_size_of, subscript, get_init. simpl.
      by rewrite dict_get_set_eq.
    - simpl. lia. }
  split; [by rewrite Hout | by apply get_loop_out_of_fuel].
Qed.

(** The same for a whole call: the bound of the model does not show in a
    call that was not cut short. *)
Lemma do_request_more_fuel fuel self method endpoint p (w : World) :
  result_of (do_request fuel self method endpoint p w) ≠ OutOfFuel →
  do_request (S fuel) self method endpoint p w = do_request fuel self method endpoint p w.
Proof.
  unfold do_request.
  destruct (negb (bool_decide (method ∈ methods))); [done|].
  destruct endpoint as [endpoint|]; [|done].
  destruct (String.eqb method "GET"); [|done].
  unfold subscript. rewrite dict_get_set_eq.
  cbn [mbind outcome_mbind outcome_bind py_int].
  unfold mbind, M_mbind, M_bind, mret, M_mret, M_ret, lift.
  intros Hdone. rewrite get_loop_more_fuel; [done|].
  intros Hout. apply Hdone. unfold result_of in *.
  by destruct (get_loop _ _ _ _ w) as [[[r|e|] t] w1].
Qed.

(** The dict after a GET that returned. *)
Lemma do_request_p_get_dict fuel self endpoint p (w : World) r p' :
  result_of (do_request_p fuel self "GET" (Some endpoint) p w) = Returned (r, p') →
  result_of (do_request fuel self "GET" (Some endpoint) p w) = Returned r ∧
  dict_get "page" p' =
    Some (JNum (1 + Z.of_nat (length (pages
      (trace_of (do_request fuel self "GET" (Some endpoint) p w)))))) ∧
  (1 ≤ length (pages (trace_of (do_request fuel self "GET" (Some endpoint) p w))))%nat ∧
  (dict_get "page_size" p' = Some (JNum 1000) ∨
   dict_get "page_size" p' = Some (JNum 25)) ∧
  (∀ k, k ≠ "page" → k ≠ "page_size" → dict_get k p' = dict_get k p).
Proof.
  intros Hp.
  assert (Hres : result_of (do_request fuel self "GET" (Some endpoint) p w)
                 = Returned r).
  { rewrite do_request_p_spec. unfold result_of at 1. simpl. by rewrite Hp. }
  split; [done|].
  assert (Hst : ∃ st', result_of (get_loop_p fuel self (url self +:+ "/" +:+ endpoint)
                                    (get_init p) w) = Returned st' ∧ gs_p st' = p').
  { revert Hp. unfold do_request_p.
    replace (bool_decide ("GET" ∈ methods)) with true by (by vm_compute).
    cbn [negb String.eqb Ascii.eqb Bool.eqb].
    unfold subscript. rewrite dict_get_set_eq.
    cbn [mbind outcome_mbind outcome_bind py_int].
    unfold mbind, M_mbind, M_bind, mret, M_mret, M_ret, lift, result_of.
    fold (get_init p).
    destruct (get_loop_p _ _ _ _ w) as [[[st'|e|] t] w1]; simpl; [|done..].
    intros [= <- <-]. by exists st'. }
  destruct Hst as (st' & Hst' & <-).
  pose proof (get_loop_p_final _ _ _ _ _ _ Hst') as Hfinal.
  assert (Htrace : trace_of (do_request fuel self "GET" (Some endpoint) p w) =
                   trace_of (get_loop_p fuel self (url self +:+ "/" +:+ endpoint)
                               (get_init p) w)).
  { rewrite do_request_get_trace, get_loop_p_result. done. }
  rewrite Htrace. split_and!.
  - eapply after_pages_page; [done|]. simpl.
    rewrite dict_get_set_ne by done. apply dict_get_set_eq.
  - assert (pages (trace_of (get_loop_p fuel self (url self +:+ "/" +:+ endpoint)
                               (get_init p) w)) ≠ []) as Hne.
    { rewrite <- Htrace, do_request_get_trace.
      pose proof (get_loop_run self (url self +:+ "/" +:+ endpoint) fuel
                    (get_init p) w) as Hrun.
      rewrite do_request_get_result in Hres.
      destruct (result_of (get_loop fuel self _ (get_init p) w)) as [res| |];
        [|done..].
      eapply (loop_run_returned_pages _ _ _ _ res 1000); [done| |simpl; lia].
      unfold page_size_of, subscript, get_init. simpl.
      by rewrite dict_get_set_eq. }
    destruct (pages _); [done | simpl; lia].
  - by destruct (after_pages_paging _ _ _ Hfinal (get_init_paging p)) as [_ ?].
  - intros k H1 H2. rewrite (after_pages_other_keys _ _ _ _ Hfinal H1 H2).
    simpl. by rewrite !dict_get_set_ne.
Qed.

(** X9.  A GET rewrites the dict it is given, in place.  When the call
    returns, the dict holds under [page] one more than the number of pages
    taken in (so 2 at least) and under [page_size] 1000 or 25; its other
    keys are as the caller left them. *)
Theorem get_rewrites_callers_dict fuel self endpoint p (w : World) r p' :
  result_of (do_request_p fuel self "GET" (Some endpoint) p w) = Returned (r, p') →
  result_of (do_request fuel self "GET" (Some endpoint) p w) = Returned r ∧
  dict_get "page" p' =
    Some (JNum (1 + Z.of_nat (length (pages
      (trace_of (do_request fuel self "GET" (Some endpoint) p w)))))) ∧
  (1 ≤ length (pages (trace_of (do_request fuel self "GET" (Some endpoint) p w))))%nat ∧
  (dict_get "page_size" p' = Some (JNum 1000) ∨
   dict_get "page_size" p' = Some (JNum 25)) ∧
  (∀ k, k ≠ "page" → k ≠ "page_size" → dict_get k p' = dict_get k p).
Proof. apply do_request_p_get_dict. Qed.

(** X10.  The calls that leave [p] out share one dict.  Once any such GET
    has returned, a later [archive_article] sends that dict as the body of
    its PUT: a JSON object holding the [page] and [page_size] the GET left
    in it. *)
Theorem default_dict_carries_paging fuel self endpoint id shared (w : World) r shared' :
  result_of (do_request_p fuel self "GET" (Some endpoint) shared w)
    = Returned (r, shared') →
  ∃ rs page page_size,
    exchanges (trace_of (archive_article fuel self id shared'
                 (do_request_p fuel self "GET" (Some endpoint) shared w).2))
    = [(write_request self "PUT" ("articles/" +:+ pretty id +:+ "/archive") shared',
        rs)] ∧
    rq_data (write_request self "PUT" ("articles/" +:+ pretty id +:+ "/archive")
               shared') = Some shared' ∧
    dict_get "page" shared' = Some (JNum page) ∧ 2 ≤ page ∧
    dict_get "page_size" shared' = Some (JNum page_size).
Proof.
  intros Hp.
  destruct (do_request_p_get_dict _ _ _ _ _ _ _ Hp)
    as (_ & Hpage & Hge & Hps & _).
  unfold archive_article.
  assert (Hex : ∃ rs,
    exchanges (trace_of (do_request_p fuel self "PUT"
      (Some ("articles/" +:+ pretty id +:+ "/archive")) shared'
      (do_request_p fuel self "GET" (Some endpoint) shared w).2)) =
    [(write_request self "PUT" ("articles/" +:+ pretty id +:+ "/archive") shared',
      rs)]).
  { pose proof (do_request_p_spec fuel self "PUT"
                  (Some ("articles/" +:+ pretty id +:+ "/archive")) shared'
                  (do_request_p fuel self "GET" (Some endpoint) shared w).2) as Hspec.
    rewrite do_request_write in Hspec
      by (repeat constructor).
    destruct (send _ _) as [[e|response] w1];
      injection Hspec as _ <- _; by eexists. }
  destruct Hex as [rs Hex].
  destruct Hps as [Hps|Hps]; eexists rs, _, _; (split_and!; [done|done|done| |done]); lia.
Qed.
End EngineExtras.

(** X5.  What the engine takes a 200 body to be.  A bare list counts its
    items.  A mapping is looked at under its first key only: a mapping
    there is one item, a list counts its items and a string its characters;
    anything else there has no length.  An empty mapping has no first key,
    any other JSON value is refused by name of its type, and a body that is
    not JSON fails to decode. *)
Theorem response_size_cases (r : response) :
  response_size_of r =
  match body r with
  | None => Raised JSONDecodeError
  | Some (JList l) => Returned (Z.of_nat (length l))
  | Some (JDict []) => Raised IndexError
  | Some (JDict ((_, JDict _) :: _)) => Returned 1
  | Some (JDict ((_, JList l) :: _)) => Returned (Z.of_nat (length l))
  | Some (JDict ((_, JStr s) :: _)) => Returned (Z.of_nat (String.length s))
  | Some (JDict ((_, _) :: _)) => Raised TypeError
  | Some j => Raised (ValueError ("I'm not set up to handle this type: <class '"
                                  +:+ type_name j +:+ "'>"))
  end.
Proof.
  unfold response_size_of, response_json.
  destruct (body r) as [[| | | |l|[|[k v] d]]|]; try done.
  cbn [mbind outcome_mbind outcome_bind unwrap fmap list_fmap fst subscript].
  rewrite dict_get_head. by destruct v.
Qed.

(** * Further properties of the lookup tables *)

(** X11.  The table of a typed collection, in full: last writer wins.
    Under a name it holds the id of the last item with that name, under an
    id the name of the last item with that id, and nothing under any other
    key. *)
Theorem lookup_table_last_writer temp_raw entries :
  Forall2 (λ c e, entry_of c = Some e) temp_raw entries →
  ∃ table,
    build_table temp_raw ∅ = Returned table ∧
    (∀ name, table !! KStr name =
             (λ e, JNum e.2) <$> last (filter (λ e, e.1 = name) entries)) ∧
    (∀ id, table !! KInt id =
           (λ e, JStr e.1) <$> last (filter (λ e, e.2 = id) entries)) ∧
    table !! KNone = None.
Proof.
  intros Hall. eexists. split; [by apply build_table_entries|].
  clear Hall temp_raw.
  induction entries as [|[name' id'] entries IH] using rev_ind.
  { by split_and!. }
  destruct IH as (IHn & IHi & IH0).
  rewrite foldl_app. simpl. unfold table_step at 1 3 5. simpl.
  split_and!.
  - intros name. rewrite lookup_insert_ne by done.
    rewrite filter_app, filter_cons, filter_nil. simpl.
    destruct (decide (name' = name)) as [->|Hne].
    + by rewrite lookup_insert_eq, last_snoc.
    + rewrite lookup_insert_ne by congruence. by rewrite app_nil_r.
  - intros id. rewrite filter_app, filter_cons, filter_nil. simpl.
    destruct (decide (id' = id)) as [->|Hne].
    + by rewrite lookup_insert_eq, last_snoc.
    + rewrite !lookup_insert_ne by congruence. by rewrite app_nil_r.
  - by rewrite !lookup_insert_ne.
Qed.

(** X12.  The table is built exactly when every item is a mapping that has
    a hashable value under [name] and under [id]; any other item aborts the
    construction. *)
Theorem lookup_table_built_iff temp_raw :
  (∃ table, build_table temp_raw ∅ = Returned table) ↔
  Forall (λ c, ∃ name id kn ki,
            subscript c "name" = Returned name ∧ subscript c "id" = Returned id ∧
            hashable name = Returned kn ∧ hashable id = Returned ki) temp_raw.
Proof.
  generalize (∅ : LookupTable).
  induction temp_raw as [|c cs IH]; intros t0; simpl.
  { split; [constructor | by eexists]. }
  split.
  - intros [table Hb]. unfold table_add, table_set in Hb.
    destruct (subscript c "id") as [id| |] eqn:Hid; [|done..].
    destruct (subscript c "name") as [name| |] eqn:Hname; [|done..].
    cbn [mbind outcome_mbind outcome_bind] in Hb.
    destruct (hashable name) as [kn| |] eqn:Hkn; [|done..].
    cbn [mbind outcome_mbind outcome_bind] in Hb.
    destruct (hashable id) as [ki| |] eqn:Hki; [|done..].
    cbn [mbind outcome_mbind outcome_bind] in Hb.
    constructor; [by exists name, id, kn, ki|].
    apply (IH (<[ki:=name]> (<[kn:=id]> t0))). by exists table.
  - intros [(name & id & kn & ki & Hname & Hid & Hkn & Hki) Hrest]%Forall_cons.
    unfold table_add, table_set. rewrite Hid, Hname.
    cbn [mbind outcome_mbind outcome_bind]. rewrite Hkn.
    cbn [mbind outcome_mbind outcome_bind]. rewrite Hki.
    cbn [mbind outcome_mbind outcome_bind]. by apply IH.
Qed.

(** * Construction *)

Lemma bind_lift_returned {World A B} (a : A) (f : A → M World B) (w : World) :
  (lift (Returned a) ≫= f) w = f a w.
Proof.
  unfold mbind, M_mbind, M_bind, lift. by destruct (f a w) as [[o t] w1].
Qed.

Lemma bind_lift_raised {World A B} (e : exn) (f : A → M World B) (w : World) :
  (lift (Raised e) ≫= f) w = (Raised e, [], w).
Proof. reflexivity. Qed.

Section Construction.
Context `{Transport World}.

(** The requests of one table. *)
Lemma fetch_table_exchanges fuel self item (w : World) :
  exchanges (trace_of (fetch_table fuel self item w)) =
  exchanges (trace_of (do_request fuel self "GET" (Some item) [] w)).
Proof.
  unfold fetch_table. rewrite exchanges_bind.
  destruct (result_of (do_request fuel self "GET" (Some item) [] w)) as [r| |];
    [|by rewrite app_nil_r..].
  rewrite exchanges_bind. unfold lift at 1. simpl.
  destruct (iterate r); simpl; by rewrite app_nil_r.
Qed.

(** X13.  Whatever is sent while a client is constructed is sent for the
    lookup tables: a GET to the [companies] or the [asset_layouts] endpoint
    of [https://domain/api/version], carrying the key that was resolved in
    [x-api-key].  Without the flag nothing is sent. *)
Theorem init_requests_carry_key fuel api_key domain api_version lookupTables env
    (w : World) rq rs :
  (rq, rs) ∈ exchanges (trace_of
    (Hudu_init fuel api_key domain api_version lookupTables env w)) →
  lookupTables = true ∧
  ∃ key,
    resolve_api_key api_key env = Returned key ∧
    rq_method rq = "GET" ∧
    rq_headers rq = [("accept", "application/json");
                     ("Content-Type", "application/json");
                     ("x-api-key", key)] ∧
    (rq_uri rq = ("https://" +:+ str_opt (resolve_domain domain env) +:+ "/api/"
                  +:+ resolve_api_version api_version env) +:+ "/" +:+ "companies" ∨
     rq_uri rq = ("https://" +:+ str_opt (resolve_domain domain env) +:+ "/api/"
                  +:+ resolve_api_version api_version env) +:+ "/" +:+ "asset_layouts").
Proof.
  unfold Hudu_init.
  destruct (resolve_api_key api_key env) as [key| |] eqn:Hkey.
  2,3: by intros Hin; apply elem_of_nil in Hin.
  rewrite bind_lift_returned. cbn zeta.
  destruct lookupTables; [|by intros Hin; apply elem_of_nil in Hin].
  intros Hin. split; [done|]. exists key. split; [done|].
  unfold Hudu_lookup_tables in Hin.
  rewrite exchanges_bind, fetch_table_exchanges in Hin.
  apply elem_of_app in Hin as [Hin|Hin].
  - destruct (do_request_get_shape _ _ _ _ _ _ _ Hin) as (Hm & Hu & Hh & _).
    split_and!; [done|done|by left].
  - destruct (result_of (fetch_table _ _ "companies" w)) as [t1| |];
      [|by apply elem_of_nil in Hin..].
    rewrite exchanges_bind, fetch_table_exchanges in Hin.
    apply elem_of_app in Hin as [Hin|Hin].
    + destruct (do_request_get_shape _ _ _ _ _ _ _ Hin) as (Hm & Hu & Hh & _).
      split_and!; [done|done|by right].
    + destruct (result_of (fetch_table _ _ "asset_layouts" _)) as [t2| |];
        by apply elem_of_nil in Hin.
Qed.

(** X14.  Where the key comes from.  A key given as argument is the key,
    whatever the environment holds; otherwise [HUDU_API_KEY] of the
    environment is, whatever the secret file holds; otherwise the text of
    the secret file is, stripped of the white space around it.  The
    constructor raises for want of a key exactly when there is none of the
    three, and then nothing is sent. *)
Theorem api_key_precedence fuel api_key domain api_version lookupTables env (w : World) :
  (∀ key, api_key = Some key → resolve_api_key api_key env = Returned key) ∧
  (∀ key, api_key = None → environ env !! "HUDU_API_KEY" = Some key →
          resolve_api_key api_key env = Returned key) ∧
  (∀ text, api_key = None → environ env !! "HUDU_API_KEY" = None →
           secret_file env = Some text →
           resolve_api_key api_key env = Returned (strip text)) ∧
  (resolve_api_key api_key env = Raised no_api_key ↔
   api_key = None ∧ environ env !! "HUDU_API_KEY" = None ∧ secret_file env = None) ∧
  (resolve_api_key api_key env = Raised no_api_key →
   Hudu_init fuel api_key domain api_version lookupTables env w
     = (Raised no_api_key, [], w)).
Proof.
  unfold resolve_api_key, Hudu_init. split_and!.
  - by intros key ->.
  - by intros key -> ->.
  - by intros text -> -> ->.
  - destruct api_key as [k|]; [by split; [|intros [? _]]|].
    destruct (environ env !! "HUDU_API_KEY") as [k|]; [by split; [|intros (_ & ? & _)]|].
    destruct (secret_file env) as [text|]; [by split; [|intros (_ & _ & ?)]|].
    done.
  - fold (resolve_api_key api_key env). by intros ->.
Qed.
End Construction.

(** * Further properties of the façade *)

Lemma dict_get_set_opt_eq k v d :
  dict_get k (dict_set_opt k v d) = match v with Some x => Some x | None => dict_get k d end.
Proof. destruct v; [apply dict_get_set_eq | done]. Qed.

Lemma select_passwords_filter all_passwords id passwords :
  select_passwords all_passwords id = Returned passwords →
  passwords = List.filter (belongs_to id) all_passwords ∧
  Forall (λ p, ∃ v, subscript p "passwordable_id" = Returned v) all_passwords.
Proof.
  revert passwords. induction all_passwords as [|p rest IH]; intros passwords; simpl.
  - by intros [= <-].
  - unfold belongs_to at 1.
    destruct (subscript p "passwordable_id") as [v| |] eqn:Hv; [|done..].
    cbn [mbind outcome_mbind outcome_bind].
    destruct (select_passwords rest id) as [ps| |]; [|done..].
    cbn [mbind outcome_mbind outcome_bind]. intros [= <-].
    destruct (IH ps eq_refl) as [-> Hall].
    split; [by destruct (py_eq_int v id) | constructor; eauto].
Qed.

Section FacadeExtras.
Context `{Transport World} `{DateTime T}.

(** The exchanges of a write. *)
Lemma do_request_write_exchanges fuel self method endpoint p (w : World) x :
  method ∈ ["POST"; "PUT"; "DELETE"] →
  x ∈ exchanges (trace_of (do_request fuel self method (Some endpoint) p w)) →
  x.1 = write_request self method endpoint p.
Proof.
  intros Hm. rewrite (do_request_write _ _ _ _ _ _ Hm).
  destruct (send _ w) as [[e|response] w1]; simpl;
    by intros ->%list_elem_of_singleton.
Qed.

(** X15.  [create_asset_password] sends its four required fields and
    nothing else: [hasattr] is asked of the dict [locals()] returns, which
    has none of the optional names as an attribute, so no optional argument
    ever reaches the request. *)
Theorem create_asset_password_drops_optionals fuel self name username password
    passwordable_type otp_secret url password_type slug company_id description
    passwordable_id in_portal password_folder_id (w : World) :
  create_asset_password fuel self name username password passwordable_type
    otp_secret url password_type slug company_id description passwordable_id
    in_portal password_folder_id w =
  do_request fuel self "POST" (Some "asset_passwords")
    [("asset_password",
      JDict [("name", JStr name); ("username", JStr username);
             ("password", JStr password); ("company_id", JNum company_id)])] w.
Proof.
  unfold create_asset_password.
  replace (add_optional_args optional_args _) with
    (Returned [("asset_password",
      JDict [("name", JStr name); ("username", JStr username);
             ("password", JStr password); ("company_id", JNum company_id)])])
    by reflexivity.
  apply bind_lift_returned.
Qed.

(** The lookup of [update_asset], when it returns. *)
Lemma asset_lookup_result fuel self id company_id (w : World) na :
  result_of (asset_lookup fuel self id company_id w) = Returned na →
  ∃ r a,
    result_of (do_request fuel self "GET" (Some "assets")
                 [("id", JNum id); ("company_id", JNum company_id)] w) = Returned r ∧
    first_item r = Returned a ∧
    subscript a "name" = Returned na.1 ∧
    subscript a "asset_layout_id" = Returned na.2.
Proof.
  unfold asset_lookup. rewrite bind_result.
  destruct (result_of (do_request _ _ _ _ _ w)) as [r| |]; [|done..].
  rewrite bind_result. unfold lift at 1, result_of at 1. simpl.
  destruct (first_item r) as [a| |] eqn:Ha; [|done..].
  rewrite bind_result. unfold lift at 1, result_of at 1. simpl.
  destruct (subscript a "name") as [nm| |] eqn:Hn; [|done..].
  rewrite bind_result. unfold lift at 1, result_of at 1. simpl.
  destruct (subscript a "asset_layout_id") as [al| |] eqn:Hl; [|done..].
  intros [= <-]. by exists r, a.
Qed.

Lemma asset_lookup_requests fuel self id company_id (w : World) :
  Forall (λ x, rq_method x.1 = "GET")
    (exchanges (trace_of (asset_lookup fuel self id company_id w))).
Proof.
  unfold asset_lookup. rewrite exchanges_bind.
  apply Forall_app. split.
  - apply do_request_get_requests.
  - destruct (result_of _) as [r| |]; [|constructor..].
    rewrite exchanges_bind. unfold lift at 1. simpl.
    destruct (first_item r) as [a| |]; [|constructor..]. simpl.
    rewrite exchanges_bind. unfold lift at 1. simpl.
    destruct (subscript a "name") as [nm| |]; [|constructor..]. simpl.
    rewrite exchanges_bind. unfold lift at 1. simpl.
    destruct (subscript a "asset_layout_id") as [al| |]; constructor.
Qed.

(** [update_asset] when something is missing: the lookup, then the PUT. *)
Lemma update_asset_missing fuel self id company_id asset_layout_id name
    primary_serial primary_mail primary_model primary_manufacturer
    custom_fields (w : World) :
  name = None ∨ asset_layout_id = None →
  update_asset fuel self id company_id asset_layout_id name primary_serial
    primary_mail primary_model primary_manufacturer custom_fields w =
  (na ← asset_lookup fuel self id company_id;
   do_request fuel self "PUT" (Some (asset_endpoint company_id id))
     [("asset",
       JDict (dict_set_opt "custom_fields" (JList <$> (parsed_data <$> custom_fields))
         (dict_set_opt "primary_manufacturer" (JStr <$> primary_manufacturer)
           (dict_set_opt "primary_model" (JStr <$> primary_model)
             (dict_set_opt "primary_mail" (JStr <$> primary_mail)
               (dict_set_opt "primary_serial" (JStr <$> primary_serial)
                 (dict_set "name" (na.1)
                   (dict_set "asset_layout_id" (na.2) []))))))))]) w.
Proof.
  intros Hmiss. unfold update_asset, asset_lookup.
  by destruct name, asset_layout_id, Hmiss.
Qed.

(** X16.  When [update_asset] is called without a name or without a
    layout, the name and the layout it sends are both those of the first
    asset the lookup returned: an argument that was given for one of the
    two is overridden. *)
Theorem update_asset_sends_fetched fuel self id company_id asset_layout_id name
    primary_serial primary_mail primary_model primary_manufacturer
    custom_fields (w : World) rq rs :
  name = None ∨ asset_layout_id = None →
  (rq, rs) ∈ exchanges (trace_of
    (update_asset fuel self id company_id asset_layout_id name primary_serial
       primary_mail primary_model primary_manufacturer custom_fields w)) →
  rq_method rq = "PUT" →
  ∃ r a fetched_name fetched_layout asset,
    result_of (do_request fuel self "GET" (Some "assets")
                 [("id", JNum id); ("company_id", JNum company_id)] w) = Returned r ∧
    first_item r = Returned a ∧
    subscript a "name" = Returned fetched_name ∧
    subscript a "asset_layout_id" = Returned fetched_layout ∧
    rq_data rq = Some [("asset", JDict asset)] ∧
    dict_get "name" asset = Some fetched_name ∧
    dict_get "asset_layout_id" asset = Some fetched_layout.
Proof.
  intros Hmiss. rewrite (update_asset_missing _ _ _ _ _ _ _ _ _ _ _ _ Hmiss).
  rewrite exchanges_bind. intros Hin Hput.
  apply elem_of_app in Hin as [Hin|Hin].
  { pose proof (asset_lookup_requests fuel self id company_id w) as Hget.
    rewrite Forall_forall in Hget. specialize (Hget _ Hin). simpl in Hget.
    congruence. }
  destruct (result_of (asset_lookup fuel self id company_id w)) as [na| |] eqn:Hna;
    [|by apply elem_of_nil in Hin..].
  destruct (asset_lookup_result _ _ _ _ _ _ Hna) as (r & a & Hr & Ha & Hn & Hl).
  apply do_request_write_exchanges in Hin; [|repeat constructor].
  simpl in Hin. subst rq.
  exists r, a, na.1, na.2. eexists. split_and!; [done..|reflexivity| |].
  - by rewrite !dict_get_set_opt_ne.
  - by rewrite !dict_get_set_opt_ne.
Qed.

(** X17.  When the lookup of [update_asset] finds no asset, the call raises
    [IndexError] and no PUT is sent. *)
Theorem update_asset_nothing_found fuel self id company_id asset_layout_id name
    primary_serial primary_mail primary_model primary_manufacturer
    custom_fields (w : World) :
  name = None ∨ asset_layout_id = None →
  result_of (do_request fuel self "GET" (Some "assets")
               [("id", JNum id); ("company_id", JNum company_id)] w)
    = Returned (ResJson (JList [])) →
  result_of (update_asset fuel self id company_id asset_layout_id name
               primary_serial primary_mail primary_model primary_manufacturer
               custom_fields w) = Raised IndexError ∧
  Forall (λ x, rq_method x.1 = "GET")
    (exchanges (trace_of
       (update_asset fuel self id company_id asset_layout_id name primary_serial
          primary_mail primary_model primary_manufacturer custom_fields w))).
Proof.
  intros Hmiss Hempty.
  rewrite (update_asset_missing _ _ _ _ _ _ _ _ _ _ _ _ Hmiss).
  assert (Hna : result_of (asset_lookup fuel self id company_id w) = Raised IndexError).
  { unfold asset_lookup. rewrite bind_result, Hempty. by rewrite bind_result. }
  rewrite bind_result, exchanges_bind, Hna, app_nil_r.
  split; [done | apply asset_lookup_requests].
Qed.
End FacadeExtras.

Section FacadeExtras2.
Context `{Transport World} `{DateTime T}.

(** A GET that returns, returns a list. *)
Lemma do_request_get_list fuel self endpoint p (w : World) r :
  result_of (do_request fuel self "GET" (Some endpoint) p w) = Returned r →
  ∃ items, r = ResJson (JList items).
Proof.
  rewrite do_request_get_result.
  destruct (result_of (get_loop _ _ _ _ w)) as [items| |]; [|done..].
  intros [= <-]. by exists items.
Qed.

(** X18.  What [get_company_asset] returns.  Under [data] it is what the
    GET for the asset returned; under [passwords] it is, in their order,
    those items of the GET for the company's passwords whose
    [passwordable_id] equals the id.  Every item of that second GET had a
    [passwordable_id], or the call would have raised. *)
Theorem get_company_asset_envelope fuel self company_id id shared (w : World) r shared' :
  result_of (get_company_asset fuel self company_id id shared w)
    = Returned (r, shared') →
  ∃ data all_passwords,
    result_of (do_request fuel self "GET"
                 (Some ("companies/" +:+ pretty company_id +:+ "/assets/"
                        +:+ pretty id)) shared w)
      = Returned (ResJson (JList data)) ∧
    result_of (do_request fuel self "GET" (Some "asset_passwords")
                 [("company_id", JNum company_id)]
                 (do_request fuel self "GET"
                    (Some ("companies/" +:+ pretty company_id +:+ "/assets/"
                           +:+ pretty id)) shared w).2)
      = Returned (ResJson (JList all_passwords)) ∧
    r = ResJson (JDict [("data", JList data);
                        ("passwords",
                         JList (List.filter (belongs_to id) all_passwords))]) ∧
    Forall (λ p, ∃ v, subscript p "passwordable_id" = Returned v) all_passwords.
Proof.
  unfold get_company_asset. rewrite bind_result.
  pose proof (do_request_p_spec fuel self "GET"
                (Some ("companies/" +:+ pretty company_id +:+ "/assets/"
                       +:+ pretty id)) shared w) as Hspec.
  destruct (result_of (do_request_p _ _ _ _ _ w)) as [[r1 sh]| |] eqn:Hr1;
    [|done..].
  assert (Hfirst : result_of (do_request fuel self "GET"
                     (Some ("companies/" +:+ pretty company_id +:+ "/assets/"
                            +:+ pretty id)) shared w) = Returned r1)
    by (by rewrite Hspec).
  assert (Hworld : (do_request fuel self "GET"
                     (Some ("companies/" +:+ pretty company_id +:+ "/assets/"
                            +:+ pretty id)) shared w).2 =
                   (do_request_p fuel self "GET"
                     (Some ("companies/" +:+ pretty company_id +:+ "/assets/"
                            +:+ pretty id)) shared w).2)
    by (by rewrite Hspec).
  rewrite Hworld. clear Hspec Hworld.
  destruct (do_request_get_list _ _ _ _ _ _ Hfirst) as [data ->].
  rewrite bind_result.
  destruct (result_of (do_request fuel self "GET" (Some "asset_passwords") _ _))
    as [r2| |] eqn:Hr2; [|done..].
  destruct (do_request_get_list _ _ _ _ _ _ Hr2) as [all_passwords ->].
  rewrite bind_result. unfold lift at 1, result_of at 1. simpl.
  rewrite bind_result. unfold lift at 1, result_of at 1. simpl.
  destruct (select_passwords all_passwords id) as [passwords| |] eqn:Hsel;
    [|done..].
  destruct (select_passwords_filter _ _ _ Hsel) as [-> Hall].
  intros [= <- <-]. by exists data, all_passwords.
Qed.

(** X19.  [create_asset_layouts] posts the fields as the [__dict__] of each
    field object, in order, under [asset_layout.fields].  In such a dict
    the field type is the value of the enum member, and the position given
    to the field is under the key [posistion]: no key [position] exists. *)
Theorem layout_fields_as_assigned fuel self name icon color icon_color fields
    include_passwords include_photos include_comments include_files
    password_types (w : World) rq rs :
  (rq, rs) ∈ exchanges (trace_of
    (create_asset_layouts fuel self name icon color icon_color fields
       include_passwords include_photos include_comments include_files
       password_types w)) →
  rq_method rq = "POST" ∧
  rq_uri rq = url self +:+ "/" +:+ "asset_layouts" ∧
  (∃ layout,
     rq_data rq = Some [("asset_layout", JDict layout)] ∧
     dict_get "fields" layout = Some (JList (JDict <$> fields))) ∧
  (∀ label show_in_list required field_type min max hint options position
     expiration linkable_id,
     dict_get "posistion"
       (Field label show_in_list required field_type min max hint options
          position expiration linkable_id) = Some (opt_json JNum position) ∧
     dict_get "position"
       (Field label show_in_list required field_type min max hint options
          position expiration linkable_id) = None ∧
     dict_get "field_type"
       (Field label show_in_list required field_type min max hint options
          position expiration linkable_id)
       = Some (JStr (FieldType_value field_type))).
Proof.
  intros Hin. unfold create_asset_layouts in Hin.
  apply do_request_write_exchanges in Hin; [|repeat constructor].
  simpl in Hin. subst rq. split_and!; [done..| |done].
  eexists. split; [reflexivity|]. apply dict_get_set_eq.
Qed.

(** X20.  [create_asset] posts to the company's assets.  The company id is
    in the path only, never in the body; and the custom fields go out as
    the mapping the caller gave, keys untouched. *)
Theorem create_asset_body fuel self company_id asset_layout_id name primary_serial
    primary_mail primary_model primary_manufacturer custom_fields (w : World) rq rs :
  (rq, rs) ∈ exchanges (trace_of
    (create_asset fuel self company_id asset_layout_id name primary_serial
       primary_mail primary_model primary_manufacturer custom_fields w)) →
  rq_method rq = "POST" ∧
  rq_uri rq = url self +:+ "/" +:+ "companies/" +:+ pretty company_id +:+ "/assets" ∧
  ∃ asset,
    rq_data rq = Some [("asset", JDict asset)] ∧
    dict_get "asset_layout_id" asset = Some (JNum asset_layout_id) ∧
    dict_get "name" asset = Some (JStr name) ∧
    dict_get "custom_fields" asset = JDict <$> custom_fields ∧
    dict_get "company_id" asset = None.
Proof.
  intros Hin. unfold create_asset in Hin.
  apply do_request_write_exchanges in Hin; [|repeat constructor].
  simpl in Hin. subst rq. split_and!; [done..|].
  eexists. split; [reflexivity|].
  split_and!.
  - by rewrite !dict_get_set_opt_ne.
  - by rewrite !dict_get_set_opt_ne.
  - rewrite dict_get_set_opt_eq. destruct custom_fields; [done|].
    by rewrite !dict_get_set_opt_ne.
  - by rewrite !dict_get_set_opt_ne.
Qed.

(** X21.  The filters of [get_activity_logs], on every page request: each
    filter that was given goes out under its name with its value, the date
    in ISO format, and a filter that was not given is left out; the
    resource id and the resource type go out only together. *)
Theorem activity_logs_filters fuel self user_id user_email resource_id
    resource_type action_message (start_date : option T) (w : World) rq rs :
  (rq, rs) ∈ exchanges (trace_of
    (get_activity_logs fuel self user_id user_email resource_id resource_type
       action_message start_date w)) →
  rq_uri rq = url self +:+ "/" +:+ "activity_logs" ∧
  param_of "user_id" rq = JNum <$> user_id ∧
  param_of "user_email" rq = JStr <$> user_email ∧
  param_of "resource_id" rq =
    (if is_None resource_type then None else JNum <$> resource_id) ∧
  param_of "resource_type" rq =
    (if is_None resource_id then None else JStr <$> resource_type) ∧
  param_of "action_message" rq = JStr <$> action_message ∧
  param_of "start_date" rq = JStr <$> (isoformat <$> start_date).
Proof.
  intros Hin. unfold get_activity_logs in Hin.
  destruct (do_request_get_shape _ _ _ _ _ _ _ Hin) as (_ & Hu & _ & _ & Hk & _).
  split; [done|].
  rewrite !Hk by done. unfold activity_logs_params.
  by destruct user_id, user_email, resource_id, resource_type, action_message,
       start_date.
Qed.

(** X22.  [get_assets] with a company and no other filter raises
    [NameError] on [page] before anything is sent, whatever [archived] is.
    With any other combination it is a GET to [assets], and every request
    carries each filter that was given, [archived] included. *)
Theorem get_assets_dispatch fuel self company_id id name primary_serial
    asset_layout_id archived (w : World) :
  (is_None company_id = false → id = None → name = None → primary_serial = None →
   asset_layout_id = None →
   get_assets fuel self company_id id name primary_serial asset_layout_id archived w
     = (Raised (NameError "page"), [], w)) ∧
  (∀ rq rs,
     (rq, rs) ∈ exchanges (trace_of
       (get_assets fuel self company_id id name primary_serial asset_layout_id
          archived w)) →
     rq_uri rq = url self +:+ "/" +:+ "assets" ∧
     param_of "company_id" rq = JNum <$> company_id ∧
     param_of "id" rq = JNum <$> id ∧
     param_of "name" rq = JStr <$> name ∧
     param_of "primary_serial" rq = JNum <$> primary_serial ∧
     param_of "asset_layout_id" rq = JNum <$> asset_layout_id ∧
     param_of "archived" rq = JBool <$> archived).
Proof.
  assert (Hpage : ∀ locals : gmap string pyobj,
            locals !! "page" = None →
            load_name locals "page" = Raised (NameError "page")).
  { intros locals Hl. unfold load_name. rewrite Hl.
    by replace (bool_decide ("page" ∈ module_globals ++ builtins)) with false
      by (by vm_compute). }
  split.
  - intros Hc -> -> -> ->. unfold get_assets. rewrite Hc. cbn [is_None negb andb].
    rewrite Hpage; [done|].
    by rewrite !lookup_insert_ne, lookup_singleton_ne.
  - intros rq rs. unfold get_assets.
    destruct (negb (is_None company_id) && is_None id && is_None name
              && is_None primary_serial && is_None asset_layout_id).
    { rewrite Hpage by (by rewrite !lookup_insert_ne, lookup_singleton_ne).
      by intros Hin; apply elem_of_nil in Hin. }
    intros Hin.
    destruct (do_request_get_shape _ _ _ _ _ _ _ Hin) as (_ & Hu & _ & _ & Hk & _).
    split; [done|].
    rewrite !Hk by done.
    by destruct company_id, id, name, primary_serial, asset_layout_id, archived.
Qed.
End FacadeExtras2.

(** * The extras at work *)

Lemma write_is_one_exchange_witness :
  do_request 5 sample_client "DELETE" (Some "articles/7") [("page", JNum 2)]
    (answers [bare_response 204 "No Content"]) =
  (Returned (ResResponse (bare_response 204 "No Content")),
   [EvHttp (Request "DELETE" "https://docs.example.org/api/v1/articles/7"
              (headers sample_client) None None)
           (inr (bare_response 204 "No Content"))],
   answers []).
Proof.
  refine (write_is_one_exchange 5 sample_client "DELETE" "articles/7"
            [("page", JNum 2)] (answers [bare_response 204 "No Content"]) _).
  repeat constructor.
Defined.

Lemma get_requests_carry_filters_witness :
  rq_method (named_request 1 1000) = "GET" ∧
  rq_uri (named_request 1 1000) = url sample_client +:+ "/" +:+ "companies" ∧
  rq_headers (named_request 1 1000) = headers sample_client ∧
  rq_data (named_request 1 1000) = None ∧
  (∀ k, k ≠ "page" → k ≠ "page_size" →
        param_of k (named_request 1 1000) = dict_get k [("name", JStr "Acme")]) ∧
  (param_of "page_size" (named_request 1 1000) = Some (JNum 1000) ∨
   param_of "page_size" (named_request 1 1000) = Some (JNum 25)).
Proof.
  apply (get_requests_carry_filters 5 sample_client "companies"
           [("name", JStr "Acme")] (answers [ok_response (company_page 2)])
           (named_request 1 1000) (inr (ok_response (company_page 2)))).
  vm_compute. constructor.
Defined.

Lemma get_pages_in_sequence_witness :
  param_of "page" (companies_request 2 25) =
  Some (JNum (1 + Z.of_nat (served (take 2
    (exchanges (trace_of (do_request 5 sample_client "GET" (Some "companies") []
       (answers [ok_response (company_page 25);
                 bare_response 429 "Too Many Requests";
                 ok_response (company_page 3)])))))))).
Proof.
  apply (get_pages_in_sequence 5 sample_client "companies" []
           (answers [ok_response (company_page 25);
                     bare_response 429 "Too Many Requests";
                     ok_response (company_page 3)])
           2%nat (companies_request 2 25) (inr (ok_response (company_page 3)))).
  vm_compute. reflexivity.
Defined.

Lemma unreadable_page_aborts_witness :
  result_of (do_request 5 sample_client "GET" (Some "companies") []
    (answers [ok_response (company_page 25); bare_response 200 "OK"]))
    = Raised JSONDecodeError ∧
  last (exchanges (trace_of (do_request 5 sample_client "GET" (Some "companies") []
    (answers [ok_response (company_page 25); bare_response 200 "OK"]))))
    = Some (answered (companies_request 2 25) (bare_response 200 "OK")).
Proof.
  apply (unreadable_page_aborts 5 sample_client "companies" []
           (answers [ok_response (company_page 25); bare_response 200 "OK"])
           (companies_request 2 25) (bare_response 200 "OK") JSONDecodeError).
  - vm_compute. repeat constructor.
  - reflexivity.
  - reflexivity.
Defined.

Lemma transport_failure_aborts_witness :
  result_of (do_request 5 sample_client "GET" (Some "companies") []
    (answers [ok_response (company_page 25)])) = Raised RequestException ∧
  last (exchanges (trace_of (do_request 5 sample_client "GET" (Some "companies") []
    (answers [ok_response (company_page 25)]))))
    = Some (companies_request 2 25, inl RequestException).
Proof.
  apply (transport_failure_aborts 5 sample_client "companies" []
           (answers [ok_response (company_page 25)])
           (companies_request 2 25) RequestException).
  vm_compute. repeat constructor.
Defined.

Lemma stalling_server_never_returns_witness :
  result_of (do_request 40 sample_client "GET" (Some "companies") []
    (Stubborn (ok_response (company_page 25)))) = OutOfFuel ∧
  round_trips (trace_of (do_request 40 sample_client "GET" (Some "companies") []
    (Stubborn (ok_response (company_page 25))))) = 40%nat.
Proof.
  apply (stalling_server_never_returns
           (always (ok_response (company_page 25))) 40 sample_client "companies" []
           (Stubborn (ok_response (company_page 25)))).
  - intros rq w ->. exists (ok_response (company_page 25)), (Stubborn (ok_response (company_page 25))).
    split; [reflexivity|]. split; [|reflexivity].
    right. split; [reflexivity|]. eexists. split; [reflexivity|]. left. reflexivity.
  - reflexivity.
Defined.

Lemma get_rewrites_callers_dict_witness :
  result_of (do_request 5 sample_client "GET" (Some "companies") [("name", JStr "Acme")]
    (answers [ok_response (company_page 2)])) = Returned (ResJson (company_page 2)) ∧
  dict_get "page" [("name", JStr "Acme"); ("page", JNum 2); ("page_size", JNum 1000)] =
    Some (JNum (1 + Z.of_nat (length (pages
      (trace_of (do_request 5 sample_client "GET" (Some "companies")
         [("name", JStr "Acme")] (answers [ok_response (company_page 2)]))))))) ∧
  (1 ≤ length (pages (trace_of (do_request 5 sample_client "GET" (Some "companies")
         [("name", JStr "Acme")] (answers [ok_response (company_page 2)])))))%nat ∧
  (dict_get "page_size"
     [("name", JStr "Acme"); ("page", JNum 2); ("page_size", JNum 1000)]
     = Some (JNum 1000) ∨
   dict_get "page_size"
     [("name", JStr "Acme"); ("page", JNum 2); ("page_size", JNum 1000)]
     = Some (JNum 25)) ∧
  (∀ k, k ≠ "page" → k ≠ "page_size" →
     dict_get k [("name", JStr "Acme"); ("page", JNum 2); ("page_size", JNum 1000)]
     = dict_get k [("name", JStr "Acme")]).
Proof.
  apply (get_rewrites_callers_dict 5 sample_client "companies" [("name", JStr "Acme")]
           (answers [ok_response (company_page 2)]) (ResJson (company_page 2))
           [("name", JStr "Acme"); ("page", JNum 2); ("page_size", JNum 1000)]).
  vm_compute. reflexivity.
Defined.

Lemma default_dict_carries_paging_witness :
  ∃ rs page page_size,
    exchanges (trace_of (archive_article 5 sample_client 7
                 [("page", JNum 2); ("page_size", JNum 1000)]
                 (do_request_p 5 sample_client "GET" (Some "companies") []
                    (answers [ok_response (company_page 2);
                              bare_response 200 "OK"])).2))
    = [(write_request sample_client "PUT" ("articles/" +:+ pretty 7 +:+ "/archive")
          [("page", JNum 2); ("page_size", JNum 1000)], rs)] ∧
    rq_data (write_request sample_client "PUT"
               ("articles/" +:+ pretty 7 +:+ "/archive")
               [("page", JNum 2); ("page_size", JNum 1000)])
      = Some [("page", JNum 2); ("page_size", JNum 1000)] ∧
    dict_get "page" [("page", JNum 2); ("page_size", JNum 1000)] = Some (JNum page) ∧
    2 ≤ page ∧
    dict_get "page_size" [("page", JNum 2); ("page_size", JNum 1000)]
      = Some (JNum page_size).
Proof.
  apply (default_dict_carries_paging 5 sample_client "companies" 7 []
           (answers [ok_response (company_page 2); bare_response 200 "OK"])
           (ResJson (company_page 2))).
  vm_compute. reflexivity.
Defined.

Lemma lookup_table_last_writer_witness :
  ∃ table,
    build_table [company "Acme" 1; company "Acme" 2; company "Initech" 2] ∅
      = Returned table ∧
    (∀ name, table !! KStr name =
             (λ e, JNum e.2) <$> last (filter (λ e, e.1 = name)
                [("Acme", 1); ("Acme", 2); ("Initech", 2)])) ∧
    (∀ id, table !! KInt id =
           (λ e, JStr e.1) <$> last (filter (λ e, e.2 = id)
                [("Acme", 1); ("Acme", 2); ("Initech", 2)])) ∧
    table !! KNone = None.
Proof.
  apply (lookup_table_last_writer
           [company "Acme" 1; company "Acme" 2; company "Initech" 2]
           [("Acme", 1); ("Acme", 2); ("Initech", 2)]).
  repeat constructor.
Defined.

Lemma init_requests_carry_key_witness :
  true = true ∧
  ∃ key,
    resolve_api_key None sample_env = Returned key ∧
    rq_method (companies_request 1 1000) = "GET" ∧
    rq_headers (companies_request 1 1000)
      = [("accept", "application/json");
         ("Content-Type", "application/json");
         ("x-api-key", key)] ∧
    (rq_uri (companies_request 1 1000)
       = ("https://" +:+ str_opt (resolve_domain None sample_env) +:+ "/api/"
          +:+ resolve_api_version None sample_env) +:+ "/" +:+ "companies" ∨
     rq_uri (companies_request 1 1000)
       = ("https://" +:+ str_opt (resolve_domain None sample_env) +:+ "/api/"
          +:+ resolve_api_version None sample_env) +:+ "/" +:+ "asset_layouts").
Proof.
  apply (init_requests_carry_key 5 None None None true sample_env
           (answers [ok_response (JList [company "Acme" 1]); ok_response (JList [])])
           (companies_request 1 1000)
           (inr (ok_response (JList [company "Acme" 1])))).
  vm_compute. constructor.
Defined.

Lemma update_asset_sends_fetched_witness :
  ∃ r a fetched_name fetched_layout asset,
    result_of (do_request 5 sample_client "GET" (Some "assets")
                 [("id", JNum 12); ("company_id", JNum 4)]
                 (answers [ok_response (JDict [("assets",
                             JList [JDict [("id", JNum 12); ("name", JStr "Laptop");
                                           ("asset_layout_id", JNum 3)]])]);
                           bare_response 200 "OK"])) = Returned r ∧
    first_item r = Returned a ∧
    subscript a "name" = Returned fetched_name ∧
    subscript a "asset_layout_id" = Returned fetched_layout ∧
    rq_data (Request "PUT" "https://docs.example.org/api/v1/companies/4/assets/12"
               (headers sample_client) None
               (Some [("asset",
                       JDict [("asset_layout_id", JNum 3); ("name", JStr "Laptop");
                              ("primary_serial", JStr "X1")])]))
      = Some [("asset", JDict asset)] ∧
    dict_get "name" asset = Some fetched_name ∧
    dict_get "asset_layout_id" asset = Some fetched_layout.
Proof.
  apply (update_asset_sends_fetched 5 sample_client 12 4 (Some 9) None
           (Some "X1") None None None None
           (answers [ok_response (JDict [("assets",
                       JList [JDict [("id", JNum 12); ("name", JStr "Laptop");
                                     ("asset_layout_id", JNum 3)]])]);
                     bare_response 200 "OK"])
           (Request "PUT" "https://docs.example.org/api/v1/companies/4/assets/12"
              (headers sample_client) None
              (Some [("asset",
                      JDict [("asset_layout_id", JNum 3); ("name", JStr "Laptop");
                             ("primary_serial", JStr "X1")])]))
           (inr (bare_response 200 "OK"))).
  - left. reflexivity.
  - vm_compute. repeat constructor.
  - reflexivity.
Defined.

Lemma update_asset_nothing_found_witness :
  result_of (update_asset 5 sample_client 12 4 None (Some "Laptop")
               (Some "X1") None None None None
               (answers [ok_response (JDict [("assets", JList [])]);
                         bare_response 200 "OK"])) = Raised IndexError ∧
  Forall (λ x, rq_method x.1 = "GET")
    (exchanges (trace_of
       (update_asset 5 sample_client 12 4 None (Some "Laptop")
          (Some "X1") None None None None
          (answers [ok_response (JDict [("assets", JList [])]);
                    bare_response 200 "OK"])))).
Proof.
  apply (update_asset_nothing_found 5 sample_client 12 4 None (Some "Laptop")
           (Some "X1") None None None None
           (answers [ok_response (JDict [("assets", JList [])]);
                     bare_response 200 "OK"])).
  - right. reflexivity.
  - vm_compute. reflexivity.
Defined.

Lemma get_company_asset_envelope_witness :
  ∃ data all_passwords,
    result_of (do_request 5 sample_client "GET"
                 (Some ("companies/" +:+ pretty 4 +:+ "/assets/" +:+ pretty 12)) []
                 (answers [ok_response (JDict [("asset", JDict [("id", JNum 12)])]);
                           ok_response (JList [password_of "root" 12;
                                               password_of "wifi" 9;
                                               password_of "bios" 12])]))
      = Returned (ResJson (JList data)) ∧
    result_of (do_request 5 sample_client "GET" (Some "asset_passwords")
                 [("company_id", JNum 4)]
                 (do_request 5 sample_client "GET"
                    (Some ("companies/" +:+ pretty 4 +:+ "/assets/" +:+ pretty 12)) []
                    (answers [ok_response (JDict [("asset", JDict [("id", JNum 12)])]);
                              ok_response (JList [password_of "root" 12;
                                                  password_of "wifi" 9;
                                                  password_of "bios" 12])])).2)
      = Returned (ResJson (JList all_passwords)) ∧
    ResJson (JDict [("data", JList [JDict [("id", JNum 12)]]);
                    ("passwords", JList [password_of "root" 12;
                                         password_of "bios" 12])])
      = ResJson (JDict [("data", JList data);
                        ("passwords",
                         JList (List.filter (belongs_to 12) all_passwords))]) ∧
    Forall (λ p, ∃ v, subscript p "passwordable_id" = Returned v) all_passwords.
Proof.
  apply (get_company_asset_envelope 5 sample_client 4 12 []
           (answers [ok_response (JDict [("asset", JDict [("id", JNum 12)])]);
                     ok_response (JList [password_of "root" 12;
                                         password_of "wifi" 9;
                                         password_of "bios" 12])])
           (ResJson (JDict [("data", JList [JDict [("id", JNum 12)]]);
                            ("passwords", JList [password_of "root" 12;
                                                 password_of "bios" 12])]))
           [("page", JNum 2); ("page_size", JNum 1000)]).
  vm_compute. reflexivity.
Defined.

Lemma layout_fields_as_assigned_witness :
  rq_method (write_request sample_client "POST" "asset_layouts"
               (asset_layout_body "Laptops" "fa-laptop" "#000000" "#ffffff"
                  [serial_field] (Some true) None None None None)) = "POST" ∧
  rq_uri (write_request sample_client "POST" "asset_layouts"
            (asset_layout_body "Laptops" "fa-laptop" "#000000" "#ffffff"
               [serial_field] (Some true) None None None None))
    = url sample_client +:+ "/" +:+ "asset_layouts" ∧
  (∃ layout,
     rq_data (write_request sample_client "POST" "asset_layouts"
                (asset_layout_body "Laptops" "fa-laptop" "#000000" "#ffffff"
                   [serial_field] (Some true) None None None None))
       = Some [("asset_layout", JDict layout)] ∧
     dict_get "fields" layout = Some (JList (JDict <$> [serial_field]))) ∧
  (∀ label show_in_list required field_type min max hint options position
     expiration linkable_id,
     dict_get "posistion"
       (Field label show_in_list required field_type min max hint options
          position expiration linkable_id) = Some (opt_json JNum position) ∧
     dict_get "position"
       (Field label show_in_list required field_type min max hint options
          position expiration linkable_id) = None ∧
     dict_get "field_type"
       (Field label show_in_list required field_type min max hint options
          position expiration linkable_id)
       = Some (JStr (FieldType_value field_type))).
Proof.
  apply (layout_fields_as_assigned 5 sample_client "Laptops" "fa-laptop" "#000000"
           "#ffffff" [serial_field] (Some true) None None None None
           (answers [bare_response 200 "OK"])
           (write_request sample_client "POST" "asset_layouts"
              (asset_layout_body "Laptops" "fa-laptop" "#000000" "#ffffff"
                 [serial_field] (Some true) None None None None))
           (inr (bare_response 200 "OK"))).
  vm_compute. constructor.
Defined.

Lemma create_asset_body_witness :
  rq_method (Request "POST" "https://docs.example.org/api/v1/companies/4/assets"
               (headers sample_client) None
               (Some [("asset",
                       JDict [("asset_layout_id", JNum 3); ("name", JStr "Laptop");
                              ("primary_serial", JStr "X1");
                              ("custom_fields",
                               JDict [("Serial Number", JStr "X1")])])]))
    = "POST" ∧
  rq_uri (Request "POST" "https://docs.example.org/api/v1/companies/4/assets"
            (headers sample_client) None
            (Some [("asset",
                    JDict [("asset_layout_id", JNum 3); ("name", JStr "Laptop");
                           ("primary_serial", JStr "X1");
                           ("custom_fields",
                            JDict [("Serial Number", JStr "X1")])])]))
    = url sample_client +:+ "/" +:+ "companies/" +:+ pretty 4 +:+ "/assets" ∧
  ∃ asset,
    rq_data (Request "POST" "https://docs.example.org/api/v1/companies/4/assets"
               (headers sample_client) None
               (Some [("asset",
                       JDict [("asset_layout_id", JNum 3); ("name", JStr "Laptop");
                              ("primary_serial", JStr "X1");
                              ("custom_fields",
                               JDict [("Serial Number", JStr "X1")])])]))
      = Some [("asset", JDict asset)] ∧
    dict_get "asset_layout_id" asset = Some (JNum 3) ∧
    dict_get "name" asset = Some (JStr "Laptop") ∧
    dict_get "custom_fields" asset = JDict <$> Some [("Serial Number", JStr "X1")] ∧
    dict_get "company_id" asset = None.
Proof.
  apply (create_asset_body 5 sample_client 4 3 "Laptop" (Some "X1") None None None
           (Some [("Serial Number", JStr "X1")])
           (answers [bare_response 200 "OK"])
           (Request "POST" "https://docs.example.org/api/v1/companies/4/assets"
              (headers sample_client) None
              (Some [("asset",
                      JDict [("asset_layout_id", JNum 3); ("name", JStr "Laptop");
                             ("primary_serial", JStr "X1");
                             ("custom_fields",
                              JDict [("Serial Number", JStr "X1")])])]))
           (inr (bare_response 200 "OK"))).
  vm_compute. constructor.
Defined.

Lemma activity_logs_filters_witness :
  rq_uri (get_request sample_client "https://docs.example.org/api/v1/activity_logs"
            [("user_id", JNum 8); ("start_date", JStr "2024-05-01T00:00:00");
             ("page", JNum 1); ("page_size", JNum 1000)])
    = url sample_client +:+ "/" +:+ "activity_logs" ∧
  param_of "user_id"
    (get_request sample_client "https://docs.example.org/api/v1/activity_logs"
       [("user_id", JNum 8); ("start_date", JStr "2024-05-01T00:00:00");
        ("page", JNum 1); ("page_size", JNum 1000)]) = JNum <$> Some 8 ∧
  param_of "user_email"
    (get_request sample_client "https://docs.example.org/api/v1/activity_logs"
       [("user_id", JNum 8); ("start_date", JStr "2024-05-01T00:00:00");
        ("page", JNum 1); ("page_size", JNum 1000)]) = JStr <$> None ∧
  param_of "resource_id"
    (get_request sample_client "https://docs.example.org/api/v1/activity_logs"
       [("user_id", JNum 8); ("start_date", JStr "2024-05-01T00:00:00");
        ("page", JNum 1); ("page_size", JNum 1000)])
    = (if is_None (@None string) then None else JNum <$> Some 12) ∧
  param_of "resource_type"
    (get_request sample_client "https://docs.example.org/api/v1/activity_logs"
       [("user_id", JNum 8); ("start_date", JStr "2024-05-01T00:00:00");
        ("page", JNum 1); ("page_size", JNum 1000)])
    = (if is_None (Some 12) then None else JStr <$> None) ∧
  param_of "action_message"
    (get_request sample_client "https://docs.example.org/api/v1/activity_logs"
       [("user_id", JNum 8); ("start_date", JStr "2024-05-01T00:00:00");
        ("page", JNum 1); ("page_size", JNum 1000)]) = JStr <$> None ∧
  param_of "start_date"
    (get_request sample_client "https://docs.example.org/api/v1/activity_logs"
       [("user_id", JNum 8); ("start_date", JStr "2024-05-01T00:00:00");
        ("page", JNum 1); ("page_size", JNum 1000)])
    = JStr <$> (isoformat <$> Some "2024-05-01T00:00:00").
Proof.
  apply (activity_logs_filters 5 sample_client (Some 8) None (Some 12) None None
           (Some "2024-05-01T00:00:00") (answers [ok_response (JList [])])
           (get_request sample_client "https://docs.example.org/api/v1/activity_logs"
              [("user_id", JNum 8); ("start_date", JStr "2024-05-01T00:00:00");
               ("page", JNum 1); ("page_size", JNum 1000)])
           (inr (ok_response (JList [])))).
  vm_compute. constructor.
Defined.
